(** * Trustpilot company-categories scraper: extraction, search and filters

    A shallow embedding of
      src/extractors/review_parser.py,
      src/extractors/company_parser.py,
      src/extractors/utils_filters.py and
      src/main.py
    together with the properties the specification states about them and
    further properties of the code.

    Python values are dynamically typed, so record fields and dictionary
    entries are values of [pyval]; operations that may raise return a
    [result].  Builtins and third-party libraries whose behaviour is not
    part of the repository (number parsing, JSON, BeautifulSoup, urllib,
    datetime, requests) are collected in the record [Env]. *)

From Stdlib Require Import ZArith List String Ascii Bool Lia DecimalString.
From Stdlib Require Import Floats.PrimFloat Floats.SpecFloat Floats.FloatOps.
Import ListNotations.

Set Warnings "-register-all".

Local Open Scope string_scope.
Local Open Scope list_scope.

(* ================================================================== *)
(** ** Python values, exceptions and builtins *)
(* ================================================================== *)

Module Py.

(** The image of JSON in Python, which is also what the dataclass fields
    hold at run time (annotations are not enforced). *)
Inductive pyval : Type :=
| VNone
| VBool (b : bool)
| VInt (z : Z)
| VFloat (f : float)
| VStr (s : string)
| VList (l : list pyval)
| VDict (d : list (string * pyval)).

(** A [dict] with string keys, in insertion order.  The keys of a Python
    dict are distinct; a lookup takes the first entry of the key. *)
Definition dict : Type := list (string * pyval).

(** Exceptions.  [ValueError] is the one raised by a builtin or a library
    (its message is not modelled); the two others are the [ValueError]s the
    repository raises itself, with the data its message is built from. *)
Inductive exn : Type :=
| TypeError
| AttributeError
| OverflowError
| ValueError
| RecursionError
| MissingParameter (search_type param : string)
| UnsupportedSearchType (search_type : string).

Inductive result (A : Type) : Type :=
| Ok (a : A)
| Raise (e : exn).

Arguments Ok {A} a.
Arguments Raise {A} e.

Definition bind {A B : Type} (m : result A) (k : A -> result B) : result B :=
  match m with
  | Ok a => k a
  | Raise e => Raise e
  end.

(** What [except (TypeError, ValueError)] catches. *)
Definition is_type_or_value_error (e : exn) : bool :=
  match e with
  | TypeError | ValueError | MissingParameter _ _ | UnsupportedSearchType _ => true
  | AttributeError | OverflowError | RecursionError => false
  end.

(** [d.get(k)] and [d.get(k, default)]. *)
Fixpoint dict_lookup (d : dict) (k : string) : option pyval :=
  match d with
  | [] => None
  | (k', v) :: d' => if String.eqb k' k then Some v else dict_lookup d' k
  end.

Definition dict_get (d : dict) (k : string) : pyval :=
  match dict_lookup d k with
  | Some v => v
  | None => VNone
  end.

Definition dict_get_default (d : dict) (k : string) (default : pyval) : pyval :=
  match dict_lookup d k with
  | Some v => v
  | None => default
  end.

(** [d[k] = v]. *)
Fixpoint dict_set (d : dict) (k : string) (v : pyval) : dict :=
  match d with
  | [] => [(k, v)]
  | (k', v') :: d' =>
      if String.eqb k' k then (k', v) :: d' else (k', v') :: dict_set d' k v
  end.

(** [bool(v)]. *)
Definition py_truthy (v : pyval) : bool :=
  match v with
  | VNone => false
  | VBool b => b
  | VInt z => negb (Z.eqb z 0)
  | VFloat f => negb (PrimFloat.eqb f 0%float)
  | VStr s => negb (String.eqb s "")
  | VList l => match l with [] => false | _ => true end
  | VDict d => match d with [] => false | _ => true end
  end.

(** [a or b]. *)
Definition py_or (a b : pyval) : pyval := if py_truthy a then a else b.

(** *** Numbers *)

(** [float(z)] for an int: round to nearest even, [OverflowError] when the
    result does not fit a double. *)
Definition float_of_int (z : Z) : result float :=
  match binary_normalize prec emax z 0 false with
  | S754_infinity _ => Raise OverflowError
  | sf => Ok (SF2Prim sf)
  end.

(** [int(f)] for a float: truncation toward zero. *)
Definition int_of_float (f : float) : result Z :=
  match Prim2SF f with
  | S754_zero _ => Ok 0%Z
  | S754_nan => Raise ValueError
  | S754_infinity _ => Raise OverflowError
  | S754_finite s m e =>
      let a := if Z.leb 0 e then (Z.pos m * 2 ^ e)%Z
               else (Z.pos m / 2 ^ (- e))%Z in
      Ok (if s then (- a)%Z else a)
  end.

(** Exact comparison of an int with a float, as Python does it;
    [None] when the float is a NaN. *)
Definition compare_int_float (z : Z) (f : float) : option comparison :=
  match Prim2SF f with
  | S754_nan => None
  | S754_infinity s => Some (if s then Gt else Lt)
  | S754_zero _ => Some (Z.compare z 0)
  | S754_finite s m e =>
      let mz := if s then Z.neg m else Z.pos m in
      Some (if Z.leb 0 e then Z.compare z (mz * 2 ^ e)
            else Z.compare (z * 2 ^ (- e)) mz)
  end.

Inductive num : Type :=
| NInt (z : Z)
| NFloat (f : float).

(** The numeric value of a [bool], [int] or [float]. *)
Definition num_of (v : pyval) : option num :=
  match v with
  | VBool b => Some (NInt (if b then 1 else 0))
  | VInt z => Some (NInt z)
  | VFloat f => Some (NFloat f)
  | _ => None
  end.

(** [a >= b] on numbers. *)
Definition num_ge (a b : num) : bool :=
  match a, b with
  | NInt x, NInt y => Z.leb y x
  | NFloat f, NFloat g => PrimFloat.leb g f
  | NInt x, NFloat g =>
      match compare_int_float x g with
      | Some Gt | Some Eq => true
      | _ => false
      end
  | NFloat f, NInt y =>
      match compare_int_float y f with
      | Some Lt | Some Eq => true
      | _ => false
      end
  end.

(** [v >= n] where the right operand is a number: any left operand that is
    not a number raises [TypeError]. *)
Definition py_ge_num (v : pyval) (n : num) : result bool :=
  match num_of v with
  | Some a => Ok (num_ge a n)
  | None => Raise TypeError
  end.

(** *** Strings *)

Definition is_ascii_char (c : ascii) : bool := Nat.ltb (nat_of_ascii c) 128.

Fixpoint is_ascii (s : string) : bool :=
  match s with
  | EmptyString => true
  | String c s' => is_ascii_char c && is_ascii s'
  end.

Definition lower_char (c : ascii) : ascii :=
  let n := nat_of_ascii c in
  if Nat.leb 65 n && Nat.leb n 90 then ascii_of_nat (n + 32) else c.

Fixpoint lower_ascii (s : string) : string :=
  match s with
  | EmptyString => EmptyString
  | String c s' => String (lower_char c) (lower_ascii s')
  end.

(** The whitespace [str.strip()] removes, among the ASCII characters. *)
Definition is_space_char (c : ascii) : bool :=
  let n := nat_of_ascii c in
  (Nat.leb 9 n && Nat.leb n 13) || (Nat.leb 28 n && Nat.leb n 32).

Fixpoint lstrip_ascii (s : string) : string :=
  match s with
  | EmptyString => EmptyString
  | String c s' => if is_space_char c then lstrip_ascii s' else s
  end.

Fixpoint rstrip_ascii (s : string) : string :=
  match s with
  | EmptyString => EmptyString
  | String c s' =>
      match rstrip_ascii s' with
      | EmptyString => if is_space_char c then EmptyString else String c EmptyString
      | t => String c t
      end
  end.

(** [s.rstrip(c)] for a one-character argument. *)
Fixpoint rstrip_char (c : ascii) (s : string) : string :=
  match s with
  | EmptyString => EmptyString
  | String a s' =>
      match rstrip_char c s' with
      | EmptyString => if Ascii.eqb a c then EmptyString else String a EmptyString
      | t => String a t
      end
  end.

(** [s.startswith(p)], [s.endswith(p)], [p in s]. *)
Definition startswith (s p : string) : bool := String.prefix p s.

Definition endswith (s p : string) : bool :=
  let n := String.length s in
  let k := String.length p in
  Nat.leb k n && String.eqb (String.substring (n - k) k s) p.

Fixpoint contains (s p : string) : bool :=
  String.prefix p s
  || match s with
     | EmptyString => false
     | String _ s' => contains s' p
     end.

(** [s.replace(c, t)] for a one-character [c]. *)
Fixpoint replace_char (c : ascii) (t : string) (s : string) : string :=
  match s with
  | EmptyString => EmptyString
  | String a s' =>
      if Ascii.eqb a c then t ++ replace_char c t s'
      else String a (replace_char c t s')
  end.

(** [sep.join(l)]. *)
Fixpoint join (sep : string) (l : list string) : string :=
  match l with
  | [] => ""
  | [s] => s
  | s :: l' => s ++ sep ++ join sep l'
  end.

(** [str(z)] for an int. *)
Definition str_of_int (z : Z) : string :=
  match z with
  | Z0 => "0"
  | Zpos p => NilEmpty.string_of_uint (Pos.to_uint p)
  | Zneg p => "-" ++ NilEmpty.string_of_uint (Pos.to_uint p)
  end.


(** *** Dictionary and set keys

    Two keys are the same entry of a [dict] or a [set] when they hash alike
    and compare equal: [True], [1] and [1.0] are one key.  [hkey] is the
    canonical form of a hashable value, so that two values are the same key
    exactly when their [hkey]s are equal.  (A NaN from [json.loads] is one
    shared object, found again by identity.) *)
Inductive hkey : Type :=
| KNone
| KStr (s : string)
| KInt (z : Z)
| KFloat (f : spec_float).

Definition hkey_of_float (f : float) : hkey :=
  match Prim2SF f with
  | S754_zero _ => KInt 0
  | S754_finite s m e =>
      let sign (a : Z) := if s then (- a)%Z else a in
      if Z.leb 0 e then KInt (sign (Z.pos m * 2 ^ e)%Z)
      else if Z.eqb (Z.pos m mod 2 ^ (- e)) 0
           then KInt (sign (Z.pos m / 2 ^ (- e))%Z)
           else KFloat (S754_finite s m e)
  | sf => KFloat sf
  end.

(** [hash(v)] succeeds on everything but a list or a dict. *)
Definition py_hash_key (v : pyval) : result hkey :=
  match v with
  | VNone => Ok KNone
  | VBool b => Ok (KInt (if b then 1 else 0))
  | VInt z => Ok (KInt z)
  | VFloat f => Ok (hkey_of_float f)
  | VStr s => Ok (KStr s)
  | VList _ | VDict _ => Raise TypeError
  end.

Definition spec_float_eq_dec (a b : spec_float) : {a = b} + {a <> b}.
Proof.
  decide equality; try apply Bool.bool_dec;
    try apply Pos.eq_dec; try apply Z.eq_dec.
Defined.

Definition hkey_eq_dec (a b : hkey) : {a = b} + {a <> b}.
Proof.
  decide equality;
    try apply string_dec; try apply Z.eq_dec; try apply spec_float_eq_dec.
Defined.

(** [k in s] for a set, or a dict's keys, held in insertion order. *)
Definition key_in (k : hkey) (s : list hkey) : bool :=
  if in_dec hkey_eq_dec k s then true else false.

(** *** What BeautifulSoup shows of a review card *)

(** The first [<time>] element of a card: its [datetime] attribute, when
    it has one, and its text ([get_text(strip=True)]). *)
Record TimeEl : Type := {
  datetime_attr : option string;
  time_text : string
}.

(** A review card.  [card_time] is [card.select_one("time")],
    [card_review_id_attr] the card's own [data-service-review-id] and
    [card_link_href] the [href] of [card.find("a", href=True)]; the other
    fields are the values the title and text selectors and the helpers
    [_extract_rating_from_card] and [_extract_consumer_from_card] read off
    the card. *)
Record Card : Type := {
  card_title : option string;
  card_text : option string;
  card_rating : option Z;
  card_time : option TimeEl;
  card_review_id_attr : option string;
  card_link_href : option string;
  card_consumer_name : option string;
  card_consumer_image : option string;
  card_consumer_verified : bool;
  card_consumer_reviews : option Z;
  card_consumer_country : option string
}.

(** What building the HTTP session can raise on a malformed
    configuration. *)
Inductive session_error : Type :=
| SessionTypeError
| SessionValueError
| SessionAttributeError.

Definition exn_of_session_error (e : session_error) : exn :=
  match e with
  | SessionTypeError => TypeError
  | SessionValueError => ValueError
  | SessionAttributeError => AttributeError
  end.

(** The exceptions of a library call that the [except] clause around the
    call does not name, and that escape it. *)
Inductive lib_error : Type :=
| LibValueError
| LibTypeError
| LibRecursionError.

Definition exn_of_lib_error (e : lib_error) : exn :=
  match e with
  | LibValueError => ValueError
  | LibTypeError => TypeError
  | LibRecursionError => RecursionError
  end.

(** What [json.loads(raw)] ends with: the value; [json.JSONDecodeError];
    or another exception (a [ValueError] on an integer literal of more than
    4300 digits, a [RecursionError] on deep nesting). *)
Inductive loaded : Type :=
| Loaded (data : pyval)
| DecodeError
| LoadRaises (e : lib_error).

(** What [session.get(...)] ends with: a response, with its [ok] and its
    [text]; a [requests.RequestException]; or another exception. *)
Inductive response : Type :=
| Response (ok : bool) (text : string)
| RequestException
| GetRaises (e : lib_error).

(** *** The environment: builtins and libraries outside the repository

    Strings are byte strings holding UTF-8.  The operations above act on
    ASCII characters only, which is what Python does on ASCII text; on text
    with other characters [str.lower] and [str.strip] are the
    environment's. *)
Record Env : Type := {
  (** [float(s)] on a string; [None] is [ValueError]. *)
  float_of_str : string -> option float;
  (** [int(s)] on a string; [None] is [ValueError]. *)
  int_of_str : string -> option Z;
  (** [s.lower()] and [s.strip()] on text that is not ASCII. *)
  lower_unicode : string -> string;
  strip_unicode : string -> string;
  (** [str(f)] and [format(f, ".1f")] on a float. *)
  str_of_float : float -> string;
  format_1f : float -> string;
  (** [str(v)] on a list or a dict. *)
  str_of_container : pyval -> string;
  (** [json.loads(s)]. *)
  json_loads : string -> loaded;
  (** The text ([script.string or script.text]) of every
      [<script type="application/ld+json">] of a page, in document order. *)
  ld_json_scripts : string -> list string;
  (** [urljoin(base, url)], [urlparse(url).netloc] and [urlparse(url).path];
      [None] is the [ValueError] urllib raises on a malformed URL. *)
  urljoin : string -> string -> option string;
  urlparse_netloc : string -> option string;
  urlparse_path : string -> option string;
  (** [datetime.fromisoformat(s).isoformat()]; [None] when parsing raises. *)
  iso_normalize : string -> option string;
  (** [_create_session(config)]: building the HTTP session from the
      configuration; [Some e] when that raises. *)
  create_session_error : dict -> option session_error;
  (** [session.get(url)], and
      [session.get(company_url, params={"languages": language})]. *)
  session_get : string -> response;
  session_get_languages : pyval -> pyval -> response;
  (** [soup.select("[data-service-review-id]") or soup.select(".review-card")]:
      the review cards of a page, in document order. *)
  review_cards : string -> list Card
}.

Section Builtins.
Variable E : Env.

Definition str_lower (s : string) : string :=
  if is_ascii s then lower_ascii s else lower_unicode E s.

Definition str_strip (s : string) : string :=
  if is_ascii s then rstrip_ascii (lstrip_ascii s) else strip_unicode E s.

(** [v.lower()]: only a [str] has the method. *)
Definition py_lower (v : pyval) : result string :=
  match v with
  | VStr s => Ok (str_lower s)
  | _ => Raise AttributeError
  end.

(** [float(v)]. *)
Definition py_float (v : pyval) : result float :=
  match v with
  | VNone => Raise TypeError
  | VBool b => Ok (if b then 1%float else 0%float)
  | VInt z => float_of_int z
  | VFloat f => Ok f
  | VStr s =>
      match float_of_str E s with
      | Some f => Ok f
      | None => Raise ValueError
      end
  | VList _ | VDict _ => Raise TypeError
  end.

(** [int(v)]. *)
Definition py_int (v : pyval) : result Z :=
  match v with
  | VNone => Raise TypeError
  | VBool b => Ok (if b then 1%Z else 0%Z)
  | VInt z => Ok z
  | VFloat f => int_of_float f
  | VStr s =>
      match int_of_str E s with
      | Some z => Ok z
      | None => Raise ValueError
      end
  | VList _ | VDict _ => Raise TypeError
  end.

(** [str(v)]. *)
Definition py_str (v : pyval) : string :=
  match v with
  | VNone => "None"
  | VBool true => "True"
  | VBool false => "False"
  | VInt z => str_of_int z
  | VFloat f => str_of_float E f
  | VStr s => s
  | VList _ | VDict _ => str_of_container E v
  end.

(** The helper both parsers and the filters define:
<<
  try:
      if value is None: return None
      return int(value)          # float(value) in _safe_float
  except (TypeError, ValueError):
      return None
>>
    Any other exception of the conversion ([OverflowError]) escapes. *)
Definition _safe_int (value : pyval) : result (option Z) :=
  match value with
  | VNone => Ok None
  | _ =>
      match py_int value with
      | Ok z => Ok (Some z)
      | Raise e => if is_type_or_value_error e then Ok None else Raise e
      end
  end.

Definition _safe_float (value : pyval) : result (option float) :=
  match value with
  | VNone => Ok None
  | _ =>
      match py_float value with
      | Ok f => Ok (Some f)
      | Raise e => if is_type_or_value_error e then Ok None else Raise e
      end
  end.

End Builtins.

End Py.

Import Py.

Notation "x <- m ;; k" := (bind m (fun x => k))
  (at level 61, m at next level, right associativity).

(* ================================================================== *)
(** ** src/extractors/review_parser.py: the link of a review card *)
(* ================================================================== *)

Module review_link.

(** [s.split(c)] for a one-character separator. *)
Fixpoint split_char (c : ascii) (s : string) : list string :=
  match s with
  | EmptyString => [EmptyString]
  | String a s' =>
      if Ascii.eqb a c then EmptyString :: split_char c s'
      else
        match split_char c s' with
        | seg :: rest => String a seg :: rest
        | [] => [String a EmptyString]
        end
  end.

(** The truth value of a [str]: [if p]. *)
Definition nonempty (p : string) : bool := negb (String.eqb p "").

(** [link] is [card.find("a", href=True)], given by its [href]
    ([None] when the card has no such link); [urlparse_path href] is
    [urlparse(href).path], [None] when [urlparse] raises its [ValueError].
<<
  link = card.find("a", href=True)
  if not link:
      return None
  href = link["href"]
  parsed = urlparse(href)
  parts = [p for p in parsed.path.split("/") if p]
  if parts:
      return parts[-1]
  return href
>> *)
Definition _extract_review_id (urlparse_path : string -> option string)
           (link : option string) : result (option string) :=
  match link with
  | None => Ok None
  | Some href =>
      match urlparse_path href with
      | None => Raise ValueError
      | Some path =>
          let parts := filter nonempty (split_char "/" path) in
          match parts with
          | [] => Ok (Some href)
          | _ :: _ => Ok (Some (last parts ""))
          end
      end
  end.

End review_link.

(* ================================================================== *)
(** ** src/extractors/review_parser.py *)
(* ================================================================== *)

Module review_parser.

Import review_link.

Record Consumer : Type := {
  consumer_id : option string;
  displayName : option string;
  imageUrl : option string;
  isVerified : bool;
  numberOfReviews : option Z;
  countryCode : option string
}.

(** The [date] dict of a review: its one key, [createdAt]. *)
Record DateRecord : Type := {
  createdAt : option string
}.

Record Review : Type := {
  id : option string;
  text : option string;
  title : option string;
  rating : option Z;
  date : DateRecord;
  consumer : Consumer
}.

Section WithEnv.
Variable E : Env.

(**
<<
  try:
      dt = datetime.fromisoformat(raw.replace("Z", "+00:00"))
      created_at = dt.isoformat()
  except Exception:
      created_at = raw
  return {"createdAt": created_at}
>> *)
Definition _parse_date_iso (raw : string) : DateRecord :=
  match iso_normalize E (replace_char "Z" "+00:00" raw) with
  | Some iso => {| createdAt := Some iso |}
  | None => {| createdAt := Some raw |}
  end.

(**
<<
  date_el = card.select_one("time")
  date_raw = date_el["datetime"] if date_el and date_el.has_attr("datetime") else (
      date_el.get_text(strip=True) if date_el else "")
>> *)
Definition date_raw (date_el : option TimeEl) : string :=
  match date_el with
  | Some el =>
      match datetime_attr el with
      | Some d => d
      | None => time_text el
      end
  | None => ""
  end.

(** [date_obj = _parse_date_iso(date_raw) if date_raw else {"createdAt": None}] *)
Definition date_obj (date_el : option TimeEl) : DateRecord :=
  let raw := date_raw date_el in
  if String.eqb raw "" then {| createdAt := None |} else _parse_date_iso raw.

Definition _extract_consumer_from_card (card : Card) : Consumer :=
  {| consumer_id := None;
     displayName := card_consumer_name card;
     imageUrl := card_consumer_image card;
     isVerified := card_consumer_verified card;
     numberOfReviews := card_consumer_reviews card;
     countryCode := card_consumer_country card |}.

(** [card.get("data-service-review-id") or _extract_review_id(card)] *)
Definition review_id_of_card (card : Card) : result (option string) :=
  match card_review_id_attr card with
  | Some s =>
      if String.eqb s ""
      then _extract_review_id (urlparse_path E) (card_link_href card)
      else Ok (Some s)
  | None => _extract_review_id (urlparse_path E) (card_link_href card)
  end.

(** The body of the loop over the cards. *)
Definition review_of_card (card : Card) : result Review :=
  review_id <- review_id_of_card card ;;
  Ok {| id := review_id;
        text := card_text card;
        title := card_title card;
        rating := card_rating card;
        date := date_obj (card_time card);
        consumer := _extract_consumer_from_card card |}.

(** The loop over the cards: the exception of a card ends it. *)
Fixpoint reviews_of_cards (cards : list Card) : result (list Review) :=
  match cards with
  | [] => Ok []
  | card :: rest =>
      review <- review_of_card card ;;
      reviews <- reviews_of_cards rest ;;
      Ok (review :: reviews)
  end.

Definition _parse_reviews_from_html (html : string) : result (list Review) :=
  reviews_of_cards (review_cards E html).

(** [reviews[:max_reviews]]: the bound must be an int (a bool is one). *)
Definition slice_to (reviews : list Review) (stop : pyval) : result (list Review) :=
  match stop with
  | VInt z => Ok (firstn (Z.to_nat z) reviews)
  | VBool b => Ok (firstn (if b then 1 else 0) reviews)
  | _ => Raise TypeError
  end.

(**
<<
  try:
      resp = session.get(company_url, params={"languages": language})
  except requests.RequestException as exc:
      return []
  if not resp.ok:
      return []
  reviews = _parse_reviews_from_html(resp.text)
  if max_reviews is not None and max_reviews >= 0:
      reviews = reviews[: max_reviews]
  return reviews
>> *)
Definition fetch_reviews (company_url language max_reviews : pyval)
  : result (list Review) :=
  match session_get_languages E company_url language with
  | RequestException => Ok []
  | GetRaises e => Raise (exn_of_lib_error e)
  | Response ok page =>
      if negb ok then Ok []
      else
        reviews <- _parse_reviews_from_html page ;;
        match max_reviews with
        | VNone => Ok reviews
        | _ =>
            nonneg <- py_ge_num max_reviews (NInt 0) ;;
            if nonneg then slice_to reviews max_reviews else Ok reviews
        end
  end.

End WithEnv.

End review_parser.

(* ================================================================== *)
(** ** src/extractors/company_parser.py *)
(* ================================================================== *)

Module company_parser.

Import review_parser.

Record Company : Type := {
  ID : pyval;
  domain : pyval;
  ratingValue : pyval;
  reviewCount : pyval;
  name : pyval;
  description : pyval;
  image : pyval;
  country : pyval;
  address : pyval;
  city : pyval;
  zipCode : pyval;
  website : pyval;
  email : pyval;
  phone : pyval;
  categories : list string;
  categoriesID : list string;
  lastReviews : list Review;
  reviews : list Review;
  rating : dict;
  data : dict;
  similarBusinessUnits : list dict;
  aiSummary : dict;
  sourceUrl : pyval
}.

(** Assignments to the attributes the code writes after construction. *)
Definition set_categories (c : Company) (v : list string) : Company :=
  {| ID := ID c; domain := domain c; ratingValue := ratingValue c;
     reviewCount := reviewCount c; name := name c; description := description c;
     image := image c; country := country c; address := address c; city := city c;
     zipCode := zipCode c; website := website c; email := email c; phone := phone c;
     categories := v; categoriesID := categoriesID c;
     lastReviews := lastReviews c; reviews := reviews c; rating := rating c;
     data := data c; similarBusinessUnits := similarBusinessUnits c;
     aiSummary := aiSummary c; sourceUrl := sourceUrl c |}.

Definition set_aiSummary (c : Company) (v : dict) : Company :=
  {| ID := ID c; domain := domain c; ratingValue := ratingValue c;
     reviewCount := reviewCount c; name := name c; description := description c;
     image := image c; country := country c; address := address c; city := city c;
     zipCode := zipCode c; website := website c; email := email c; phone := phone c;
     categories := categories c; categoriesID := categoriesID c;
     lastReviews := lastReviews c; reviews := reviews c; rating := rating c;
     data := data c; similarBusinessUnits := similarBusinessUnits c;
     aiSummary := v; sourceUrl := sourceUrl c |}.

Definition set_reviews (c : Company) (rs last : list Review) : Company :=
  {| ID := ID c; domain := domain c; ratingValue := ratingValue c;
     reviewCount := reviewCount c; name := name c; description := description c;
     image := image c; country := country c; address := address c; city := city c;
     zipCode := zipCode c; website := website c; email := email c; phone := phone c;
     categories := categories c; categoriesID := categoriesID c;
     lastReviews := last; reviews := rs; rating := rating c;
     data := data c; similarBusinessUnits := similarBusinessUnits c;
     aiSummary := aiSummary c; sourceUrl := sourceUrl c |}.

(** *** The clock

    [_build_ai_summary] reads [datetime.now(timezone.utc)].  A run is given
    the readings of the clock, [now k] being what the k-th call returns
    (already through [isoformat()]), and counts its calls. *)
Definition M (A : Type) : Type := nat -> result (A * nat).

Definition ret {A : Type} (a : A) : M A := fun n => Ok (a, n).

Definition bindM {A B : Type} (m : M A) (k : A -> M B) : M B :=
  fun n =>
    match m n with
    | Ok (a, n') => k a n'
    | Raise e => Raise e
    end.

Definition lift {A : Type} (r : result A) : M A :=
  fun n =>
    match r with
    | Ok a => Ok (a, n)
    | Raise e => Raise e
    end.

Definition raise {A : Type} (e : exn) : M A := fun _ => Raise e.

Definition read_clock (now : nat -> string) : M string :=
  fun n => Ok (now n, S n).

Notation "x <~ m ;; k" := (bindM m (fun x => k))
  (at level 61, m at next level, right associativity).

(** [sorted(set(l))] on strings. *)
Fixpoint insert_sorted (s : string) (l : list string) : list string :=
  match l with
  | [] => [s]
  | x :: l' =>
      match String.compare s x with
      | Lt => s :: l
      | Eq => l
      | Gt => x :: insert_sorted s l'
      end
  end.

Definition sorted_set (l : list string) : list string :=
  fold_right insert_sorted [] l.

(** [sep.join(l)] on values: every item must be a [str]. *)
Fixpoint strs_of (l : list pyval) : result (list string) :=
  match l with
  | [] => Ok []
  | VStr s :: l' => ss <- strs_of l' ;; Ok (s :: ss)
  | _ :: _ => Raise TypeError
  end.

(** [v.get(k)] on a value: only a dict has the method. *)
Definition py_get (v : pyval) (k : string) : result pyval :=
  match v with
  | VDict d => Ok (dict_get d k)
  | _ => Raise AttributeError
  end.

Section WithEnv.
Variable E : Env.
Variable now : nat -> string.

(** [format(v, ".1f")], the [{...:.1f}] of an f-string. *)
Definition py_format_1f (v : pyval) : result string :=
  match v with
  | VFloat f => Ok (format_1f E f)
  | VInt z => f <- float_of_int z ;; Ok (format_1f E f)
  | VBool b => Ok (format_1f E (if b then 1%float else 0%float))
  | VStr _ => Raise ValueError
  | VNone | VList _ | VDict _ => Raise TypeError
  end.

(**
<<
  if not url: return None
  parsed = urlparse(url)
  return parsed.netloc or None
>> *)
Definition _extract_domain (url : pyval) : result pyval :=
  if negb (py_truthy url) then Ok VNone
  else
    match url with
    | VStr s =>
        match urlparse_netloc E s with
        | Some netloc => Ok (py_or (VStr netloc) VNone)
        | None => Raise ValueError
        end
    | _ => Raise AttributeError
    end.

Definition is_none (v : pyval) : bool :=
  match v with
  | VNone => true
  | _ => false
  end.

(** The four sentence fragments of the summary, in order. *)
Definition summary_parts (company : Company) : result (list string) :=
  let p1 :=
    if py_truthy (name company)
    then [(py_str E (name company) ++ " is a business listed on Trustpilot")%string]
    else ["This business is listed on Trustpilot"] in
  let p2 :=
    match categories company with
    | [] => []
    | cats =>
        [("operating in the " ++ join ", " (sorted_set cats) ++ " sector")%string]
    end in
  p3 <- (if py_truthy (country company)
         then
           bits <- strs_of (filter py_truthy [city company; country company]) ;;
           let loc := join ", " bits in
           Ok (if String.eqb loc "" then []
               else [("and appears to be based in " ++ loc)%string])
         else Ok []) ;;
  p4 <- (if negb (is_none (ratingValue company))
            && negb (is_none (reviewCount company))
         then
           r <- py_format_1f (ratingValue company) ;;
           Ok [("with an average rating of " ++ r ++ " from "
                ++ py_str E (reviewCount company) ++ " reviews")%string]
         else if negb (is_none (ratingValue company))
         then
           r <- py_format_1f (ratingValue company) ;;
           Ok [("and an average rating of " ++ r)%string]
         else Ok []) ;;
  Ok (p1 ++ p2 ++ p3 ++ p4).

(**
<<
  summary = ", ".join(parts).strip()
  if summary and not summary.endswith("."):
      summary += "."
  return {"summary": summary, "status": "success", "lang": "en",
          "updatedAt": datetime.now(timezone.utc).isoformat()}
>> *)
Definition _build_ai_summary (company : Company) : M dict :=
  parts <~ lift (summary_parts company) ;;
  let summary := str_strip E (join ", " parts) in
  let summary :=
    if negb (String.eqb summary "") && negb (endswith summary ".")
    then (summary ++ ".")%string else summary in
  updated_at <~ read_clock now ;;
  ret [("summary", VStr summary);
       ("status", VStr "success");
       ("lang", VStr "en");
       ("updatedAt", VStr updated_at)].

(** [[t.lower() for t in at_type]] *)
Fixpoint lower_all (l : list pyval) : result (list string) :=
  match l with
  | [] => Ok []
  | t :: l' => s <- py_lower E t ;; ss <- lower_all l' ;; Ok (s :: ss)
  end.

(**
<<
  at_type = data.get("@type")
  if isinstance(at_type, list):
      types = [t.lower() for t in at_type]
  elif isinstance(at_type, str):
      types = [at_type.lower()]
  else:
      types = []
>> *)
Definition declared_types (data : dict) : result (list string) :=
  match dict_get data "@type" with
  | VList l => lower_all l
  | VStr s => Ok [str_lower E s]
  | _ => Ok []
  end.

(** [any(t in ("organization", "localbusiness") for t in types)] *)
Definition is_business (types : list string) : bool :=
  existsb (fun t => String.eqb t "organization" || String.eqb t "localbusiness")
          types.

(**
<<
  url = data.get("url") or data.get("@id") or None
  if url and url.startswith("/"):
      url = urljoin(base_url, url)
>> *)
Definition resolve_url (data : dict) (base_url : string) : result pyval :=
  let url := py_or (py_or (dict_get data "url") (dict_get data "@id")) VNone in
  if py_truthy url then
    match url with
    | VStr s =>
        if startswith s "/" then
          match urljoin E base_url s with
          | Some u => Ok (VStr u)
          | None => Raise ValueError
          end
        else Ok url
    | _ => Raise AttributeError
    end
  else Ok url.

(**
<<
  address_data = data.get("address") or {}
  if isinstance(address_data, list) and address_data:
      address_data = address_data[0]
  if not isinstance(address_data, dict):
      address_data = {}
>> *)
Definition address_of (data : dict) : dict :=
  let address_data := py_or (dict_get data "address") (VDict []) in
  let address_data :=
    match address_data with
    | VList (first :: _) => first
    | v => v
    end in
  match address_data with
  | VDict d => d
  | _ => []
  end.

(**
<<
  website_url = None
  same_as = data.get("sameAs")
  if isinstance(same_as, list):
      for entry in same_as:
          if isinstance(entry, str) and "trustpilot" not in entry:
              website_url = entry
              break
  elif isinstance(same_as, str):
      website_url = same_as
>> *)
Fixpoint first_external (same_as : list pyval) : pyval :=
  match same_as with
  | [] => VNone
  | VStr entry :: rest =>
      if negb (contains entry "trustpilot") then VStr entry
      else first_external rest
  | _ :: rest => first_external rest
  end.

Definition website_of (data : dict) : pyval :=
  match dict_get data "sameAs" with
  | VList l => first_external l
  | VStr s => VStr s
  | _ => VNone
  end.

Definition opt_str (f : option string) : pyval :=
  match f with
  | Some s => VStr s
  | None => VNone
  end.

(** The body of [_company_from_ld_json] once [data] is known to be a
    business object. *)
Definition build_company (data : dict) (base_url : string)
           (categories_id_hint : option string) : M Company :=
  url <~ lift (resolve_url data base_url) ;;
  let agg := py_or (dict_get data "aggregateRating") (VDict []) in
  rating_raw <~ lift (py_get agg "ratingValue") ;;
  rating_value <~ lift (_safe_float E rating_raw) ;;
  count_raw <~ lift (py_get agg "reviewCount") ;;
  review_count <~ lift (_safe_int E count_raw) ;;
  let address_data := address_of data in
  let postal := py_or (dict_get address_data "postalCode") VNone in
  let city_ := py_or (dict_get address_data "addressLocality") VNone in
  let country_ := py_or (dict_get address_data "addressCountry") VNone in
  let street := py_or (dict_get address_data "streetAddress") VNone in
  let website_url := website_of data in
  domain_ <~ lift (_extract_domain (py_or website_url url)) ;;
  best <~ lift (py_get agg "bestRating") ;;
  worst <~ lift (py_get agg "worstRating") ;;
  let company :=
    {| ID := py_or (dict_get data "@id") (py_or (py_or domain_ url) (VStr ""));
       domain := domain_;
       ratingValue := match rating_value with
                      | Some f => VFloat f
                      | None => VNone
                      end;
       reviewCount := match review_count with
                      | Some z => VInt z
                      | None => VNone
                      end;
       name := dict_get data "name";
       description := dict_get data "description";
       image := dict_get data "image";
       country := country_;
       address := street;
       city := city_;
       zipCode := postal;
       website := website_url;
       email := VNone;
       phone := dict_get data "telephone";
       categories := [];
       categoriesID := match categories_id_hint with
                       | Some h => if String.eqb h "" then [] else [h]
                       | None => []
                       end;
       lastReviews := [];
       reviews := [];
       rating :=
         [("bestRating", VStr (py_str E (py_or best (VStr "5"))));
          ("worstRating", VStr (py_str E (py_or worst (VStr "1"))));
          ("ratingValue", opt_str (option_map (str_of_float E) rating_value));
          ("reviewCount", opt_str (option_map str_of_int review_count))];
       data :=
         [("one", VInt 0); ("two", VInt 0); ("three", VInt 0);
          ("four", VInt 0); ("five", VInt 0);
          ("total", VInt (match review_count with
                          | Some z => z
                          | None => 0%Z
                          end))];
       similarBusinessUnits := [];
       aiSummary := [];
       sourceUrl := url |} in
  let company :=
    match py_or (dict_get data "category") (dict_get data "keywords") with
    | VList l => set_categories company (map (py_str E) l)
    | VStr s => set_categories company [s]
    | _ => company
    end in
  summary <~ _build_ai_summary company ;;
  ret (set_aiSummary company summary).

(** [None] is the [return None] of an object that is not a business. *)
Definition _company_from_ld_json (data : pyval) (base_url : string)
           (categories_id_hint : option string) : M (option Company) :=
  match data with
  | VDict d =>
      types <~ lift (declared_types d) ;;
      if negb (is_business types) then ret None
      else
        company <~ build_company d base_url categories_id_hint ;;
        ret (Some company)
  | _ => ret None
  end.

(** The inner loop of [_parse_ld_json_blocks], over the objects of one
    block; [acc] is ([companies], [seen_ids]). *)
Fixpoint parse_items (items : list pyval) (base_url : string)
         (categories_id_hint : option string)
         (acc : list Company * list hkey) : M (list Company * list hkey) :=
  match items with
  | [] => ret acc
  | item :: rest =>
      match item with
      | VDict _ =>
          company <~ _company_from_ld_json item base_url categories_id_hint ;;
          match company with
          | Some c =>
              k <~ lift (py_hash_key (ID c)) ;;
              if negb (key_in k (snd acc))
              then parse_items rest base_url categories_id_hint
                               (fst acc ++ [c], snd acc ++ [k])
              else parse_items rest base_url categories_id_hint acc
          | None => parse_items rest base_url categories_id_hint acc
          end
      | _ => parse_items rest base_url categories_id_hint acc
      end
  end.

(** The outer loop, over the script blocks of the page. *)
Fixpoint parse_scripts (scripts : list string) (base_url : string)
         (categories_id_hint : option string)
         (acc : list Company * list hkey) : M (list Company * list hkey) :=
  match scripts with
  | [] => ret acc
  | raw :: rest =>
      if String.eqb raw "" then
        parse_scripts rest base_url categories_id_hint acc
      else
        match json_loads E raw with
        | DecodeError => parse_scripts rest base_url categories_id_hint acc
        | LoadRaises e => raise (exn_of_lib_error e)
        | Loaded data =>
            let items :=
              match data with
              | VList l => l
              | v => [v]
              end in
            acc' <~ parse_items items base_url categories_id_hint acc ;;
            parse_scripts rest base_url categories_id_hint acc'
        end
  end.

Definition _parse_ld_json_blocks (html base_url : string)
           (categories_id_hint : option string) : M (list Company) :=
  acc <~ parse_scripts (ld_json_scripts E html) base_url categories_id_hint
                       ([], []) ;;
  ret (fst acc).

(**
<<
  for company in companies:
      if not company.sourceUrl:
          continue
      try:
          reviews = fetch_reviews(...)
      except Exception as exc:
          continue
      company.reviews = reviews
      company.lastReviews = reviews[:3] if reviews else []
>> *)
Definition attach_reviews (language max_reviews : pyval) (company : Company)
  : Company :=
  if negb (py_truthy (sourceUrl company)) then company
  else
    match fetch_reviews E (sourceUrl company) language max_reviews with
    | Ok rs => set_reviews company rs (firstn 3 rs)
    | Raise _ => company
    end.

Definition _attach_reviews_to_companies (companies : list Company)
           (config params : dict) : list Company :=
  let include_reviews := py_truthy (dict_get params "includeReviews") in
  if negb include_reviews then companies
  else
    let max_reviews := dict_get params "maxReviewsPerCompany" in
    let language :=
      py_or (dict_get params "language")
            (dict_get_default config "defaultLanguage" (VStr "en")) in
    map (attach_reviews language max_reviews) companies.

(**
<<
  if params.get("allPages"):
      return int(config.get("maxPages", 5))
  return int(params.get("pages", 1) or 1)
>> *)
Definition _limit_pages (params config : dict) : result Z :=
  if py_truthy (dict_get params "allPages")
  then py_int E (dict_get_default config "maxPages" (VInt 5))
  else py_int E (py_or (dict_get_default params "pages" (VInt 1)) (VInt 1)).

(**
<<
  try:
      resp = session.get(url)
      if not resp.ok:
          return None
      return resp.text
  except requests.RequestException as exc:
      return None
>> *)
Definition _fetch_page (url : string) : result (option string) :=
  match session_get E url with
  | Response ok page => if negb ok then Ok None else Ok (Some page)
  | RequestException => Ok None
  | GetRaises e => Raise (exn_of_lib_error e)
  end.

(** [range(1, pages_to_fetch + 1)] *)
Definition page_range (pages_to_fetch : Z) : list Z :=
  map Z.of_nat (seq 1 (Z.to_nat pages_to_fetch)).

(** The loop over the listing pages both paged searches run; [url_of] is
    the f-string that builds the address of a page. *)
Fixpoint fetch_pages (url_of : Z -> string) (base_url : string)
         (categories_id_hint : option string) (pages : list Z)
         (companies : list Company) : M (list Company) :=
  match pages with
  | [] => ret companies
  | page :: rest =>
      match _fetch_page (url_of page) with
      | Ok (Some html) =>
          if String.eqb html "" then
            fetch_pages url_of base_url categories_id_hint rest companies
          else
            batch <~ _parse_ld_json_blocks html base_url categories_id_hint ;;
            fetch_pages url_of base_url categories_id_hint rest
                        (companies ++ batch)
      | Ok None => fetch_pages url_of base_url categories_id_hint rest companies
      | Raise e => raise e
      end
  end.

Definition _search_by_category (base_url : string) (params config : dict)
  : M (list Company) :=
  let category_id := dict_get params "categoryId" in
  if negb (py_truthy category_id)
  then raise (MissingParameter "category" "categoryId")
  else
    pages_to_fetch <~ lift (_limit_pages params config) ;;
    let url_of (page : Z) :=
      (base_url ++ "/categories/" ++ py_str E category_id
                ++ "?page=" ++ str_of_int page)%string in
    companies <~ fetch_pages url_of base_url (Some (py_str E category_id))
                             (page_range pages_to_fetch) [] ;;
    ret (_attach_reviews_to_companies companies config params).

Definition _search_by_keyword (base_url : string) (params config : dict)
  : M (list Company) :=
  let keyword := dict_get params "keyword" in
  if negb (py_truthy keyword)
  then raise (MissingParameter "keyword" "keyword")
  else
    pages_to_fetch <~ lift (_limit_pages params config) ;;
    let url_of (page : Z) :=
      (base_url ++ "/search?query=" ++ py_str E keyword
                ++ "&page=" ++ str_of_int page)%string in
    companies <~ fetch_pages url_of base_url None
                             (page_range pages_to_fetch) [] ;;
    ret (_attach_reviews_to_companies companies config params).

Definition _search_detail (base_url : string) (params config : dict)
  : M (list Company) :=
  let domain_ := dict_get params "domain" in
  if negb (py_truthy domain_)
  then raise (MissingParameter "detail" "domain")
  else
    let url := (base_url ++ "/review/" ++ py_str E domain_)%string in
    match _fetch_page url with
    | Ok None => ret []
    | Ok (Some html) =>
        if String.eqb html "" then ret []
        else
          companies <~ _parse_ld_json_blocks html base_url None ;;
          match companies with
          | [] => ret []
          | _ => ret (_attach_reviews_to_companies companies config params)
          end
    | Raise e => raise e
    end.

(** The key of the last loop of [search_companies]:
<<
      if not company.ID:
          key = company.domain or company.sourceUrl or ""
      else:
          key = company.ID
>> *)
Definition identity_key (company : Company) : pyval :=
  if negb (py_truthy (ID company))
  then py_or (py_or (domain company) (sourceUrl company)) (VStr "")
  else ID company.

(**
<<
  unique: Dict[str, Company] = {}
  for company in companies:
      ...
      if key and key not in unique:
          unique[key] = company
>>
    The dict keeps its entries in insertion order. *)
Fixpoint unique_loop (companies : list Company)
         (unique : list (hkey * Company)) : result (list (hkey * Company)) :=
  match companies with
  | [] => Ok unique
  | company :: rest =>
      let key := identity_key company in
      if py_truthy key then
        k <- py_hash_key key ;;
        if negb (key_in k (map fst unique))
        then unique_loop rest (unique ++ [(k, company)])
        else unique_loop rest unique
      else unique_loop rest unique
  end.

(** [list(unique.values())] *)
Definition unique_companies (companies : list Company) : result (list Company) :=
  unique <- unique_loop companies [] ;;
  Ok (map snd unique).

(** [config.get("baseUrl", "https://www.trustpilot.com").rstrip("/")] *)
Definition base_url_of (config : dict) : result string :=
  match dict_get_default config "baseUrl" (VStr "https://www.trustpilot.com") with
  | VStr s => Ok (rstrip_char "/" s)
  | _ => Raise AttributeError
  end.

Definition _create_session (config : dict) : result unit :=
  match create_session_error E config with
  | Some e => Raise (exn_of_session_error e)
  | None => Ok tt
  end.

(** [(params.get("searchType") or "category").lower()] *)
Definition search_type_of (params : dict) : result string :=
  py_lower E (py_or (dict_get params "searchType") (VStr "category")).

(** [search_companies] up to the list [companies] it then removes the
    duplicates from. *)
Definition collect_companies (params config : dict) : M (list Company) :=
  base_url <~ lift (base_url_of config) ;;
  _ <~ lift (_create_session config) ;;
  search_type <~ lift (search_type_of params) ;;
  if String.eqb search_type "category" then
    _search_by_category base_url params config
  else if String.eqb search_type "keyword" then
    _search_by_keyword base_url params config
  else if String.eqb search_type "detail" then
    _search_detail base_url params config
  else raise (UnsupportedSearchType search_type).

Definition search_companies (params config : dict) : M (list Company) :=
  companies <~ collect_companies params config ;;
  lift (unique_companies companies).

End WithEnv.

End company_parser.

(* ================================================================== *)
(** ** src/extractors/utils_filters.py *)
(* ================================================================== *)

Module utils_filters.

Import company_parser.

(** The local variables [apply_company_filters] reads off [params]. *)
Record Filters : Type := {
  min_trust : option float;
  verified_only : bool;
  min_reviews : option Z;
  country_filter : pyval
}.

Section WithEnv.
Variable E : Env.

(**
<<
  if not country: return True
  if not company.country: return False
  return company.country.lower() == country.lower()
>> *)
Definition _matches_country (company : Company) (country : pyval) : result bool :=
  if negb (py_truthy country) then Ok true
  else if negb (py_truthy (company_parser.country company)) then Ok false
  else
    a <- py_lower E (company_parser.country company) ;;
    b <- py_lower E country ;;
    Ok (String.eqb a b).

(**
<<
  if minimum is None: return True
  if company.reviewCount is None: return False
  return company.reviewCount >= minimum
>> *)
Definition _has_min_reviews (company : Company) (minimum : option Z) : result bool :=
  match minimum with
  | None => Ok true
  | Some m =>
      if is_none (reviewCount company) then Ok false
      else py_ge_num (reviewCount company) (NInt m)
  end.

(**
<<
  if min_trust_score is None: return True
  rating = _safe_float(company.ratingValue)
  if rating is None: return False
  return rating >= min_trust_score
>> *)
Definition _meets_min_trust (company : Company) (min_trust_score : option float)
  : result bool :=
  match min_trust_score with
  | None => Ok true
  | Some m =>
      rating <- _safe_float E (ratingValue company) ;;
      match rating with
      | None => Ok false
      | Some r => Ok (PrimFloat.leb m r)
      end
  end.

(**
<<
  if company.ratingValue is None or company.reviewCount is None:
      return False
  return company.ratingValue >= 4.0 and company.reviewCount >= 50
>> *)
Definition _is_verified (company : Company) : result bool :=
  if is_none (ratingValue company) || is_none (reviewCount company) then Ok false
  else
    a <- py_ge_num (ratingValue company) (NFloat 4.0%float) ;;
    if a then py_ge_num (reviewCount company) (NInt 50) else Ok false.

(**
<<
  min_trust = _safe_float(params.get("minTrustScore"))
  verified_only = bool(params.get("verifiedOnly"))
  min_reviews = params.get("minReviews")
  try:
      min_reviews = int(min_reviews) if min_reviews is not None else None
  except (TypeError, ValueError):
      min_reviews = None
  country = params.get("country")
>> *)
Definition read_filters (params : dict) : result Filters :=
  mt <- _safe_float E (dict_get params "minTrustScore") ;;
  mr <- _safe_int E (dict_get params "minReviews") ;;
  Ok {| min_trust := mt;
        verified_only := py_truthy (dict_get params "verifiedOnly");
        min_reviews := mr;
        country_filter := dict_get params "country" |}.

(** The body of the loop: [true] when the company reaches
    [filtered.append(company)], [false] at a [continue]. *)
Definition passes (f : Filters) (company : Company) : result bool :=
  a <- _meets_min_trust company (min_trust f) ;;
  if negb a then Ok false else
  b <- _matches_country company (country_filter f) ;;
  if negb b then Ok false else
  c <- _has_min_reviews company (min_reviews f) ;;
  if negb c then Ok false else
  if verified_only f then
    d <- _is_verified company ;;
    Ok d
  else Ok true.

Fixpoint filter_loop (f : Filters) (companies : list Company)
  : result (list Company) :=
  match companies with
  | [] => Ok []
  | company :: rest =>
      keep <- passes f company ;;
      filtered <- filter_loop f rest ;;
      Ok (if keep then company :: filtered else filtered)
  end.

Definition apply_company_filters (companies : list Company) (params : dict)
  : result (list Company) :=
  f <- read_filters params ;;
  filter_loop f companies.

End WithEnv.

End utils_filters.

(* ================================================================== *)
(** ** A reference environment and sample data *)
(* ================================================================== *)

Module Reference.

Import review_parser company_parser utils_filters.

Definition digit (c : ascii) : option nat :=
  let n := nat_of_ascii c in
  if Nat.leb 48 n && Nat.leb n 57 then Some (n - 48) else None.

Definition two_digits (a b : ascii) : option nat :=
  match digit a, digit b with
  | Some x, Some y => Some (10 * x + y)
  | _, _ => None
  end.

Definition in_range (v : option nat) (lo hi : nat) : bool :=
  match v with
  | Some n => Nat.leb lo n && Nat.leb n hi
  | None => false
  end.

Definition is_digit (c : ascii) : bool :=
  match digit c with
  | Some _ => true
  | None => false
  end.

(** A sample of [datetime.fromisoformat(s).isoformat()]: the texts of the
    shape [YYYY-MM-DDTHH:MM:SS] and [YYYY-MM-DDTHH:MM:SS+HH:MM], which come
    back as they are, days being checked against 31 only.  Every other text
    is rejected here, also those Python reads (another separator than [T],
    fractional seconds); the examples below hand it texts of the two shapes
    and texts that are no dates. *)
Definition iso_normalize_ref (s : string) : option string :=
  match list_ascii_of_string s with
  | y1 :: y2 :: y3 :: y4 :: d1 :: m1 :: m2 :: d2 :: a1 :: a2 :: t ::
    h1 :: h2 :: c1 :: i1 :: i2 :: c2 :: s1 :: s2 :: offset =>
      if is_digit y1 && is_digit y2 && is_digit y3 && is_digit y4
         && Ascii.eqb d1 "-" && Ascii.eqb d2 "-" && Ascii.eqb t "T"
         && Ascii.eqb c1 ":" && Ascii.eqb c2 ":"
         && in_range (two_digits m1 m2) 1 12
         && in_range (two_digits a1 a2) 1 31
         && in_range (two_digits h1 h2) 0 23
         && in_range (two_digits i1 i2) 0 59
         && in_range (two_digits s1 s2) 0 59
      then
        let stem :=
          string_of_list_ascii
            [y1; y2; y3; y4; d1; m1; m2; d2; a1; a2; "T"%char;
             h1; h2; c1; i1; i2; c2; s1; s2] in
        match offset with
        | [] => Some stem
        | [sg; o1; o2; c3; o3; o4] =>
            if Ascii.eqb sg "+" && Ascii.eqb c3 ":"
               && in_range (two_digits o1 o2) 0 23
               && in_range (two_digits o3 o4) 0 59
            then Some (stem ++ string_of_list_ascii offset)%string
            else None
        | _ => None
        end
      else None
  | _ => None
  end.

(** The double quote, to write JSON and HTML text. *)
Definition q : string := String (ascii_of_nat 34) EmptyString.

(** [{"@type": "Organization", "@id": "https://acme.example/", "name": "Acme"}] *)
Definition org_text : string :=
  ("{" ++ q ++ "@type" ++ q ++ ": " ++ q ++ "Organization" ++ q ++ ", "
       ++ q ++ "@id" ++ q ++ ": " ++ q ++ "https://acme.example/" ++ q ++ ", "
       ++ q ++ "name" ++ q ++ ": " ++ q ++ "Acme" ++ q ++ "}")%string.

(** [{"@type": "LocalBusiness"}] *)
Definition anonymous_text : string :=
  ("{" ++ q ++ "@type" ++ q ++ ": " ++ q ++ "LocalBusiness" ++ q ++ "}")%string.

(** [{"@type": "Person"}] *)
Definition person_text : string :=
  ("{" ++ q ++ "@type" ++ q ++ ": " ++ q ++ "Person" ++ q ++ "}")%string.

(** Not JSON. *)
Definition malformed_text : string := "{not json".

Definition script (body : string) : string :=
  ("<script type=" ++ q ++ "application/ld+json" ++ q ++ ">" ++ body
                   ++ "</script>")%string.

Definition page_1 : string := (script org_text ++ script anonymous_text)%string.

Definition page_2 : string :=
  (script org_text ++ script malformed_text ++ script org_text)%string.

Definition page_2_without_malformed : string :=
  (script org_text ++ script org_text)%string.

Definition page_person : string :=
  (script malformed_text ++ script person_text)%string.

Fixpoint zeros (n : nat) : string :=
  match n with
  | O => ""
  | S k => String "0" (zeros k)
  end.

(** [{"@type": "Organization", "founded": 1000...0}], the integer of 4301
    digits: JSON that Python's parser refuses with a plain [ValueError]
    (the limit on the conversion of integer strings). *)
Definition huge_int_text : string :=
  ("{" ++ q ++ "@type" ++ q ++ ": " ++ q ++ "Organization" ++ q ++ ", "
       ++ q ++ "founded" ++ q ++ ": 1" ++ zeros 4300 ++ "}")%string.

Definition page_huge : string := (script org_text ++ script huge_int_text)%string.

(** [json.loads] on the sample texts; the only other text handed to it
    below is [malformed_text]. *)
Definition json_loads_ref (s : string) : loaded :=
  if String.eqb s org_text
  then Loaded (VDict [("@type", VStr "Organization");
                      ("@id", VStr "https://acme.example/");
                      ("name", VStr "Acme")])
  else if String.eqb s anonymous_text
  then Loaded (VDict [("@type", VStr "LocalBusiness")])
  else if String.eqb s person_text
  then Loaded (VDict [("@type", VStr "Person")])
  else if String.eqb s huge_int_text
  then LoadRaises LibValueError
  else DecodeError.

(** The ld+json scripts of the sample pages. *)
Definition ld_json_scripts_ref (html : string) : list string :=
  if String.eqb html page_1 then [org_text; anonymous_text]
  else if String.eqb html page_2 then [org_text; malformed_text; org_text]
  else if String.eqb html page_2_without_malformed then [org_text; org_text]
  else if String.eqb html page_person then [malformed_text; person_text]
  else if String.eqb html page_huge then [org_text; huge_int_text]
  else [].

(** The site: two pages of category 123 and two detail pages; any other
    address is not found. *)
Definition session_get_ref (url : string) : response :=
  if String.eqb url "https://www.trustpilot.com/categories/123?page=1"
  then Response true page_1
  else if String.eqb url "https://www.trustpilot.com/categories/123?page=2"
  then Response true page_2
  else if String.eqb url "https://www.trustpilot.com/review/example.com"
  then Response true page_person
  else if String.eqb url "https://www.trustpilot.com/review/huge.example"
  then Response true page_huge
  else Response false "".

(** [urlparse(url).netloc] on the one address of the samples. *)
Definition urlparse_netloc_ref (url : string) : option string :=
  if String.eqb url "https://acme.example/" then Some "acme.example" else Some "".

(** [urlparse(href).path] on the links of the sample cards, which are
    paths, and on [http://[], which [urlparse] refuses. *)
Definition urlparse_path_ref (href : string) : option string :=
  if String.eqb href "http://[" then None else Some href.

(** A review card with the given [data-service-review-id] and link, rated
    five stars and dated the first of January 2024. *)
Definition card_with_id (review_id_attr link_href : option string) : Card :=
  {| card_title := Some "Great"; card_text := Some "Fine service";
     card_rating := Some 5%Z;
     card_time := Some {| datetime_attr := Some "2024-01-01T00:00:00Z";
                          time_text := "Jan 1, 2024" |};
     card_review_id_attr := review_id_attr; card_link_href := link_href;
     card_consumer_name := Some "Ann"; card_consumer_image := None;
     card_consumer_verified := true; card_consumer_reviews := Some 3%Z;
     card_consumer_country := Some "DE" |}.

(** The review pages of two companies: five cards for the first, the
    second of them identified by its link only; one card with a link that
    [urlparse] refuses for the other. *)
Definition reviews_page : string := "<html>reviews of acme</html>".

Definition broken_reviews_page : string := "<html>reviews of broken</html>".

Definition review_cards_ref (html : string) : list Card :=
  if String.eqb html reviews_page
  then [card_with_id (Some "r1") None;
        card_with_id None (Some "/reviews/64f0c1/");
        card_with_id (Some "r3") (Some "/reviews/r3");
        card_with_id (Some "r4") None;
        card_with_id (Some "r5") None]
  else if String.eqb html broken_reviews_page
  then [card_with_id None (Some "http://[")]
  else [].

Definition session_get_languages_ref (company_url language : pyval) : response :=
  match company_url with
  | VStr url =>
      if String.eqb url "https://acme.example/" then Response true reviews_page
      else if String.eqb url "https://broken.example/"
      then Response true broken_reviews_page
      else RequestException
  | _ => RequestException
  end.

Definition env : Env :=
  {| float_of_str := fun s => if String.eqb s "4.5" then Some 4.5%float else None;
     int_of_str := fun s => if String.eqb s "80" then Some 80%Z else None;
     lower_unicode := fun s => s;
     strip_unicode := fun s => s;
     str_of_float := fun f => if PrimFloat.eqb f 4.5%float then "4.5" else "0.0";
     format_1f := fun f => if PrimFloat.eqb f 4.5%float then "4.5" else "0.0";
     str_of_container := fun _ => "[]";
     json_loads := json_loads_ref;
     ld_json_scripts := ld_json_scripts_ref;
     urljoin := fun base url => Some (base ++ url)%string;
     urlparse_netloc := urlparse_netloc_ref;
     urlparse_path := urlparse_path_ref;
     iso_normalize := iso_normalize_ref;
     create_session_error := fun _ => None;
     session_get := session_get_ref;
     session_get_languages := session_get_languages_ref;
     review_cards := review_cards_ref |}.

(** A company with the given identity, rating and review count, as
    [Company(ID=..., ratingValue=..., reviewCount=...)] builds it. *)
Definition company_with (id_ rating_value review_count : pyval) : Company :=
  {| ID := id_; domain := VNone; ratingValue := rating_value;
     reviewCount := review_count; name := VNone; description := VNone;
     image := VNone; country := VNone; address := VNone; city := VNone;
     zipCode := VNone; website := VNone; email := VNone; phone := VNone;
     categories := []; categoriesID := []; lastReviews := []; reviews := [];
     rating := []; data := []; similarBusinessUnits := []; aiSummary := [];
     sourceUrl := VNone |}.

(** A company with the given identity, domain and page address. *)
Definition company_of (id_ domain_ source_url : pyval) : Company :=
  {| ID := id_; domain := domain_; ratingValue := VNone;
     reviewCount := VNone; name := VNone; description := VNone;
     image := VNone; country := VNone; address := VNone; city := VNone;
     zipCode := VNone; website := VNone; email := VNone; phone := VNone;
     categories := []; categoriesID := []; lastReviews := []; reviews := [];
     rating := []; data := []; similarBusinessUnits := []; aiSummary := [];
     sourceUrl := source_url |}.

(** A review card with nothing but a [<time>] element. *)
Definition card_with_time (el : option TimeEl) : Card :=
  {| card_title := None; card_text := None; card_rating := Some 5%Z;
     card_time := el; card_review_id_attr := None; card_link_href := None;
     card_consumer_name := None; card_consumer_image := None;
     card_consumer_verified := false; card_consumer_reviews := None;
     card_consumer_country := None |}.

(** A run over the two pages of category 123, the clock reading [T0],
    [T1], ... at its calls. *)
Definition clock (k : nat) : string := ("T" ++ str_of_int (Z.of_nat k))%string.

Definition params_category : dict :=
  [("searchType", VStr "category"); ("categoryId", VStr "123"); ("pages", VInt 2)].


(** The category run with reviews asked for, four a company at most. *)
Definition params_reviews : dict :=
  [("searchType", VStr "category"); ("categoryId", VStr "123"); ("pages", VInt 2);
   ("includeReviews", VBool true); ("maxReviewsPerCompany", VInt 4)].

(** A detail run on the page with the integer of 4301 digits. *)
Definition params_huge : dict :=
  [("searchType", VStr "detail"); ("domain", VStr "huge.example")].

(** What that run accumulates: the company of the first page, the
    company without an identity, and the first one again from page 2. *)
Definition collected_category : list Company :=
  Eval vm_compute in
    match collect_companies env clock params_category [] 0 with
    | Ok (companies, _) => companies
    | Raise _ => []
    end.

End Reference.

(* ================================================================== *)
(** ** src/main.py *)
(* ================================================================== *)

Module main_py.

Import company_parser utils_filters.

(** How a run of [main] ends: by [sys.exit(1)], or at its last line, the
    companies having been handed to [export_companies] and written. *)
Inductive outcome : Type :=
| Exit1
| Completed (written : list Company).

(**
<<
  config = load_json(config_path)
  if not isinstance(config, dict):
      raise ValueError("Configuration JSON must be an object at the top level.")
  return config
>>
    [config_json] is what [load_json] returns, [None] when it raises. *)
Definition load_config (config_json : option pyval) : option dict :=
  match config_json with
  | Some (VDict config) => Some config
  | _ => None
  end.

(** [main], from the two files read to the file written.  [input_json] and
    [config_json] are what [load_json] returns on the input and on the
    configuration file, [None] when it raises (no file, not JSON);
    [export_ok companies] is [false] when [export_companies] raises.  The
    clock is at its first reading.
<<
  try:
      params = load_json(input_path)
  except Exception as exc:
      sys.exit(1)
  if not isinstance(params, dict):
      sys.exit(1)
  try:
      config = load_config(config_path)
  except Exception as exc:
      sys.exit(1)
  try:
      companies = search_companies(params, config)
  except Exception as exc:
      sys.exit(1)
  try:
      companies = apply_company_filters(companies, params)
  except Exception as exc:
      sys.exit(1)
  if not companies:
      logger.warning("No companies found after scraping and filtering.")
  try:
      export_companies(companies, output_path)
  except Exception as exc:
      sys.exit(1)
>> *)
Definition main (E : Env) (now : nat -> string)
           (input_json config_json : option pyval)
           (export_ok : list Company -> bool) : outcome :=
  match input_json with
  | Some (VDict params) =>
      match load_config config_json with
      | Some config =>
          match search_companies E now params config 0 with
          | Ok (companies, _) =>
              match apply_company_filters E companies params with
              | Ok companies =>
                  if export_ok companies then Completed companies else Exit1
              | Raise _ => Exit1
              end
          | Raise _ => Exit1
          end
      | None => Exit1
      end
  | _ => Exit1
  end.

End main_py.

(* ================================================================== *)
(** ** Properties *)
(* ================================================================== *)

Import review_parser company_parser utils_filters.

(** The entry of [unique] a company is filed under by the last loop of
    [search_companies]: [Ok None] when its identity key is falsy (empty) and
    the company is passed over, [Raise] when the key cannot be hashed. *)
Definition key_of (c : Company) : result (option hkey) :=
  if py_truthy (identity_key c)
  then k <- py_hash_key (identity_key c) ;; Ok (Some k)
  else Ok None.

(** [Subseq l1 l2]: [l1] is [l2] with some elements left out, the others
    in their order. *)
Inductive Subseq {A : Type} : list A -> list A -> Prop :=
| Subseq_nil : Subseq [] []
| Subseq_skip : forall x l1 l2, Subseq l1 l2 -> Subseq l1 (x :: l2)
| Subseq_keep : forall x l1 l2, Subseq l1 l2 -> Subseq (x :: l1) (x :: l2).

#[local] Hint Constructors Subseq : core.

(** The strings of a list of strings; [None] when an item is not one. *)
Fixpoint strings_of (l : list pyval) : option (list string) :=
  match l with
  | [] => Some []
  | VStr s :: l' => option_map (cons s) (strings_of l')
  | _ :: _ => None
  end.

(** The type names an object declares, when its [@type] is a string or a
    list of strings. *)
Definition type_names (d : dict) : option (list string) :=
  match dict_get d "@type" with
  | VStr s => Some [s]
  | VList l => strings_of l
  | _ => None
  end.

(** [t] is [Organization] or [LocalBusiness], whatever its case. *)
Definition names_business (E : Env) (t : string) : Prop :=
  str_lower E t = "organization" \/ str_lower E t = "localbusiness".




(** One run of the Structured-Data Extractor, the clock reading [now]. *)
Definition extract (E : Env) (now : nat -> string) (html base_url : string)
           (categories_id_hint : option string) : result (list Company) :=
  match _parse_ld_json_blocks E now html base_url categories_id_hint 0 with
  | Ok (companies, _) => Ok companies
  | Raise e => Raise e
  end.

(** A company with the timestamp of its summary blanked. *)
Definition without_timestamp (c : Company) : Company :=
  set_aiSummary c (dict_set (aiSummary c) "updatedAt" VNone).

(** Two companies that differ in the timestamp of their summary at most. *)
Definition same_but_timestamp (c1 c2 : Company) : Prop :=
  without_timestamp c1 = without_timestamp c2.

Definition same_summary (s1 s2 : dict) : Prop :=
  dict_set s1 "updatedAt" VNone = dict_set s2 "updatedAt" VNone.

Definition same_option (o1 o2 : option Company) : Prop :=
  match o1, o2 with
  | Some c1, Some c2 => same_but_timestamp c1 c2
  | None, None => True
  | _, _ => False
  end.

(** The state of the extractor's loops: the companies found, up to their
    timestamps, and the identities seen. *)
Definition same_acc (a1 a2 : list Company * list hkey) : Prop :=
  map without_timestamp (fst a1) = map without_timestamp (fst a2)
  /\ snd a1 = snd a2.

Definition map_result {A B : Type} (f : A -> B) (r : result A) : result B :=
  match r with
  | Ok a => Ok (f a)
  | Raise e => Raise e
  end.

(** Two runs that went the same way: the same exception, or results
    related by [R] after the same number of clock readings. *)
Definition sim {A : Type} (R : A -> A -> Prop) (r1 r2 : result (A * nat)) : Prop :=
  match r1, r2 with
  | Ok (a1, n1), Ok (a2, n2) => R a1 a2 /\ n1 = n2
  | Raise e1, Raise e2 => e1 = e2
  | _, _ => False
  end.

(** The reading of the specification: a literal [Z] at the end of the text
    stands for the offset [+00:00]. *)
Definition trailing_Z_as_utc (raw : string) : string :=
  if endswith raw "Z"
  then (String.substring 0 (String.length raw - 1) raw ++ "+00:00")%string
  else raw.

(** The [createdAt] of a review as the specification words it: the
    [datetime] attribute of the time element, else its text; re-serialized
    when it parses once a trailing [Z] is read as the offset, verbatim
    otherwise; null without a time element. *)
Definition created_at_as_specified (E : Env) (card : Card) : option string :=
  match card_time card with
  | None => None
  | Some el =>
      let raw := match datetime_attr el with
                 | Some d => d
                 | None => time_text el
                 end in
      match iso_normalize E (trailing_Z_as_utc raw) with
      | Some iso => Some iso
      | None => Some raw
      end
  end.

(** A value that is [None] or a [str]. *)
Definition str_or_none (v : pyval) : Prop :=
  v = VNone \/ exists s, v = VStr s.

(** A company whose rating, review count and country are of the types the
    dataclass declares. *)
Definition declared_types_hold (c : Company) : Prop :=
  (ratingValue c = VNone \/ exists x, ratingValue c = VFloat x)
  /\ (reviewCount c = VNone \/ exists n, reviewCount c = VInt n)
  /\ str_or_none (country c).

(** A company whose identity key can be hashed. *)
Definition hashable_key (c : Company) : Prop :=
  exists k, py_hash_key (identity_key c) = Ok k.

(** A computation that does not raise the unsupported-mode error. *)
Definition safe {A : Type} (r : result A) : Prop :=
  forall s, r <> Raise (UnsupportedSearchType s).

Definition safeM {A : Type} (m : M A) : Prop := forall n, safe (m n).

(** [r] is [companies] without the companies of empty key and without the
    later companies of a key already met: no key twice, the order kept,
    every company of [r] the first of its key, and every key present. *)
Definition first_of_each_key (companies r : list Company) : Prop :=
  NoDup (map key_of r)
  /\ Subseq r companies
  /\ (forall c, In c r ->
        exists l1 l2, companies = l1 ++ c :: l2
          /\ forall c', In c' l1 -> key_of c' <> key_of c)
  /\ (forall c k, In c companies -> key_of c = Ok (Some k) ->
        exists c', In c' r /\ key_of c' = Ok (Some k)).

(** The review-count histogram of a company with [total] reviews: no
    granular data, the total only. *)
Definition histogram (total : Z) : dict :=
  [("one", VInt 0); ("two", VInt 0); ("three", VInt 0);
   ("four", VInt 0); ("five", VInt 0); ("total", VInt total)].

(** The ids of the companies of a list, as set elements. *)
Definition id_keys (l : list Company) : list (result hkey) :=
  map (fun c => py_hash_key (ID c)) l.

(** The state of the extractor's loops: [seen_ids] holds the ids of the
    companies found, each once. *)
Definition ids_seen (acc : list Company * list hkey) : Prop :=
  Forall2 (fun c k => py_hash_key (ID c) = Ok k) (fst acc) (snd acc)
  /\ NoDup (snd acc).

(** An exception of a builtin or a library, not one of the two the
    repository raises itself. *)
Definition is_builtin (e : exn) : bool :=
  match e with
  | MissingParameter _ _ | UnsupportedSearchType _ => false
  | TypeError | AttributeError | OverflowError | ValueError
  | RecursionError => true
  end.

(** A computation that raises builtin exceptions only. *)
Definition builtin_only {A : Type} (r : result A) : Prop :=
  forall e, r = Raise e -> is_builtin e = true.

Definition builtin_onlyM {A : Type} (m : M A) : Prop :=
  forall n, builtin_only (m n).


(** [categoriesID] as the constructor sets it:
    [[categories_id_hint] if categories_id_hint else []]. *)
Definition ids_of_hint (hint : option string) : list string :=
  match hint with
  | Some h => if String.eqb h "" then [] else [h]
  | None => []
  end.

(** The hint a search hands to the extractor: [str(category_id)] in a
    category search, none in a keyword or a detail search. *)
Definition hint_of (E : Env) (params : dict) (search_type : string)
  : option string :=
  if String.eqb search_type "category"
  then Some (py_str E (dict_get params "categoryId"))
  else None.

(** [keeps E f c]: the loop of the filters reaches
    [filtered.append(company)] on [c]. *)
Definition keeps (E : Env) (f : Filters) (c : Company) : bool :=
  match passes E f c with
  | Ok true => true
  | _ => false
  end.

(** A company as [c] with [v] for country. *)
Definition with_country (c : Company) (v : pyval) : Company :=
  {| ID := ID c; domain := domain c; ratingValue := ratingValue c;
     reviewCount := reviewCount c; name := name c; description := description c;
     image := image c; country := v; address := address c; city := city c;
     zipCode := zipCode c; website := website c; email := email c; phone := phone c;
     categories := categories c; categoriesID := categoriesID c;
     lastReviews := lastReviews c; reviews := reviews c; rating := rating c;
     data := data c; similarBusinessUnits := similarBusinessUnits c;
     aiSummary := aiSummary c; sourceUrl := sourceUrl c |}.

(** [only_char c s]: [s] is made of the character [c] only (or is empty);
    [has_char c s]: [c] occurs in [s]. *)
Fixpoint only_char (c : ascii) (s : string) : bool :=
  match s with
  | EmptyString => true
  | String a s' => Ascii.eqb a c && only_char c s'
  end.

Fixpoint has_char (c : ascii) (s : string) : bool :=
  match s with
  | EmptyString => false
  | String a s' => Ascii.eqb a c || has_char c s'
  end.

(** [raw] holds no [Z] before its last character. *)
Definition no_inner_Z (raw : string) : bool :=
  negb (has_char "Z" (String.substring 0 (String.length raw - 1) raw)).

(** The [createdAt] of a review with an empty date text read as no date:
    the [datetime] attribute of the time element, else its text; null when
    that text is empty or there is no time element; else re-serialized when
    it parses once a trailing [Z] is read as the offset, verbatim
    otherwise. *)
Definition created_at_amended (E : Env) (card : Card) : option string :=
  match card_time card with
  | None => None
  | Some el =>
      let raw := match datetime_attr el with
                 | Some d => d
                 | None => time_text el
                 end in
      if String.eqb raw "" then None
      else
        match iso_normalize E (trailing_Z_as_utc raw) with
        | Some iso => Some iso
        | None => Some raw
        end
  end.

(** The resolved identity key of a company as the specification words it:
    the [ID]; the [domain] when the [ID] is empty; the [sourceUrl] when the
    [domain] is empty too; and the empty string when the three are empty. *)
Definition resolved_key (c : Company) : pyval :=
  if py_truthy (ID c) then ID c
  else if py_truthy (domain c) then domain c
  else if py_truthy (sourceUrl c) then sourceUrl c
  else VStr "".

(** The resolved key as Python compares it with another: two companies
    have equal keys when these are equal. *)
Definition dict_key (c : Company) : result hkey := py_hash_key (resolved_key c).

(** [r] is [companies] deduplicated by resolved key: no two companies of
    [r] have equal keys; [r] is in the order of [companies]; every company
    of [r] has a non-empty key and is the first of [companies] with its key;
    and every company of [companies] with a non-empty key has the company of
    its key in [r]. *)
Definition deduplicated (companies r : list Company) : Prop :=
  NoDup (map dict_key r)
  /\ Subseq r companies
  /\ (forall c, In c r ->
        py_truthy (resolved_key c) = true
        /\ exists l1 l2, companies = l1 ++ c :: l2
             /\ forall c', In c' l1 -> dict_key c' <> dict_key c)
  /\ (forall c, In c companies -> py_truthy (resolved_key c) = true ->
        exists c', In c' r /\ dict_key c' = dict_key c).




Lemma Subseq_refl {A : Type} (l : list A) : Subseq l l.
Proof. induction l; auto. Qed.

Lemma Subseq_nil_l {A : Type} (l : list A) : Subseq [] l.
Proof. induction l; auto. Qed.

Lemma Subseq_In {A : Type} (l1 l2 : list A) :
  Subseq l1 l2 -> forall x, In x l1 -> In x l2.
Proof.
  induction 1; simpl; intros y Hy; auto.
  destruct Hy as [-> | Hy]; auto.
Qed.

Lemma bind_Ok {A B : Type} (m : result A) (k : A -> result B) (b : B) :
  bind m k = Ok b -> exists a, m = Ok a /\ k a = Ok b.
Proof. destruct m; simpl; intros H; [eauto | discriminate]. Qed.

(** Inversion of a chain of [bind]s that ends in [Ok]. *)
Ltac inv_bind :=
  repeat match goal with
    | H : bind _ _ = Ok _ |- _ =>
        let a := fresh "a" in
        let Ha := fresh "Ha" in
        apply bind_Ok in H; destruct H as (a & Ha & H)
    | H : Ok _ = Ok _ |- _ => inversion H; subst; clear H
    | H : Raise _ = Ok _ |- _ => discriminate H
    end.

(* ------------------------------------------------------------------ *)
(** *** The filter engine *)

Section Filters.
Variable E : Env.

Lemma filter_loop_Subseq (f : Filters) (cs r : list Company) :
  filter_loop E f cs = Ok r -> Subseq r cs.
Proof.
  revert r; induction cs as [|c cs IH]; simpl; intros r H.
  - inv_bind. auto.
  - inv_bind. destruct a; auto.
Qed.

Lemma filter_loop_passes (f : Filters) (cs r : list Company) :
  filter_loop E f cs = Ok r -> Forall (fun c => passes E f c = Ok true) r.
Proof.
  revert r; induction cs as [|c cs IH]; simpl; intros r H.
  - inv_bind. constructor.
  - inv_bind. destruct a; auto.
Qed.

Lemma filter_loop_fixed (f : Filters) (r : list Company) :
  Forall (fun c => passes E f c = Ok true) r -> filter_loop E f r = Ok r.
Proof.
  induction 1 as [|c r Hc _ IH]; simpl; auto.
  rewrite Hc, IH. reflexivity.
Qed.

(** What [passes] is, predicate by predicate. *)
Lemma passes_true_iff (f : Filters) (c : Company) :
  passes E f c = Ok true <->
  _meets_min_trust E c (min_trust f) = Ok true
  /\ _matches_country E c (country_filter f) = Ok true
  /\ _has_min_reviews c (min_reviews f) = Ok true
  /\ (verified_only f = true -> _is_verified c = Ok true).
Proof.
  unfold passes.
  destruct (_meets_min_trust E c (min_trust f)) as [[|]|e]; simpl;
    try (split; [discriminate | intros (H & _); discriminate]).
  destruct (_matches_country E c (country_filter f)) as [[|]|e]; simpl;
    try (split; [discriminate | intros (_ & H & _); discriminate]).
  destruct (_has_min_reviews c (min_reviews f)) as [[|]|e]; simpl;
    try (split; [discriminate | intros (_ & _ & H & _); discriminate]).
  destruct (verified_only f).
  - destruct (_is_verified c) as [[|]|e]; simpl.
    + tauto.
    + split; [discriminate | intros (_ & _ & _ & H); specialize (H eq_refl); discriminate].
    + split; [discriminate | intros (_ & _ & _ & H); specialize (H eq_refl); discriminate].
  - split; auto. intros _. repeat split; auto. discriminate.
Qed.


End Filters.

(** Idempotence with the exception included: filtering the result again
    neither changes it nor raises, and a run that raises stays as it is. *)
Lemma apply_company_filters_twice (E : Env) (c : list Company) (p : dict) :
  (r <- apply_company_filters E c p ;; apply_company_filters E r p)
  = apply_company_filters E c p.
Proof.
  unfold apply_company_filters.
  destruct (read_filters E p) as [f|e]; simpl; auto.
  destruct (filter_loop E f c) as [r|e] eqn:Hr; simpl; auto.
  apply filter_loop_fixed, (filter_loop_passes E f c r Hr).
Qed.

(** On companies of the declared types the filters do not raise, once the
    parameters are read and the country asked for is a string or absent. *)
Lemma apply_company_filters_total (E : Env) (c : list Company) (p : dict)
      (f : Filters) :
  read_filters E p = Ok f ->
  str_or_none (country_filter f) ->
  Forall declared_types_hold c ->
  exists r, apply_company_filters E c p = Ok r.
Proof.
  intros Hf Hcountry Hc. unfold apply_company_filters. rewrite Hf. simpl.
  induction Hc as [|x l (Hr & Hn & Hco) _ (r & IH)]; simpl; eauto.
  assert (Hp : exists b, passes E f x = Ok b).
  { unfold passes, _meets_min_trust, _matches_country, _has_min_reviews,
      _is_verified, py_ge_num.
    destruct Hr as [-> | (y & ->)], Hn as [-> | (m & ->)],
          Hco as [-> | (s1 & ->)], Hcountry as [-> | (s2 & ->)];
      destruct (min_trust f), (min_reviews f), (verified_only f); simpl;
      repeat match goal with
        | |- context [if ?b then _ else _] => destruct b; simpl
        end; eauto. }
  destruct Hp as (b & ->). rewrite IH. simpl. eauto.
Qed.

(** C7: for every company list [c] and filter parameters [p], the list
    [apply_company_filters(c, p)] returns is [c] with some companies left
    out and the others in their order, and filtering it again with [p]
    returns it unchanged. *)
Theorem apply_company_filters_subset_idempotent
  (E : Env) (c : list Company) (p : dict) (r : list Company) :
  apply_company_filters E c p = Ok r ->
  Subseq r c /\ apply_company_filters E r p = Ok r.
Proof.
  unfold apply_company_filters. intros H.
  destruct (read_filters E p) as [f|e]; simpl in *; [|discriminate].
  split.
  - eapply filter_loop_Subseq; eauto.
  - apply filter_loop_fixed. eapply filter_loop_passes; eauto.
Qed.

Lemma apply_company_filters_subset_idempotent_witness :
  let c := [Reference.company_with (VStr "a") (VFloat 4.5) (VInt 100);
            Reference.company_with (VStr "b") (VFloat 3.0) (VInt 10);
            Reference.company_with (VStr "c") (VStr "4.5") VNone] in
  let p := [("minTrustScore", VInt 4)] in
  let r := [Reference.company_with (VStr "a") (VFloat 4.5) (VInt 100);
            Reference.company_with (VStr "c") (VStr "4.5") VNone] in
  Subseq r c /\ apply_company_filters Reference.env r p = Ok r.
Proof.
  intros c p r.
  apply (apply_company_filters_subset_idempotent Reference.env c p r).
  vm_compute. reflexivity.
Defined.




(* ------------------------------------------------------------------ *)
(** *** Global deduplication *)

Lemma key_in_true (k : hkey) (l : list hkey) : key_in k l = true <-> In k l.
Proof.
  unfold key_in. destruct (in_dec hkey_eq_dec k l); split; auto; discriminate.
Qed.

Lemma key_in_false (k : hkey) (l : list hkey) : key_in k l = false <-> ~ In k l.
Proof.
  unfold key_in. destruct (in_dec hkey_eq_dec k l); split; auto;
    try discriminate; tauto.
Qed.

(** One round of the loop, by the entry the company is filed under. *)
Lemma unique_loop_cons (c : Company) (rest : list Company)
      (unique : list (hkey * Company)) :
  unique_loop (c :: rest) unique =
  match key_of c with
  | Raise e => Raise e
  | Ok None => unique_loop rest unique
  | Ok (Some k) =>
      if key_in k (map fst unique) then unique_loop rest unique
      else unique_loop rest (unique ++ [(k, c)])
  end.
Proof.
  unfold key_of. simpl.
  destruct (py_truthy (identity_key c)); auto.
  destruct (py_hash_key (identity_key c)); simpl; auto.
  destruct (key_in a (map fst unique)); auto.
Qed.

Lemma NoDup_snoc {A : Type} (l : list A) (x : A) :
  NoDup l -> ~ In x l -> NoDup (l ++ [x]).
Proof.
  induction l as [|y l IH]; simpl; intros Hl Hx.
  - constructor; [intros [] | constructor].
  - inversion Hl; subst. constructor.
    + rewrite in_app_iff. simpl. intros [Hy | [Hy | []]]; auto.
    + apply IH; auto.
Qed.

(** What the loop adds to [unique]. *)
Lemma unique_loop_inv (cs : list Company) :
  forall unique unique',
    unique_loop cs unique = Ok unique' ->
    exists added,
      unique' = unique ++ added
      /\ Subseq (map snd added) cs
      /\ Forall (fun kc => key_of (snd kc) = Ok (Some (fst kc))) added
      /\ (NoDup (map fst unique) -> NoDup (map fst unique'))
      /\ (forall k c, In (k, c) added ->
            ~ In k (map fst unique)
            /\ exists l1 l2, cs = l1 ++ c :: l2
                 /\ forall c', In c' l1 -> key_of c' <> Ok (Some k))
      /\ (forall c k, In c cs -> key_of c = Ok (Some k) ->
            In k (map fst unique')).
Proof.
  induction cs as [|c rest IH]; intros unique unique' H.
  - simpl in H. inversion H; subst. exists []. rewrite app_nil_r.
    split; [reflexivity|]. split; [constructor|]. split; [constructor|].
    split; [auto|]. split; [intros k c []|intros c k []].
  - rewrite unique_loop_cons in H.
    destruct (key_of c) as [[k0|]|e] eqn:Hc; try discriminate.
    + destruct (key_in k0 (map fst unique)) eqn:Hin.
      * apply key_in_true in Hin.
        destruct (IH _ _ H) as (added & -> & Hsub & Hall & Hnd & Hfirst & Hcov).
        exists added.
        split; [reflexivity|]. split; [simpl; auto|]. split; [auto|].
        split; [auto|]. split.
        -- intros k c0 Hkc.
           destruct (Hfirst k c0 Hkc) as (Hk & l1 & l2 & -> & Hl1).
           split; auto.
           exists (c :: l1), l2. split; auto.
           intros c' [<- | Hc']; auto.
           rewrite Hc. intros Heq. inversion Heq; subst. contradiction.
        -- intros c1 k [<- | Hc1] Hk; eauto.
           rewrite Hc in Hk. inversion Hk; subst.
           rewrite map_app. apply in_or_app. auto.
      * apply key_in_false in Hin.
        destruct (IH _ _ H) as (added & -> & Hsub & Hall & Hnd & Hfirst & Hcov).
        exists ((k0, c) :: added). rewrite <- app_assoc. simpl.
        split; [reflexivity|]. split; [auto|].
        split; [constructor; auto|]. split.
        -- intros Hu.
           replace (unique ++ (k0, c) :: added)
             with ((unique ++ [(k0, c)]) ++ added)
             by (rewrite <- app_assoc; reflexivity).
           apply Hnd. rewrite map_app. simpl. apply NoDup_snoc; auto.
        -- split.
           ++ intros k c0 [Heq | Hin'].
              ** inversion Heq; subst. split; auto.
                 exists [], rest. split; [reflexivity | intros c' []].
              ** destruct (Hfirst k c0 Hin') as (Hk & l1 & l2 & -> & Hl1).
                 rewrite map_app, in_app_iff in Hk. simpl in Hk.
                 split; [tauto|].
                 exists (c :: l1), l2. split; auto.
                 intros c' [<- | Hc']; auto.
                 rewrite Hc. intros Heq. inversion Heq; subst. tauto.
           ++ intros c1 k [<- | Hc1] Hk.
              ** rewrite Hc in Hk. inversion Hk; subst.
                 rewrite map_app, in_app_iff. right. simpl. auto.
              ** specialize (Hcov c1 k Hc1 Hk).
                 rewrite <- app_assoc in Hcov. exact Hcov.
    + destruct (IH _ _ H) as (added & -> & Hsub & Hall & Hnd & Hfirst & Hcov).
      exists added.
      split; [reflexivity|]. split; [simpl; auto|]. split; [auto|].
      split; [auto|]. split.
      * intros k c0 Hkc.
        destruct (Hfirst k c0 Hkc) as (Hk & l1 & l2 & -> & Hl1).
        split; auto.
        exists (c :: l1), l2. split; auto.
        intros c' [<- | Hc']; auto.
        rewrite Hc. discriminate.
      * intros c1 k [<- | Hc1] Hk; eauto.
        rewrite Hc in Hk. discriminate.
Qed.

Lemma bindM_Ok {A B : Type} (m : M A) (k : A -> M B) (n : nat) (x : B * nat) :
  bindM m k n = Ok x -> exists a n1, m n = Ok (a, n1) /\ k a n1 = Ok x.
Proof.
  unfold bindM. destruct (m n) as [[a n1]|e]; [eauto | discriminate].
Qed.

Lemma lift_Ok {A : Type} (r : result A) (n : nat) (a : A) (n' : nat) :
  lift r n = Ok (a, n') -> r = Ok a /\ n' = n.
Proof.
  unfold lift. destruct r; intros H; inversion H; auto.
Qed.

Lemma search_companies_Ok (E : Env) (now : nat -> string) (params config : dict)
      (n : nat) (r : list Company) (n' : nat) :
  search_companies E now params config n = Ok (r, n') ->
  exists companies,
    collect_companies E now params config n = Ok (companies, n')
    /\ unique_companies companies = Ok r.
Proof.
  unfold search_companies. intros H.
  apply bindM_Ok in H. destruct H as (cs & n1 & Hc & H).
  apply lift_Ok in H. destruct H as (H & ->). eauto.
Qed.

Lemma unique_companies_first_of_each_key (companies r : list Company) :
  unique_companies companies = Ok r -> first_of_each_key companies r.
Proof.
  unfold unique_companies. intros H. inv_bind.
  destruct (unique_loop_inv _ _ _ Ha)
    as (added & -> & Hsub & Hall & Hnd & Hfirst & Hcov).
  simpl in *. specialize (Hnd (NoDup_nil _)).
  assert (Hkey : forall kc, In kc added -> key_of (snd kc) = Ok (Some (fst kc))).
  { apply Forall_forall. exact Hall. }
  split; [|split; [exact Hsub|split]].
  - clear - Hnd Hkey.
    induction added as [|[k c] l IH]; simpl in *; [constructor|].
    inversion Hnd; subst. constructor.
    + intros Hin. apply in_map_iff in Hin. destruct Hin as (c' & Hc' & Hin).
      apply in_map_iff in Hin. destruct Hin as ([k' c''] & Heq & Hin).
      simpl in Heq. subst c'.
      pose proof (Hkey (k', c'') (or_intror Hin)) as Hk1.
      pose proof (Hkey (k, c) (or_introl eq_refl)) as Hk2.
      simpl in Hk1, Hk2. rewrite Hk1, Hk2 in Hc'. inversion Hc'; subst.
      apply H1. apply in_map_iff. exists (k, c''). auto.
    + apply IH; auto.
  - intros c Hc. apply in_map_iff in Hc. destruct Hc as ([k c'] & <- & Hin).
    simpl. destruct (Hfirst k c' Hin) as (_ & l1 & l2 & -> & Hl1).
    exists l1, l2. split; auto.
    pose proof (Hkey (k, c') Hin) as Hk. simpl in Hk. rewrite Hk. exact Hl1.
  - intros c k Hc Hk. specialize (Hcov c k Hc Hk).
    apply in_map_iff in Hcov. destruct Hcov as ([k' c'] & Hk' & Hin).
    simpl in Hk'. subst k'. exists c'. split.
    + apply in_map_iff. exists (k, c'). auto.
    + apply (Hkey (k, c') Hin).
Qed.

(** The companies the searches accumulate have keys that can be hashed:
    their [ID] went through the page's own [seen_ids], their [domain] and
    [sourceUrl] are strings or [None]. *)
Ltac inv_bindM H :=
  repeat (cbv beta zeta in H;
          match type of H with
          | bindM (lift _) _ _ = Ok _ =>
              let a := fresh "a" in
              let n := fresh "n" in
              let Hl := fresh "Hl" in
              apply bindM_Ok in H; destruct H as (a & n & Hl & H);
              apply lift_Ok in Hl; destruct Hl as (Hl & ->)
          | bindM _ _ _ = Ok _ =>
              let a := fresh "a" in
              let n := fresh "n" in
              let Hm := fresh "Hm" in
              apply bindM_Ok in H; destruct H as (a & n & Hm & H)
          end).

Section Keys.
Variable E : Env.
Variable now : nat -> string.

Lemma resolve_url_shape (d : dict) (base : string) (u : pyval) :
  resolve_url E d base = Ok u -> str_or_none u.
Proof.
  unfold resolve_url.
  remember (py_or (py_or (dict_get d "url") (dict_get d "@id")) VNone) as url
    eqn:Hurl.
  assert (Hfalsy : py_truthy url = false -> url = VNone).
  { subst url. unfold py_or at 1 3.
    destruct (py_truthy (py_or (dict_get d "url") (dict_get d "@id"))) eqn:Hx;
      [congruence | reflexivity]. }
  destruct (py_truthy url) eqn:Ht.
  - destruct url; try discriminate.
    destruct (startswith s "/").
    + destruct (urljoin E base s); intros H; inversion H. right. eauto.
    + intros H; inversion H. right. eauto.
  - intros H; inversion H; subst u. left. auto.
Qed.

Lemma extract_domain_shape (v dm : pyval) :
  _extract_domain E v = Ok dm -> str_or_none dm.
Proof.
  unfold _extract_domain.
  destruct (negb (py_truthy v)).
  - intros H; inversion H. left. reflexivity.
  - destruct v; try discriminate.
    destruct (urlparse_netloc E s) as [netloc|]; try discriminate.
    intros H; inversion H. unfold py_or.
    destruct (py_truthy (VStr netloc)); [right; eauto | left; reflexivity].
Qed.

Lemma build_company_shape (d : dict) (base : string) (hint : option string)
      (n : nat) (c : Company) (n' : nat) :
  build_company E now d base hint n = Ok (c, n') ->
  str_or_none (domain c) /\ str_or_none (sourceUrl c).
Proof.
  unfold build_company. intros H. inv_bindM H.
  unfold ret in H. inversion H; subst c; clear H.
  match goal with
  | H : resolve_url _ _ _ = Ok _ |- _ => apply resolve_url_shape in H
  end.
  match goal with
  | H : _extract_domain _ _ = Ok _ |- _ => apply extract_domain_shape in H
  end.
  destruct (py_or (dict_get d "category") (dict_get d "keywords")); simpl; auto.
Qed.

Lemma key_hashable (c : Company) (k : hkey) :
  py_hash_key (ID c) = Ok k ->
  str_or_none (domain c) -> str_or_none (sourceUrl c) -> hashable_key c.
Proof.
  intros Hk Hd Hs. unfold hashable_key, identity_key.
  destruct (negb (py_truthy (ID c))); [|eauto].
  unfold py_or.
  destruct Hd as [-> | (s1 & ->)], Hs as [-> | (s2 & ->)]; simpl;
    repeat match goal with
      | |- context [if ?b then _ else _] => destruct b; simpl
      end; eauto.
Qed.

Lemma parse_items_keys (items : list pyval) (base : string) (hint : option string) :
  forall acc n acc' n',
    Forall hashable_key (fst acc) ->
    parse_items E now items base hint acc n = Ok (acc', n') ->
    Forall hashable_key (fst acc').
Proof.
  induction items as [|item rest IH]; intros acc n acc' n' Hacc H; simpl in H.
  - inversion H; subst. exact Hacc.
  - destruct item; try (eapply IH; eauto; fail).
    apply bindM_Ok in H. destruct H as (o & n1 & Hc & H).
    destruct o as [c|]; [|eapply IH; eauto].
    apply bindM_Ok in H. destruct H as (k & n2 & Hk & H).
    apply lift_Ok in Hk. destruct Hk as (Hk & ->).
    destruct (negb (key_in k (snd acc))); [|eapply IH; eauto].
    eapply IH; [|exact H]. simpl.
    apply Forall_app. split; auto. constructor; [|constructor].
    unfold _company_from_ld_json in Hc.
    apply bindM_Ok in Hc. destruct Hc as (ts & n3 & _ & Hc).
    destruct (negb (is_business ts)); [discriminate|].
    apply bindM_Ok in Hc. destruct Hc as (c' & n4 & Hb & Hc).
    inversion Hc; subst c'.
    apply build_company_shape in Hb. destruct Hb as (Hd & Hs).
    eapply key_hashable; eauto.
Qed.

Lemma parse_scripts_keys (scripts : list string) (base : string)
      (hint : option string) :
  forall acc n acc' n',
    Forall hashable_key (fst acc) ->
    parse_scripts E now scripts base hint acc n = Ok (acc', n') ->
    Forall hashable_key (fst acc').
Proof.
  induction scripts as [|raw rest IH]; intros acc n acc' n' Hacc H; simpl in H.
  - inversion H; subst. exact Hacc.
  - destruct (String.eqb raw ""); [eapply IH; eauto|].
    destruct (json_loads E raw) as [data| |e];
      [|eapply IH; eauto|unfold raise in H; discriminate].
    apply bindM_Ok in H. destruct H as (acc1 & n1 & Hi & H).
    eapply IH; [|exact H]. eapply parse_items_keys; eauto.
Qed.

Lemma parse_ld_json_blocks_keys (html base : string) (hint : option string)
      (n : nat) (cs : list Company) (n' : nat) :
  _parse_ld_json_blocks E now html base hint n = Ok (cs, n') ->
  Forall hashable_key cs.
Proof.
  unfold _parse_ld_json_blocks. intros H.
  apply bindM_Ok in H. destruct H as (acc & n1 & Hs & H).
  inversion H; subst.
  eapply parse_scripts_keys; [|exact Hs]. constructor.
Qed.

Lemma fetch_pages_keys (url_of : Z -> string) (base : string)
      (hint : option string) (pages : list Z) :
  forall companies n cs n',
    Forall hashable_key companies ->
    fetch_pages E now url_of base hint pages companies n = Ok (cs, n') ->
    Forall hashable_key cs.
Proof.
  induction pages as [|page rest IH]; intros companies n cs n' Hc H; simpl in H.
  - inversion H; subst. exact Hc.
  - destruct (_fetch_page E (url_of page)) as [[html|]|e];
      [|eapply IH; eauto|unfold raise in H; discriminate].
    destruct (String.eqb html ""); [eapply IH; eauto|].
    apply bindM_Ok in H. destruct H as (batch & n1 & Hb & H).
    eapply IH; [|exact H].
    apply Forall_app. split; auto.
    eapply parse_ld_json_blocks_keys; eauto.
Qed.

Lemma attach_reviews_keys (companies : list Company) (config params : dict) :
  Forall hashable_key companies ->
  Forall hashable_key (_attach_reviews_to_companies E companies config params).
Proof.
  unfold _attach_reviews_to_companies. intros H.
  destruct (negb (py_truthy (dict_get params "includeReviews"))); auto.
  apply Forall_map. eapply Forall_impl; [|exact H].
  intros c Hc. unfold attach_reviews.
  destruct (negb (py_truthy (sourceUrl c))); auto.
  destruct (fetch_reviews E (sourceUrl c) _ _); auto.
Qed.

Lemma collect_companies_keys (params config : dict) (n : nat)
      (cs : list Company) (n' : nat) :
  collect_companies E now params config n = Ok (cs, n') ->
  Forall hashable_key cs.
Proof.
  unfold collect_companies. intros H. inv_bindM H.
  destruct (String.eqb a1 "category").
  { unfold _search_by_category in H.
    destruct (negb (py_truthy (dict_get params "categoryId"))); [discriminate|].
    inv_bindM H. inversion H; subst.
    apply attach_reviews_keys. eapply fetch_pages_keys; [|eauto]. constructor. }
  destruct (String.eqb a1 "keyword").
  { unfold _search_by_keyword in H.
    destruct (negb (py_truthy (dict_get params "keyword"))); [discriminate|].
    inv_bindM H. inversion H; subst.
    apply attach_reviews_keys. eapply fetch_pages_keys; [|eauto]. constructor. }
  destruct (String.eqb a1 "detail"); [|discriminate].
  unfold _search_detail in H.
  destruct (negb (py_truthy (dict_get params "domain"))); [discriminate|].
  cbv zeta in H.
  destruct (_fetch_page E _) as [[html|]|e];
    [|inversion H; constructor|unfold raise in H; discriminate].
  destruct (String.eqb html ""); [inversion H; constructor|].
  apply bindM_Ok in H. destruct H as (batch & n1 & Hb & H).
  apply parse_ld_json_blocks_keys in Hb.
  destruct batch; inversion H; subst; [constructor|].
  apply attach_reviews_keys. exact Hb.
Qed.

End Keys.

Lemma unique_loop_total (cs : list Company) :
  Forall hashable_key cs ->
  forall unique, exists unique', unique_loop cs unique = Ok unique'.
Proof.
  induction 1 as [|c cs (k & Hk) _ IH]; intros unique; simpl; eauto.
  destruct (py_truthy (identity_key c)); auto.
  rewrite Hk. simpl. destruct (negb (key_in k (map fst unique))); auto.
Qed.

(** The last loop of [search_companies] does not fail on what the searches
    accumulate. *)
Lemma search_companies_total
      (E : Env) (now : nat -> string) (params config : dict)
      (n : nat) (companies : list Company) (n' : nat) :
  collect_companies E now params config n = Ok (companies, n') ->
  exists r, unique_companies companies = Ok r
            /\ search_companies E now params config n = Ok (r, n').
Proof.
  intros Hc.
  destruct (unique_loop_total companies (collect_companies_keys E now _ _ _ _ _ Hc) [])
    as (u & Hu).
  exists (map snd u). unfold search_companies, unique_companies, bindM, lift.
  rewrite Hc, Hu. simpl. auto.
Qed.

(** The key the loop files a company under is the resolved key of the
    specification. *)
Lemma identity_key_resolved (c : Company) : identity_key c = resolved_key c.
Proof.
  unfold identity_key, resolved_key, py_or.
  destruct (py_truthy (ID c)); cbn [negb]; [reflexivity|].
  destruct (py_truthy (domain c)) eqn:Hd.
  - rewrite Hd. reflexivity.
  - destruct (py_truthy (sourceUrl c)) eqn:Hs; rewrite ?Hs; reflexivity.
Qed.

Lemma resolved_key_empty (c : Company) :
  py_truthy (resolved_key c) = false -> resolved_key c = VStr "".
Proof.
  unfold resolved_key.
  destruct (py_truthy (ID c)) eqn:Hi; [congruence|].
  destruct (py_truthy (domain c)) eqn:Hd; [congruence|].
  destruct (py_truthy (sourceUrl c)) eqn:Hs; [congruence|]. reflexivity.
Qed.

Lemma truthy_key_not_empty (v : pyval) :
  py_truthy v = true -> py_hash_key v <> Ok (KStr "").
Proof.
  destruct v as [|b|z|f|s|l|d]; simpl; try discriminate.
  - intros _. unfold hkey_of_float.
    destruct (Prim2SF f) as [| | |sg m e]; try discriminate.
    destruct (Z.leb 0 e); [discriminate|].
    destruct (Z.eqb (Z.pos m mod 2 ^ (- e)) 0); discriminate.
  - destruct s; [discriminate|]. intros _ H. inversion H.
Qed.

Lemma key_of_some (c : Company) (k : hkey) :
  key_of c = Ok (Some k) ->
  py_truthy (resolved_key c) = true /\ dict_key c = Ok k.
Proof.
  unfold key_of, dict_key. rewrite identity_key_resolved.
  destruct (py_truthy (resolved_key c)); [|discriminate].
  destruct (py_hash_key (resolved_key c)); simpl; intros H; inversion H; auto.
Qed.

Lemma key_of_none (c : Company) :
  key_of c = Ok None -> dict_key c = Ok (KStr "").
Proof.
  unfold key_of, dict_key. rewrite identity_key_resolved.
  destruct (py_truthy (resolved_key c)) eqn:Ht.
  - destruct (py_hash_key (resolved_key c)); simpl; discriminate.
  - intros _. rewrite (resolved_key_empty c Ht). reflexivity.
Qed.

Lemma unique_companies_deduplicated (companies r : list Company) :
  unique_companies companies = Ok r -> deduplicated companies r.
Proof.
  unfold unique_companies. intros H. inv_bind.
  destruct (unique_loop_inv _ _ _ Ha)
    as (added & -> & Hsub & Hall & Hnd & Hfirst & Hcov).
  simpl in *. specialize (Hnd (NoDup_nil _)).
  assert (Hkey : forall kc, In kc added -> key_of (snd kc) = Ok (Some (fst kc))).
  { apply Forall_forall. exact Hall. }
  assert (Hcs : forall c, In c companies -> exists o, key_of c = Ok o).
  { clear - Ha. revert Ha. generalize (@nil (hkey * Company)) as u.
    induction companies as [|c0 cs IH]; intros u Hu c Hin; [destruct Hin|].
    rewrite unique_loop_cons in Hu.
    destruct (key_of c0) as [o|e] eqn:Hc0; [|discriminate].
    destruct Hin as [<- | Hin]; [eauto|].
    destruct o as [k|]; [destruct (key_in k (map fst u))|]; eapply IH; eauto. }
  split; [|split; [exact Hsub|split]].
  - assert (Hmap : map dict_key (map snd added) = map (fun kc => Ok (fst kc)) added).
    { rewrite map_map. apply map_ext_in. intros kc Hin.
      apply (key_of_some _ _ (Hkey kc Hin)). }
    rewrite Hmap. clear - Hnd.
    induction added as [|[k c] l IH]; simpl in *; [constructor|].
    inversion Hnd; subst. constructor; auto.
    intros Hin. apply in_map_iff in Hin. destruct Hin as ([k' c'] & Heq & Hin).
    simpl in Heq. inversion Heq; subst k'.
    apply H1. apply in_map_iff. exists (k, c'). auto.
  - intros c Hc. apply in_map_iff in Hc. destruct Hc as ([k c'] & <- & Hin).
    simpl. pose proof (Hkey (k, c') Hin) as Hk. simpl in Hk.
    destruct (key_of_some _ _ Hk) as (Ht & Hd). split; [exact Ht|].
    destruct (Hfirst k c' Hin) as (_ & l1 & l2 & -> & Hl1).
    exists l1, l2. split; [reflexivity|].
    intros c1 Hc1 Heq. rewrite Hd in Heq.
    destruct (Hcs c1) as ([k1|] & Hk1).
    { apply in_or_app. auto. }
    + destruct (key_of_some _ _ Hk1) as (_ & Hd1).
      rewrite Hd1 in Heq. inversion Heq; subst k1.
      exact (Hl1 c1 Hc1 Hk1).
    + rewrite (key_of_none _ Hk1) in Heq.
      apply (truthy_key_not_empty _ Ht). unfold dict_key in Hd. rewrite Hd.
      symmetry. exact Heq.
  - intros c Hc Ht.
    destruct (Hcs c Hc) as ([k|] & Hk).
    + specialize (Hcov c k Hc Hk).
      apply in_map_iff in Hcov. destruct Hcov as ([k' c'] & Hk' & Hin).
      simpl in Hk'. subst k'. exists c'. split.
      * apply in_map_iff. exists (k, c'). auto.
      * pose proof (Hkey (k, c') Hin) as Hk'. simpl in Hk'.
        rewrite (proj2 (key_of_some _ _ Hk')), (proj2 (key_of_some _ _ Hk)).
        reflexivity.
    + exfalso. unfold key_of in Hk. rewrite identity_key_resolved, Ht in Hk.
      destruct (py_hash_key (resolved_key c)); discriminate.
Qed.

(** C2: the last loop of [search_companies] deduplicates by resolved
    identity key, that is by the [ID], else the [domain], else the
    [sourceUrl]: of any list it goes through it returns the companies of
    non-empty key, each key once, the first company of each key being the
    one kept, in the order of first appearance.  And it goes through
    whatever list the search accumulates, so that [search_companies] returns
    that list deduplicated. *)
Theorem search_companies_deduplicates :
  (forall companies r,
      unique_companies companies = Ok r -> deduplicated companies r)
  /\ (forall E now params config n companies n',
        collect_companies E now params config n = Ok (companies, n') ->
        exists r,
          search_companies E now params config n = Ok (r, n')
          /\ unique_companies companies = Ok r
          /\ deduplicated companies r).
Proof.
  split; [exact unique_companies_deduplicated|].
  intros E now params config n companies n' Hc.
  destruct (search_companies_total E now _ _ _ _ _ Hc) as (r & Hu & Hs).
  exists r. split; [exact Hs|]. split; [exact Hu|].
  apply unique_companies_deduplicated. exact Hu.
Qed.

Lemma search_companies_deduplicates_witness :
  let by_domain := Reference.company_of (VStr "") (VStr "x.example") VNone in
  let by_id := Reference.company_of (VStr "x.example") VNone VNone in
  let nameless := Reference.company_of (VStr "") VNone VNone in
  let by_url := Reference.company_of (VStr "") VNone (VStr "https://u.example/") in
  let other := Reference.company_of (VStr "y") (VStr "x.example") VNone in
  let again :=
    Reference.company_of (VStr "https://u.example/") (VStr "v.example") VNone in
  let companies := [by_domain; by_id; nameless; by_url; other; again] in
  unique_companies companies = Ok [by_domain; by_url; other]
  /\ deduplicated companies [by_domain; by_url; other]
  /\ exists r,
       search_companies Reference.env Reference.clock Reference.params_category [] 0
       = Ok (r, 4)
       /\ map ID Reference.collected_category
          = [VStr "https://acme.example/"; VStr ""; VStr "https://acme.example/"]
       /\ map ID r = [VStr "https://acme.example/"]
       /\ deduplicated Reference.collected_category r.
Proof.
  intros by_domain by_id nameless by_url other again companies.
  split; [reflexivity|]. split.
  { apply (proj1 search_companies_deduplicates companies). reflexivity. }
  destruct (proj2 search_companies_deduplicates Reference.env Reference.clock
              Reference.params_category [] 0 Reference.collected_category 4)
    as (r & Hs & Hu & Hd).
  { vm_compute. reflexivity. }
  exists r. split; [exact Hs|]. split; [reflexivity|]. split; [|exact Hd].
  assert (Hr : unique_companies Reference.collected_category
               = Ok [hd by_id Reference.collected_category])
    by (vm_compute; reflexivity).
  rewrite Hr in Hu. inversion Hu; subst r. reflexivity.
Defined.

(** C10: every company of the list [search_companies] returns has a
    non-empty resolved identity key; a company whose [ID] is the empty
    string and whose [domain] and [sourceUrl] are [None] is not in it, though
    it was accumulated. *)
Theorem search_companies_keys_nonempty
  (E : Env) (now : nat -> string) (params config : dict)
  (n : nat) (companies : list Company) (n' : nat) :
  collect_companies E now params config n = Ok (companies, n') ->
  exists r,
    search_companies E now params config n = Ok (r, n')
    /\ (forall c, In c r -> py_truthy (identity_key c) = true)
    /\ (forall c, ID c = VStr "" -> domain c = VNone -> sourceUrl c = VNone ->
          ~ In c r).
Proof.
  intros Hc. destruct (search_companies_total E now _ _ _ _ _ Hc) as (r & Hu & Hs).
  exists r. split; auto.
  assert (Hkeys : forall c, In c r -> py_truthy (identity_key c) = true).
  { unfold unique_companies in Hu. inv_bind.
    destruct (unique_loop_inv _ _ _ Ha) as (added & -> & _ & Hall & _).
    simpl. intros c Hin. apply in_map_iff in Hin. destruct Hin as (kc & <- & Hin).
    rewrite Forall_forall in Hall. specialize (Hall kc Hin).
    unfold key_of in Hall.
    destruct (py_truthy (identity_key (snd kc))); [reflexivity | discriminate]. }
  split; auto.
  intros c Hid Hdom Hsrc Hin. specialize (Hkeys c Hin).
  unfold identity_key in Hkeys. rewrite Hid, Hdom, Hsrc in Hkeys.
  discriminate.
Qed.

Lemma search_companies_keys_nonempty_witness :
  exists r,
    search_companies Reference.env Reference.clock Reference.params_category [] 0
    = Ok (r, 4)
    /\ (forall c, In c r -> py_truthy (identity_key c) = true)
    /\ (forall c, ID c = VStr "" -> domain c = VNone -> sourceUrl c = VNone ->
          ~ In c r).
Proof.
  apply (search_companies_keys_nonempty Reference.env Reference.clock
           Reference.params_category [] 0 Reference.collected_category 4).
  vm_compute. reflexivity.
Defined.

(* ------------------------------------------------------------------ *)
(** *** The unsupported-mode error is raised by the dispatch only *)

Create HintDb safe.

Lemma safe_bind {A B : Type} (m : result A) (k : A -> result B) :
  safe m -> (forall a, safe (k a)) -> safe (bind m k).
Proof.
  intros Hm Hk. destruct m as [a|e]; simpl.
  - apply Hk.
  - intros s H. apply (Hm s). inversion H. reflexivity.
Qed.

Lemma safeM_bind {A B : Type} (m : M A) (k : A -> M B) :
  safeM m -> (forall a, safeM (k a)) -> safeM (bindM m k).
Proof.
  intros Hm Hk n s. unfold bindM.
  specialize (Hm n). destruct (m n) as [[a n1]|e].
  - apply Hk.
  - intros H. apply (Hm s). inversion H. reflexivity.
Qed.

Lemma safeM_lift {A : Type} (r : result A) : safe r -> safeM (lift r).
Proof.
  intros Hr n s. unfold lift. destruct r as [a|e]; [discriminate|].
  intros H. apply (Hr s). inversion H. reflexivity.
Qed.

Lemma safeM_ret {A : Type} (a : A) : safeM (ret a).
Proof. intros n s. discriminate. Qed.

Lemma safeM_read_clock (now : nat -> string) : safeM (read_clock now).
Proof. intros n s. discriminate. Qed.

#[local] Hint Resolve safeM_ret safeM_read_clock : safe.

Ltac safe_step :=
  cbv zeta;
  match goal with
  | |- safe (Ok _) => intros ? ?; discriminate
  | |- safe (Raise _) => intros ? ?; discriminate
  | |- safe (bind _ _) => apply safe_bind; [|intros ?]
  | |- safe (match ?x with _ => _ end) => destruct x
  | |- safeM (bindM _ _) => apply safeM_bind; [|intros ?]
  | |- safeM (lift _) => apply safeM_lift
  | |- safeM (raise (exn_of_lib_error ?e)) =>
      destruct e; intros ? ? ?; discriminate
  | |- safeM (raise _) => intros ? ? ?; discriminate
  | |- safeM (match ?x with _ => _ end) => destruct x
  | |- _ => solve [eauto with safe]
  end.

Ltac safe_auto := repeat safe_step.

Section Safe.
Variable E : Env.
Variable now : nat -> string.

Lemma safe_float_of_int (z : Z) : safe (float_of_int z).
Proof. unfold float_of_int. safe_auto. Qed.

Lemma safe_int_of_float (f : float) : safe (int_of_float f).
Proof. unfold int_of_float. safe_auto. Qed.

Hint Resolve safe_float_of_int safe_int_of_float : safe.

Lemma safe_py_lower (v : pyval) : safe (py_lower E v).
Proof. unfold py_lower. safe_auto. Qed.

Lemma safe_py_float (v : pyval) : safe (py_float E v).
Proof. unfold py_float. safe_auto. Qed.

Lemma safe_py_int (v : pyval) : safe (py_int E v).
Proof. unfold py_int. safe_auto. Qed.

Lemma safe_py_get (v : pyval) (k : string) : safe (py_get v k).
Proof. unfold py_get. safe_auto. Qed.

Lemma safe_py_hash_key (v : pyval) : safe (py_hash_key v).
Proof. unfold py_hash_key. safe_auto. Qed.

Hint Resolve safe_py_lower safe_py_float safe_py_int safe_py_get
  safe_py_hash_key : safe.

Lemma safe__safe_float (v : pyval) : safe (_safe_float E v).
Proof.
  unfold _safe_float.
  destruct v; try (intros ? ?; discriminate);
    (destruct (py_float E _) as [x|e] eqn:He;
     [intros ? ?; discriminate|];
     destruct e; simpl; try (intros ? ?; discriminate);
     exfalso; eapply safe_py_float; eauto).
Qed.

Lemma safe__safe_int (v : pyval) : safe (_safe_int E v).
Proof.
  unfold _safe_int.
  destruct v; try (intros ? ?; discriminate);
    (destruct (py_int E _) as [x|e] eqn:He;
     [intros ? ?; discriminate|];
     destruct e; simpl; try (intros ? ?; discriminate);
     exfalso; eapply safe_py_int; eauto).
Qed.

Lemma safe_strs_of (l : list pyval) : safe (strs_of l).
Proof.
  induction l as [|v l IH]; simpl; [safe_auto|].
  destruct v; safe_auto.
Qed.

Lemma safe_lower_all (l : list pyval) : safe (lower_all E l).
Proof. induction l as [|v l IH]; simpl; safe_auto. Qed.

Hint Resolve safe__safe_float safe__safe_int safe_strs_of safe_lower_all : safe.

Lemma safe_py_format_1f (v : pyval) : safe (py_format_1f E v).
Proof. unfold py_format_1f. safe_auto. Qed.

Lemma safe__extract_domain (v : pyval) : safe (_extract_domain E v).
Proof. unfold _extract_domain. safe_auto. Qed.

Lemma safe_declared_types (d : dict) : safe (declared_types E d).
Proof. unfold declared_types. safe_auto. Qed.

Lemma safe_resolve_url (d : dict) (base : string) : safe (resolve_url E d base).
Proof. unfold resolve_url. safe_auto. Qed.

Hint Resolve safe_py_format_1f safe__extract_domain safe_declared_types
  safe_resolve_url : safe.

Lemma safe_summary_parts (c : Company) : safe (summary_parts E c).
Proof. unfold summary_parts. safe_auto. Qed.

Hint Resolve safe_summary_parts : safe.

Lemma safe__limit_pages (params config : dict) : safe (_limit_pages E params config).
Proof. unfold _limit_pages. safe_auto. Qed.

Hint Resolve safe__limit_pages : safe.

Lemma safeM__build_ai_summary (c : Company) : safeM (_build_ai_summary E now c).
Proof. unfold _build_ai_summary. safe_auto. Qed.

Hint Resolve safeM__build_ai_summary : safe.

Lemma safeM_build_company (d : dict) (base : string) (hint : option string) :
  safeM (build_company E now d base hint).
Proof. unfold build_company. safe_auto. Qed.

Hint Resolve safeM_build_company : safe.

Lemma safeM__company_from_ld_json (v : pyval) (base : string) (hint : option string) :
  safeM (_company_from_ld_json E now v base hint).
Proof. unfold _company_from_ld_json. safe_auto. Qed.

Hint Resolve safeM__company_from_ld_json : safe.

Lemma safeM_parse_items (items : list pyval) (base : string) (hint : option string) :
  forall acc, safeM (parse_items E now items base hint acc).
Proof.
  induction items as [|item rest IH]; intros acc; simpl; [safe_auto|].
  destruct item; auto. safe_auto.
Qed.

Hint Resolve safeM_parse_items : safe.

Lemma safeM_parse_scripts (scripts : list string) (base : string)
      (hint : option string) :
  forall acc, safeM (parse_scripts E now scripts base hint acc).
Proof.
  induction scripts as [|raw rest IH]; intros acc; simpl; safe_auto.
Qed.

Hint Resolve safeM_parse_scripts : safe.

Lemma safeM__parse_ld_json_blocks (html base : string) (hint : option string) :
  safeM (_parse_ld_json_blocks E now html base hint).
Proof. unfold _parse_ld_json_blocks. safe_auto. Qed.

Hint Resolve safeM__parse_ld_json_blocks : safe.

Lemma safe__fetch_page (url : string) : safe (_fetch_page E url).
Proof.
  unfold _fetch_page. destruct (session_get E url) as [ok page| |e].
  - destruct (negb ok); intros ? ?; discriminate.
  - intros ? ?; discriminate.
  - destruct e; intros ? ?; discriminate.
Qed.

Lemma safeM_raised_by_fetch (A : Type) (url : string) (e : exn) :
  _fetch_page E url = Raise e -> safeM (@raise A e).
Proof.
  intros Hf n s H. unfold raise in H. inversion H; subst.
  exact (safe__fetch_page url _ Hf).
Qed.

Lemma safeM_fetch_pages (url_of : Z -> string) (base : string)
      (hint : option string) (pages : list Z) :
  forall companies, safeM (fetch_pages E now url_of base hint pages companies).
Proof.
  induction pages as [|page rest IH]; intros companies; simpl; [safe_auto|].
  destruct (_fetch_page E (url_of page)) as [[html|]|e] eqn:Hf;
    [safe_auto | safe_auto | eapply safeM_raised_by_fetch; eauto].
Qed.

Hint Resolve safeM_fetch_pages : safe.

Lemma safeM__search_by_category (base : string) (params config : dict) :
  safeM (_search_by_category E now base params config).
Proof. unfold _search_by_category. safe_auto. Qed.

Lemma safeM__search_by_keyword (base : string) (params config : dict) :
  safeM (_search_by_keyword E now base params config).
Proof. unfold _search_by_keyword. safe_auto. Qed.

Lemma safeM__search_detail (base : string) (params config : dict) :
  safeM (_search_detail E now base params config).
Proof.
  unfold _search_detail. cbv zeta.
  destruct (negb (py_truthy (dict_get params "domain"))); [safe_auto|].
  destruct (_fetch_page E _) as [[html|]|e] eqn:Hf;
    [safe_auto | safe_auto | eapply safeM_raised_by_fetch; eauto].
Qed.

Lemma safe_unique_loop (cs : list Company) :
  forall unique, safe (unique_loop cs unique).
Proof.
  induction cs as [|c rest IH]; intros unique; simpl; safe_auto.
Qed.

End Safe.

(* ------------------------------------------------------------------ *)
(** *** The search mode *)

Lemma dict_lookup_set (d : dict) (k k' : string) (v : pyval) :
  dict_lookup (dict_set d k v) k' =
  if String.eqb k k' then Some v else dict_lookup d k'.
Proof.
  induction d as [|[k0 v0] d IH]; simpl.
  - reflexivity.
  - destruct (String.eqb k0 k) eqn:Hk0; simpl.
    + apply String.eqb_eq in Hk0. subst k0.
      destruct (String.eqb k k'); reflexivity.
    + rewrite IH. destruct (String.eqb k k') eqn:Hk; auto.
      apply String.eqb_eq in Hk. subst k'. rewrite Hk0. reflexivity.
Qed.

Lemma dict_get_set_other (d : dict) (k k' : string) (v : pyval) :
  String.eqb k k' = false -> dict_get (dict_set d k v) k' = dict_get d k'.
Proof. intros H. unfold dict_get. rewrite dict_lookup_set, H. reflexivity. Qed.

Lemma dict_get_default_set_other (d : dict) (k k' : string) (v w : pyval) :
  String.eqb k k' = false ->
  dict_get_default (dict_set d k v) k' w = dict_get_default d k' w.
Proof.
  intros H. unfold dict_get_default. rewrite dict_lookup_set, H. reflexivity.
Qed.

Lemma dict_get_set_same (d : dict) (k : string) (v : pyval) :
  dict_get (dict_set d k v) k = v.
Proof.
  unfold dict_get. rewrite dict_lookup_set, String.eqb_refl. reflexivity.
Qed.

(** The three searches read every key of [params] but [searchType]. *)
Lemma searches_ignore_searchType
      (E : Env) (now : nat -> string) (base : string) (params config : dict)
      (v : pyval) :
  _search_by_category E now base (dict_set params "searchType" v) config
  = _search_by_category E now base params config
  /\ _search_by_keyword E now base (dict_set params "searchType" v) config
     = _search_by_keyword E now base params config
  /\ _search_detail E now base (dict_set params "searchType" v) config
     = _search_detail E now base params config.
Proof.
  unfold _search_by_category, _search_by_keyword, _search_detail,
    _limit_pages, _attach_reviews_to_companies.
  repeat rewrite dict_get_set_other by reflexivity.
  repeat rewrite dict_get_default_set_other by reflexivity.
  auto.
Qed.

(** C9: when [params] has no [searchType], or has [None] or the empty
    string for it, [search_companies] does what it does with [searchType]
    set to ["category"]; a value that lower-cases to ["category"] selects the
    same search; and the unsupported-mode [ValueError] is raised only when
    [searchType] is a non-empty string whose lower-case form is none of
    ["category"], ["keyword"], ["detail"]. *)
Theorem search_type_defaults_to_category
  (E : Env) (now : nat -> string) (params config : dict) (n : nat) :
  ((dict_lookup params "searchType" = None
    \/ dict_lookup params "searchType" = Some VNone
    \/ dict_lookup params "searchType" = Some (VStr "")
    \/ exists s, dict_lookup params "searchType" = Some (VStr s)
                 /\ str_lower E s = "category") ->
   search_companies E now params config n
   = search_companies E now (dict_set params "searchType" (VStr "category"))
                      config n)
  /\ (forall st,
        search_companies E now params config n
        = Raise (UnsupportedSearchType st) ->
        exists s, dict_lookup params "searchType" = Some (VStr s)
                  /\ s <> "" /\ st = str_lower E s
                  /\ st <> "category" /\ st <> "keyword" /\ st <> "detail").
Proof.
  split.
  - intros Hdefault.
    assert (Hst : search_type_of E params = Ok "category").
    { unfold search_type_of, dict_get.
      destruct Hdefault as [H | [H | [H | (s & H & Hs)]]]; rewrite H;
        try reflexivity.
      unfold py_or. simpl. destruct (String.eqb s ""); simpl.
      - reflexivity.
      - rewrite Hs. reflexivity. }
    assert (Hst' : search_type_of E (dict_set params "searchType" (VStr "category"))
                   = Ok "category").
    { unfold search_type_of. rewrite dict_get_set_same. reflexivity. }
    unfold search_companies, collect_companies, bindM.
    rewrite Hst, Hst'.
    destruct (lift (base_url_of config) n) as [[base n1]|e]; auto.
    destruct (lift (_create_session E config) n1) as [[u n2]|e]; auto.
    simpl.
    destruct (searches_ignore_searchType E now base params config (VStr "category"))
      as (-> & _ & _).
    reflexivity.
  - intros st H.
    unfold search_companies in H. unfold bindM at 1 in H.
    destruct (collect_companies E now params config n) as [[cs n1]|e] eqn:Hc.
    { exfalso. eapply (safeM_lift (unique_companies cs)); eauto.
      unfold unique_companies. apply safe_bind; [apply safe_unique_loop|].
      intros a s. discriminate. }
    inversion H; subst e; clear H.
    unfold collect_companies in Hc. unfold bindM at 1 in Hc.
    destruct (lift (base_url_of config) n) as [[base n1]|e] eqn:Hb.
    2:{ exfalso. inversion Hc; subst e. unfold lift, base_url_of in Hb.
        destruct (dict_get_default config "baseUrl" _); discriminate. }
    unfold bindM at 1 in Hc.
    destruct (lift (_create_session E config) n1) as [[u n2]|e] eqn:Hs.
    2:{ exfalso. inversion Hc; subst e. unfold lift, _create_session in Hs.
        destruct (create_session_error E config) as [[]|]; simpl in Hs;
          discriminate. }
    unfold bindM at 1 in Hc.
    destruct (lift (search_type_of E params) n2) as [[st0 n3]|e] eqn:Ht.
    2:{ exfalso. unfold lift in Ht.
        destruct (search_type_of E params) as [x|e0] eqn:Ht0; [discriminate|].
        inversion Ht; subst. inversion Hc; subst.
        eapply (safe_py_lower E); eauto. }
    destruct (String.eqb st0 "category") eqn:H1.
    { exfalso. eapply safeM__search_by_category; eauto. }
    destruct (String.eqb st0 "keyword") eqn:H2.
    { exfalso. eapply safeM__search_by_keyword; eauto. }
    destruct (String.eqb st0 "detail") eqn:H3.
    { exfalso. eapply safeM__search_detail; eauto. }
    unfold raise in Hc. inversion Hc; subst st0; clear Hc.
    apply String.eqb_neq in H1, H2, H3.
    unfold lift in Ht.
    destruct (search_type_of E params) as [x|e0] eqn:Ht0; [|discriminate].
    inversion Ht; subst x n3; clear Ht.
    unfold search_type_of, dict_get in Ht0.
    destruct (dict_lookup params "searchType") as [v|] eqn:Hv.
    2:{ exfalso. apply H1. inversion Ht0. reflexivity. }
    unfold py_or in Ht0.
    destruct (py_truthy v) eqn:Hv'.
    2:{ exfalso. apply H1. inversion Ht0. reflexivity. }
    destruct v; simpl in Ht0; try discriminate.
    inversion Ht0; subst st.
    exists s. repeat split; auto.
    intros ->. simpl in Hv'. discriminate.
Qed.

Lemma search_type_defaults_to_category_witness :
  search_companies Reference.env Reference.clock
    [("categoryId", VStr "123"); ("pages", VInt 2)] [] 0
  = search_companies Reference.env Reference.clock
      (dict_set [("categoryId", VStr "123"); ("pages", VInt 2)]
                "searchType" (VStr "category")) [] 0.
Proof.
  apply (proj1 (search_type_defaults_to_category Reference.env Reference.clock
                  [("categoryId", VStr "123"); ("pages", VInt 2)] [] 0)).
  left. reflexivity.
Defined.

(* ------------------------------------------------------------------ *)
(** *** The structured-data extractor: what it passes over *)

Section Extractor.
Variable E : Env.
Variable now : nat -> string.

Lemma lower_all_strings (l : list pyval) (names : list string) :
  strings_of l = Some names -> lower_all E l = Ok (map (str_lower E) names).
Proof.
  revert names; induction l as [|v l IH]; simpl; intros names H.
  - inversion H. reflexivity.
  - destruct v; try discriminate.
    destruct (strings_of l) as [ss|]; simpl in H; [|discriminate].
    inversion H; subst. simpl. rewrite (IH ss eq_refl). reflexivity.
Qed.

Lemma declared_types_names (d : dict) (names : list string) :
  type_names d = Some names ->
  declared_types E d = Ok (map (str_lower E) names).
Proof.
  unfold type_names, declared_types.
  destruct (dict_get d "@type"); try discriminate.
  - intros H. inversion H. reflexivity.
  - apply lower_all_strings.
Qed.

Lemma is_business_false (names : list string) :
  (forall t, In t names -> ~ names_business E t) ->
  is_business (map (str_lower E) names) = false.
Proof.
  unfold is_business, names_business.
  induction names as [|t names IH]; simpl; intros H; auto.
  rewrite IH by auto.
  destruct (String.eqb (str_lower E t) "organization") eqn:H1.
  { apply String.eqb_eq in H1. exfalso. apply (H t); auto. }
  destruct (String.eqb (str_lower E t) "localbusiness") eqn:H2.
  { apply String.eqb_eq in H2. exfalso. apply (H t); auto. }
  reflexivity.
Qed.

Lemma company_from_ld_json_none (d : dict) (ts : list string)
      (base : string) (hint : option string) (n : nat) :
  declared_types E d = Ok ts -> is_business ts = false ->
  _company_from_ld_json E now (VDict d) base hint n = Ok (None, n).
Proof.
  intros Ht Hb. unfold _company_from_ld_json, bindM, lift.
  rewrite Ht, Hb. reflexivity.
Qed.

(** An object that yields no company can be taken out of its block. *)
Lemma parse_items_skip (x : pyval) (base : string) (hint : option string) :
  (forall n, _company_from_ld_json E now x base hint n = Ok (None, n)) ->
  forall pre post acc n,
    parse_items E now (pre ++ x :: post) base hint acc n
    = parse_items E now (pre ++ post) base hint acc n.
Proof.
  intros Hx. induction pre as [|item pre IH]; intros post acc n; simpl.
  - destruct x; auto. unfold bindM. rewrite Hx. reflexivity.
  - destruct item; auto. unfold bindM.
    destruct (_company_from_ld_json E now (VDict d) base hint n)
      as [[[c|] n1]|e]; auto.
    destruct (lift (py_hash_key (ID c)) n1) as [[k n2]|e]; auto.
    destruct (negb (key_in k (snd acc))); auto.
Qed.



(** The scripts of a page are read one after the other. *)
Lemma parse_scripts_app (pre post : list string) (base : string)
      (hint : option string) :
  forall acc n,
    parse_scripts E now (pre ++ post) base hint acc n
    = match parse_scripts E now pre base hint acc n with
      | Ok (acc', n') => parse_scripts E now post base hint acc' n'
      | Raise e => Raise e
      end.
Proof.
  induction pre as [|s pre IH]; intros acc n; simpl.
  - reflexivity.
  - destruct (String.eqb s ""); auto.
    destruct (json_loads E s) as [data| |e]; auto.
    unfold bindM.
    destruct (parse_items E now _ base hint acc n) as [[acc' n1]|e]; auto.
Qed.


End Extractor.

(** C5: an object whose declared [@type], a string or a list of strings,
    names neither [Organization] nor [LocalBusiness] in any case yields no
    company and raises nothing, and the block it stands in is read as if
    the object were not there. *)
Theorem non_business_object_skipped
  (E : Env) (now : nat -> string) (d : dict) (names : list string)
  (base_url : string) (hint : option string) :
  type_names d = Some names ->
  (forall t, In t names -> ~ names_business E t) ->
  (forall n, _company_from_ld_json E now (VDict d) base_url hint n = Ok (None, n))
  /\ (forall pre post acc n,
        parse_items E now (pre ++ VDict d :: post) base_url hint acc n
        = parse_items E now (pre ++ post) base_url hint acc n).
Proof.
  intros Hn Hb.
  assert (H : forall n, _company_from_ld_json E now (VDict d) base_url hint n
                        = Ok (None, n)).
  { intros n. eapply company_from_ld_json_none.
    - apply declared_types_names. exact Hn.
    - apply is_business_false. exact Hb. }
  split; auto. apply parse_items_skip. exact H.
Qed.

Lemma non_business_object_skipped_witness :
  let d := [("@type", VList [VStr "Person"; VStr "ORGANISATION"]);
            ("name", VStr "Ann")] in
  (forall n, _company_from_ld_json Reference.env Reference.clock (VDict d)
               "https://www.trustpilot.com" None n = Ok (None, n))
  /\ (forall pre post acc n,
        parse_items Reference.env Reference.clock (pre ++ VDict d :: post)
                    "https://www.trustpilot.com" None acc n
        = parse_items Reference.env Reference.clock (pre ++ post)
                      "https://www.trustpilot.com" None acc n).
Proof.
  intros d.
  apply (non_business_object_skipped Reference.env Reference.clock d
           ["Person"; "ORGANISATION"] "https://www.trustpilot.com" None).
  - reflexivity.
  - intros t [<- | [<- | []]] [H | H]; vm_compute in H; discriminate H.
Defined.




(** C6: a block on which [json.loads] raises another exception than its
    decode error (a [ValueError] on an integer of more than 4300 digits, a
    [RecursionError] on deep nesting) is not skipped: the exception leaves
    the extractor, and the companies of the blocks read before it are lost
    with it; a detail search on such a page raises it too. *)
Theorem refused_block_raises
  (E : Env) (now : nat -> string) (html : string) (pre : list string)
  (raw : string) (post : list string) (base : string) (n : nat)
  (acc : list Company * list hkey) (n1 : nat) (e : lib_error) :
  ld_json_scripts E html = pre ++ raw :: post ->
  parse_scripts E now pre base None ([], []) n = Ok (acc, n1) ->
  raw <> "" ->
  json_loads E raw = LoadRaises e ->
  _parse_ld_json_blocks E now html base None n = Raise (exn_of_lib_error e)
  /\ (forall params config,
        search_type_of E params = Ok "detail" ->
        py_truthy (dict_get params "domain") = true ->
        base_url_of config = Ok base ->
        create_session_error E config = None ->
        _fetch_page E (base ++ "/review/" ++ py_str E (dict_get params "domain"))
        = Ok (Some html) ->
        html <> "" ->
        search_companies E now params config n = Raise (exn_of_lib_error e)).
Proof.
  intros Hs Hpre Hne Hraw.
  assert (Hp : _parse_ld_json_blocks E now html base None n
               = Raise (exn_of_lib_error e)).
  { unfold _parse_ld_json_blocks, bindM. rewrite Hs.
    rewrite (parse_scripts_app E now pre (raw :: post) base None), Hpre.
    simpl. apply String.eqb_neq in Hne. rewrite Hne, Hraw. reflexivity. }
  split; [exact Hp|].
  intros params config Hst Hdom Hbase Hsess Hf Hhtml.
  unfold search_companies, collect_companies, bindM, lift, _create_session.
  rewrite Hbase, Hsess, Hst. simpl.
  unfold _search_detail. rewrite Hdom. cbn [negb]. cbv zeta. rewrite Hf.
  apply String.eqb_neq in Hhtml. rewrite Hhtml.
  unfold bindM. rewrite Hp. reflexivity.
Qed.

Lemma refused_block_raises_witness :
  _parse_ld_json_blocks Reference.env Reference.clock Reference.page_huge
                        "https://www.trustpilot.com" None 0
  = Raise ValueError
  /\ search_companies Reference.env Reference.clock Reference.params_huge [] 0
     = Raise ValueError.
Proof.
  assert (Hpre : exists acc n1,
             parse_scripts Reference.env Reference.clock [Reference.org_text]
                           "https://www.trustpilot.com" None ([], []) 0
             = Ok (acc, n1))
    by (eexists; eexists; vm_compute; reflexivity).
  destruct Hpre as (acc & n1 & Hpre).
  assert (Hraw : Reference.huge_int_text <> "")
    by (intros H; vm_compute in H; discriminate H).
  assert (Hhtml : Reference.page_huge <> "")
    by (intros H; vm_compute in H; discriminate H).
  destruct (refused_block_raises
              Reference.env Reference.clock Reference.page_huge
              [Reference.org_text] Reference.huge_int_text []
              "https://www.trustpilot.com" 0 acc n1 LibValueError)
    as (Ha & Hb).
  - vm_compute. reflexivity.
  - exact Hpre.
  - exact Hraw.
  - vm_compute. reflexivity.
  - split; [exact Ha|].
    apply (Hb Reference.params_huge []).
    + reflexivity.
    + reflexivity.
    + reflexivity.
    + reflexivity.
    + vm_compute. reflexivity.
    + exact Hhtml.
Defined.

(* ------------------------------------------------------------------ *)
(** *** Two runs of the extractor *)

Lemma sim_bind {A B : Type} (R : A -> A -> Prop) (S : B -> B -> Prop)
      (m1 m2 : M A) (k1 k2 : A -> M B) (n : nat) :
  sim R (m1 n) (m2 n) ->
  (forall a1 a2 n', R a1 a2 -> sim S (k1 a1 n') (k2 a2 n')) ->
  sim S (bindM m1 k1 n) (bindM m2 k2 n).
Proof.
  unfold sim at 1, bindM. intros Hm Hk.
  destruct (m1 n) as [[a1 n1]|e1], (m2 n) as [[a2 n2]|e2]; try contradiction.
  - destruct Hm as (Ha & ->). apply Hk. exact Ha.
  - simpl. exact Hm.
Qed.

Lemma sim_bind_lift {A B : Type} (S : B -> B -> Prop)
      (r : result A) (k1 k2 : A -> M B) (n : nat) :
  (forall a, sim S (k1 a n) (k2 a n)) ->
  sim S (bindM (lift r) k1 n) (bindM (lift r) k2 n).
Proof.
  intros Hk. unfold bindM, lift. destruct r as [a|e]; [apply Hk | reflexivity].
Qed.

Section TwoRuns.
Variable E : Env.
Variables now1 now2 : nat -> string.

Lemma sim_build_ai_summary (c : Company) (n : nat) :
  sim same_summary (_build_ai_summary E now1 c n) (_build_ai_summary E now2 c n).
Proof.
  unfold _build_ai_summary. apply sim_bind_lift. intros parts.
  unfold bindM, read_clock, ret, sim, same_summary. split; reflexivity.
Qed.

Lemma sim_build_company (d : dict) (base : string) (hint : option string) (n : nat) :
  sim same_but_timestamp (build_company E now1 d base hint n)
                         (build_company E now2 d base hint n).
Proof.
  unfold build_company.
  repeat (cbv zeta; apply sim_bind_lift; intros ?).
  cbv zeta. eapply sim_bind; [apply sim_build_ai_summary|].
  intros s1 s2 n' Hs. unfold ret, sim. split; [|reflexivity].
  unfold same_but_timestamp, without_timestamp, set_aiSummary. simpl.
  unfold same_summary in Hs. rewrite Hs. reflexivity.
Qed.

Lemma sim_company_from_ld_json (v : pyval) (base : string) (hint : option string)
      (n : nat) :
  sim same_option (_company_from_ld_json E now1 v base hint n)
                  (_company_from_ld_json E now2 v base hint n).
Proof.
  unfold _company_from_ld_json. destruct v; try (simpl; auto).
  apply sim_bind_lift. intros types.
  destruct (negb (is_business types)); [simpl; auto|].
  eapply sim_bind; [apply sim_build_company|].
  intros c1 c2 n' Hc. simpl. auto.
Qed.

Lemma same_but_timestamp_ID (c1 c2 : Company) :
  same_but_timestamp c1 c2 -> ID c1 = ID c2.
Proof.
  unfold same_but_timestamp. intros H.
  change (ID (without_timestamp c1) = ID (without_timestamp c2)).
  rewrite H. reflexivity.
Qed.

Lemma sim_parse_items (items : list pyval) (base : string) (hint : option string) :
  forall acc1 acc2 n,
    same_acc acc1 acc2 ->
    sim same_acc (parse_items E now1 items base hint acc1 n)
                 (parse_items E now2 items base hint acc2 n).
Proof.
  induction items as [|item rest IH]; intros acc1 acc2 n Hacc; simpl.
  - split; auto.
  - destruct item; auto.
    eapply sim_bind; [apply sim_company_from_ld_json|].
    intros [c1|] [c2|] n' Hc; simpl in Hc; try contradiction; auto.
    rewrite (same_but_timestamp_ID c1 c2 Hc).
    apply sim_bind_lift. intros k.
    destruct Hacc as (Hcs & Hseen). rewrite Hseen.
    destruct (negb (key_in k (snd acc2))); [|apply IH; split; auto].
    apply IH. split; simpl.
    + unfold same_but_timestamp in Hc.
      rewrite !map_app. simpl. rewrite Hcs, Hc. reflexivity.
    + reflexivity.
Qed.

Lemma sim_parse_scripts (scripts : list string) (base : string)
      (hint : option string) :
  forall acc1 acc2 n,
    same_acc acc1 acc2 ->
    sim same_acc (parse_scripts E now1 scripts base hint acc1 n)
                 (parse_scripts E now2 scripts base hint acc2 n).
Proof.
  induction scripts as [|raw rest IH]; intros acc1 acc2 n Hacc; simpl.
  - split; auto.
  - destruct (String.eqb raw ""); auto.
    destruct (json_loads E raw) as [data| |e]; [|auto|reflexivity].
    eapply sim_bind; [apply sim_parse_items; exact Hacc|].
    intros a1 a2 n' Ha. apply IH. exact Ha.
Qed.

Lemma sim_parse_ld_json_blocks (html base : string) (hint : option string) (n : nat) :
  sim (fun l1 l2 => map without_timestamp l1 = map without_timestamp l2)
      (_parse_ld_json_blocks E now1 html base hint n)
      (_parse_ld_json_blocks E now2 html base hint n).
Proof.
  unfold _parse_ld_json_blocks.
  eapply sim_bind; [apply sim_parse_scripts; split; reflexivity|].
  intros a1 a2 n' (Ha & _). simpl. auto.
Qed.

End TwoRuns.

(** C8, as the code has it: two runs of the extractor on the same page,
    base address and category hint raise the same exception or return the
    same companies up to the [updatedAt] entry of their summaries, which is
    the clock's reading in each run; the summary text, the status and the
    language are the same. *)
Theorem extract_same_but_timestamp
  (E : Env) (now1 now2 : nat -> string) (html base_url : string)
  (hint : option string) :
  map_result (map without_timestamp) (extract E now1 html base_url hint)
  = map_result (map without_timestamp) (extract E now2 html base_url hint).
Proof.
  unfold extract.
  pose proof (sim_parse_ld_json_blocks E now1 now2 html base_url hint 0) as H.
  unfold sim in H.
  destruct (_parse_ld_json_blocks E now1 html base_url hint 0) as [[l1 n1]|e1],
           (_parse_ld_json_blocks E now2 html base_url hint 0) as [[l2 n2]|e2];
    try contradiction; simpl.
  - destruct H as (H & _). rewrite H. reflexivity.
  - rewrite H. reflexivity.
Qed.

(** C8, as the specification has it, fails: the same page read at two
    different times gives two different records. *)
Lemma extract_runs_differ :
  extract Reference.env (fun _ => "2024-01-01T00:00:00+00:00")
          Reference.page_1 "https://www.trustpilot.com" None
  <> extract Reference.env (fun _ => "2024-01-02T00:00:00+00:00")
             Reference.page_1 "https://www.trustpilot.com" None.
Proof.
  vm_compute. intros H. discriminate H.
Qed.

(* ------------------------------------------------------------------ *)
(** *** The date of a review *)

Lemma endswith_cons (a b : ascii) (t p : string) :
  String.length p = 1 ->
  endswith (String a (String b t)) p = endswith (String b t) p.
Proof.
  intros Hp. unfold endswith. rewrite Hp.
  cbn [String.length Nat.leb Nat.sub andb].
  rewrite Nat.sub_0_r.
  destruct (String.length t) as [|m]; reflexivity.
Qed.

(** On a text with no [Z] before its last character, replacing every [Z]
    is reading a trailing [Z] as the offset. *)
Lemma replace_Z_is_trailing (raw : string) :
  no_inner_Z raw = true ->
  replace_char "Z" "+00:00" raw = trailing_Z_as_utc raw.
Proof.
  unfold no_inner_Z, trailing_Z_as_utc.
  induction raw as [|a s IH]; [reflexivity|].
  destruct s as [|b t].
  - intros _. unfold endswith. simpl.
    destruct (Ascii.eqb a "Z"); reflexivity.
  - intros H.
    assert (Hlen : String.length (String a (String b t)) - 1
                   = S (String.length (String b t) - 1))
      by (simpl; rewrite Nat.sub_0_r; reflexivity).
    rewrite Hlen in H |- *.
    rewrite (endswith_cons a b t "Z" eq_refl).
    set (s := String b t) in *.
    cbn [String.substring has_char] in H |- *.
    apply negb_true_iff in H. apply orb_false_iff in H. destruct H as (Ha & H).
    cbn [replace_char]. rewrite Ha.
    rewrite IH by (apply negb_true_iff; exact H).
    destruct (endswith s "Z"); reflexivity.
Qed.

(** C4, amended: the date text of a card is the [datetime] attribute of
    its time element, else the element's text.  Without a time element, or
    when that text is empty, [createdAt] is null.  A non-empty text with no
    [Z] before its last character is stored re-serialized when it parses
    once a trailing [Z] is read as [+00:00], and verbatim when it does not;
    so [2024-01-01T00:00:00Z] is stored as [2024-01-01T00:00:00+00:00]. *)
Theorem review_date_created_at (E : Env) (card : Card) :
  (forall r, review_of_card E card = Ok r ->
             date r = date_obj E (card_time card))
  /\ (no_inner_Z (date_raw (card_time card)) = true ->
      createdAt (date_obj E (card_time card)) = created_at_amended E card)
  /\ (forall el,
        card_time card = Some el ->
        datetime_attr el = Some "2024-01-01T00:00:00Z" ->
        iso_normalize E "2024-01-01T00:00:00+00:00"
        = Some "2024-01-01T00:00:00+00:00" ->
        createdAt (date_obj E (card_time card))
        = Some "2024-01-01T00:00:00+00:00").
Proof.
  split; [|split].
  - intros r H. unfold review_of_card in H.
    apply bind_Ok in H. destruct H as (i & _ & H).
    inversion H; subst. reflexivity.
  - intros HZ. unfold date_obj, created_at_amended, _parse_date_iso.
    unfold date_raw in *.
    destruct (card_time card) as [el|]; [|reflexivity].
    set (raw := match datetime_attr el with
                | Some d => d
                | None => time_text el
                end) in *.
    cbv zeta.
    destruct (String.eqb raw ""); [reflexivity|].
    rewrite (replace_Z_is_trailing raw HZ).
    destruct (iso_normalize E (trailing_Z_as_utc raw)); reflexivity.
  - intros el Hc Hd Hiso. rewrite Hc.
    unfold date_obj, date_raw, _parse_date_iso. rewrite Hd. simpl.
    change (replace_char "Z" "+00:00" "2024-01-01T00:00:00Z")
      with "2024-01-01T00:00:00+00:00".
    rewrite Hiso. reflexivity.
Qed.

Lemma review_date_created_at_witness :
  let card :=
    Reference.card_with_time
      (Some {| datetime_attr := Some "2024-01-01T00:00:00Z";
               time_text := "Jan 1, 2024" |}) in
  createdAt (date_obj Reference.env (card_time card))
  = created_at_amended Reference.env card
  /\ created_at_amended Reference.env card = Some "2024-01-01T00:00:00+00:00".
Proof.
  intros card. split; [|reflexivity].
  apply (proj1 (proj2 (review_date_created_at Reference.env card))).
  reflexivity.
Defined.

(** C4, as the specification has it, fails: a time element whose text is
    empty gives a null [createdAt], where the text, which does not parse,
    would be stored as it is. *)
Lemma review_date_as_specified_fails :
  let card :=
    Reference.card_with_time
      (Some {| datetime_attr := None; time_text := "" |}) in
  created_at_as_specified Reference.env card = Some ""
  /\ map_result (fun r => createdAt (date r)) (review_of_card Reference.env card)
     = Ok None
  /\ map_result (fun r => createdAt (date r)) (review_of_card Reference.env card)
     <> Ok (created_at_as_specified Reference.env card).
Proof.
  repeat split; try reflexivity. vm_compute. discriminate.
Qed.

(* ------------------------------------------------------------------ *)
(** *** What holds of every company the searches return *)

Lemma Subseq_Forall {A : Type} (P : A -> Prop) (l1 l2 : list A) :
  Subseq l1 l2 -> Forall P l2 -> Forall P l1.
Proof.
  induction 1 as [|x l1 l2 _ IH|x l1 l2 _ IH]; intros Hall; auto;
    inversion Hall; subst; auto.
Qed.

(** A property every built company has, and that attaching reviews keeps,
    holds of everything the searches accumulate and return. *)
Section BuiltInvariant.
Variable E : Env.
Variable now : nat -> string.
Variable P : Company -> Prop.
Hypothesis P_build :
  forall d base hint n c n',
    build_company E now d base hint n = Ok (c, n') -> P c.
Variables params config : dict.
Hypothesis P_attach :
  forall cs, Forall P cs ->
             Forall P (_attach_reviews_to_companies E cs config params).

Lemma parse_items_Forall (items : list pyval) (base : string) (hint : option string) :
  forall acc n acc' n',
    Forall P (fst acc) ->
    parse_items E now items base hint acc n = Ok (acc', n') ->
    Forall P (fst acc').
Proof.
  induction items as [|item rest IH]; intros acc n acc' n' Hacc H; simpl in H.
  - inversion H; subst. exact Hacc.
  - destruct item; try (eapply IH; eauto; fail).
    apply bindM_Ok in H. destruct H as (o & n1 & Hc & H).
    destruct o as [c|]; [|eapply IH; eauto].
    apply bindM_Ok in H. destruct H as (k & n2 & Hk & H).
    destruct (negb (key_in k (snd acc))); [|eapply IH; eauto].
    eapply IH; [|exact H]. simpl.
    apply Forall_app. split; auto. constructor; [|constructor].
    unfold _company_from_ld_json in Hc.
    apply bindM_Ok in Hc. destruct Hc as (ts & n3 & _ & Hc).
    destruct (negb (is_business ts)); [discriminate|].
    apply bindM_Ok in Hc. destruct Hc as (c' & n4 & Hb & Hc).
    inversion Hc; subst c'. eapply P_build; eauto.
Qed.

Lemma parse_scripts_Forall (scripts : list string) (base : string)
      (hint : option string) :
  forall acc n acc' n',
    Forall P (fst acc) ->
    parse_scripts E now scripts base hint acc n = Ok (acc', n') ->
    Forall P (fst acc').
Proof.
  induction scripts as [|raw rest IH]; intros acc n acc' n' Hacc H; simpl in H.
  - inversion H; subst. exact Hacc.
  - destruct (String.eqb raw ""); [eapply IH; eauto|].
    destruct (json_loads E raw) as [data| |e];
      [|eapply IH; eauto|unfold raise in H; discriminate].
    apply bindM_Ok in H. destruct H as (acc1 & n1 & Hi & H).
    eapply IH; [|exact H]. eapply parse_items_Forall; eauto.
Qed.

Lemma parse_ld_json_blocks_Forall (html base : string) (hint : option string)
      (n : nat) (cs : list Company) (n' : nat) :
  _parse_ld_json_blocks E now html base hint n = Ok (cs, n') -> Forall P cs.
Proof.
  unfold _parse_ld_json_blocks. intros H.
  apply bindM_Ok in H. destruct H as (acc & n1 & Hs & H).
  inversion H; subst.
  eapply parse_scripts_Forall; [|exact Hs]. constructor.
Qed.

Lemma fetch_pages_Forall (url_of : Z -> string) (base : string)
      (hint : option string) (pages : list Z) :
  forall companies n cs n',
    Forall P companies ->
    fetch_pages E now url_of base hint pages companies n = Ok (cs, n') ->
    Forall P cs.
Proof.
  induction pages as [|page rest IH]; intros companies n cs n' Hc H; simpl in H.
  - inversion H; subst. exact Hc.
  - destruct (_fetch_page E (url_of page)) as [[html|]|e];
      [|eapply IH; eauto|unfold raise in H; discriminate].
    destruct (String.eqb html ""); [eapply IH; eauto|].
    apply bindM_Ok in H. destruct H as (batch & n1 & Hb & H).
    eapply IH; [|exact H].
    apply Forall_app. split; auto.
    eapply parse_ld_json_blocks_Forall; eauto.
Qed.

Lemma collect_companies_Forall (n : nat) (cs : list Company) (n' : nat) :
  collect_companies E now params config n = Ok (cs, n') -> Forall P cs.
Proof.
  unfold collect_companies. intros H. inv_bindM H.
  destruct (String.eqb a1 "category").
  { unfold _search_by_category in H.
    destruct (negb (py_truthy (dict_get params "categoryId"))); [discriminate|].
    inv_bindM H. inversion H; subst.
    apply P_attach. eapply fetch_pages_Forall; [|eauto]. constructor. }
  destruct (String.eqb a1 "keyword").
  { unfold _search_by_keyword in H.
    destruct (negb (py_truthy (dict_get params "keyword"))); [discriminate|].
    inv_bindM H. inversion H; subst.
    apply P_attach. eapply fetch_pages_Forall; [|eauto]. constructor. }
  destruct (String.eqb a1 "detail"); [|discriminate].
  unfold _search_detail in H.
  destruct (negb (py_truthy (dict_get params "domain"))); [discriminate|].
  cbv zeta in H.
  destruct (_fetch_page E _) as [[html|]|e];
    [|inversion H; constructor|unfold raise in H; discriminate].
  destruct (String.eqb html ""); [inversion H; constructor|].
  apply bindM_Ok in H. destruct H as (batch & n1 & Hb & H).
  apply parse_ld_json_blocks_Forall in Hb.
  destruct batch; inversion H; subst; [constructor|].
  apply P_attach. exact Hb.
Qed.

Lemma search_companies_Forall (n : nat) (r : list Company) (n' : nat) :
  search_companies E now params config n = Ok (r, n') -> Forall P r.
Proof.
  intros H. apply search_companies_Ok in H. destruct H as (cs & Hc & Hu).
  apply unique_companies_first_of_each_key in Hu. destruct Hu as (_ & Hsub & _).
  eapply Subseq_Forall; eauto. eapply collect_companies_Forall; eauto.
Qed.

End BuiltInvariant.

(** Attaching reviews keeps what assigning [reviews] and [lastReviews]
    keeps. *)
Lemma attach_reviews_Forall (E : Env) (P : Company -> Prop)
      (companies : list Company) (config params : dict) :
  (forall c rs, P c -> P (set_reviews c rs (firstn 3 rs))) ->
  Forall P companies ->
  Forall P (_attach_reviews_to_companies E companies config params).
Proof.
  unfold _attach_reviews_to_companies. intros HP H.
  destruct (negb (py_truthy (dict_get params "includeReviews"))); auto.
  apply Forall_map. eapply Forall_impl; [|exact H].
  intros c Hc. unfold attach_reviews.
  destruct (negb (py_truthy (sourceUrl c))); auto.
  destruct (fetch_reviews E (sourceUrl c) _ _); auto.
Qed.

(** The company [build_company] returns, field by field. *)
Ltac inv_build_fields H :=
  unfold build_company in H; inv_bindM H;
  unfold ret in H; inversion H; subst; clear H;
  match goal with
  | |- context [py_or (dict_get ?d "category") (dict_get ?d "keywords")] =>
      destruct (py_or (dict_get d "category") (dict_get d "keywords"))
  end;
  cbn [ID domain ratingValue reviewCount name description image country
       address city zipCode website email phone categories categoriesID
       lastReviews reviews rating data similarBusinessUnits aiSummary
       sourceUrl set_aiSummary set_categories].

Ltac inv_build H := inv_build_fields H; simpl.

(* ------------------------------------------------------------------ *)
(** *** One page: the companies it yields have distinct identities *)

Section PageIds.
Variable E : Env.
Variable now : nat -> string.

Lemma parse_items_ids (items : list pyval) (base : string) (hint : option string) :
  forall acc n acc' n',
    ids_seen acc ->
    parse_items E now items base hint acc n = Ok (acc', n') ->
    ids_seen acc'.
Proof.
  induction items as [|item rest IH]; intros acc n acc' n' Hacc H; simpl in H.
  - inversion H; subst. exact Hacc.
  - destruct item; try (eapply IH; eauto; fail).
    apply bindM_Ok in H. destruct H as (o & n1 & Hc & H).
    destruct o as [c|]; [|eapply IH; eauto].
    apply bindM_Ok in H. destruct H as (k & n2 & Hk & H).
    apply lift_Ok in Hk. destruct Hk as (Hk & ->).
    destruct (key_in k (snd acc)) eqn:Hin; simpl in H; [eapply IH; eauto|].
    eapply IH; [|exact H].
    destruct Hacc as (Hf & Hnd). split; simpl.
    + apply Forall2_app; auto.
    + apply NoDup_snoc; auto. apply key_in_false. exact Hin.
Qed.

Lemma parse_scripts_ids (scripts : list string) (base : string)
      (hint : option string) :
  forall acc n acc' n',
    ids_seen acc ->
    parse_scripts E now scripts base hint acc n = Ok (acc', n') ->
    ids_seen acc'.
Proof.
  induction scripts as [|raw rest IH]; intros acc n acc' n' Hacc H; simpl in H.
  - inversion H; subst. exact Hacc.
  - destruct (String.eqb raw ""); [eapply IH; eauto|].
    destruct (json_loads E raw) as [data| |e];
      [|eapply IH; eauto|unfold raise in H; discriminate].
    apply bindM_Ok in H. destruct H as (acc1 & n1 & Hi & H).
    eapply IH; [|exact H]. eapply parse_items_ids; eauto.
Qed.

End PageIds.

Lemma Forall2_id_keys (cs : list Company) (ks : list hkey) :
  Forall2 (fun c k => py_hash_key (ID c) = Ok k) cs ks ->
  id_keys cs = map Ok ks.
Proof.
  unfold id_keys.
  induction 1 as [|c k cs ks Hk _ IH]; simpl; auto.
  rewrite Hk, IH. reflexivity.
Qed.

Lemma NoDup_map_Ok {A : Type} (l : list A) :
  NoDup l -> NoDup (map (@Ok A) l).
Proof.
  induction 1 as [|x l Hx _ IH]; simpl; constructor; auto.
  intros Hin. apply in_map_iff in Hin. destruct Hin as (y & Hy & Hin).
  inversion Hy; subst. contradiction.
Qed.

(** X1: the companies the extractor yields for one page have pairwise
    distinct [ID]s (as set elements, so that [1] and [1.0] count as one): a
    later object of an identity already seen on the page is dropped. *)
Theorem parse_ld_json_blocks_distinct_ids
  (E : Env) (now : nat -> string) (html base_url : string)
  (hint : option string) (n : nat) (companies : list Company) (n' : nat) :
  _parse_ld_json_blocks E now html base_url hint n = Ok (companies, n') ->
  NoDup (id_keys companies).
Proof.
  unfold _parse_ld_json_blocks. intros H.
  apply bindM_Ok in H. destruct H as (acc & n1 & Hs & H).
  inversion H; subst.
  apply (parse_scripts_ids E now) in Hs.
  - destruct Hs as (Hf & Hnd).
    rewrite (Forall2_id_keys _ _ Hf). apply NoDup_map_Ok. exact Hnd.
  - split; constructor.
Qed.

Lemma parse_ld_json_blocks_distinct_ids_witness :
  exists companies,
    _parse_ld_json_blocks Reference.env Reference.clock Reference.page_2
                          "https://www.trustpilot.com" None 0
    = Ok (companies, 2)
    /\ List.length companies = 1
    /\ NoDup (id_keys companies).
Proof.
  eexists. split; [vm_compute; reflexivity|]. split; [reflexivity|].
  apply (parse_ld_json_blocks_distinct_ids Reference.env Reference.clock
           Reference.page_2 "https://www.trustpilot.com" None 0 _ 2).
  vm_compute. reflexivity.
Defined.

(* ------------------------------------------------------------------ *)
(** *** The fields of a returned company *)

Lemma search_companies_fields_typed_aux
      (E : Env) (now : nat -> string) (params config : dict) (n : nat)
      (r : list Company) (n' : nat) :
  search_companies E now params config n = Ok (r, n') ->
  Forall (fun c =>
            (ratingValue c = VNone \/ exists x, ratingValue c = VFloat x)
            /\ (reviewCount c = VNone \/ exists z, reviewCount c = VInt z)) r.
Proof.
  apply search_companies_Forall.
  - intros d base hint m c m' H. split.
    + inv_build H;
        match goal with
        | |- context [match ?o with Some _ => _ | None => _ end] =>
            destruct o; eauto
        end.
    + inv_build H;
        match goal with
        | |- (match ?o with Some z => VInt z | None => VNone end = _) \/ _ =>
            destruct o; eauto
        end.
  - intros cs. apply attach_reviews_Forall. intros c rs H. exact H.
Qed.

(** X2: every company [search_companies] returns has a [ratingValue] that
    is a float or [None], a [reviewCount] that is an int or [None], a
    [domain] and a [sourceUrl] that are strings or [None], and no [email]:
    the types the dataclass declares hold of these fields whatever the page
    holds. *)
Theorem search_companies_fields_typed
  (E : Env) (now : nat -> string) (params config : dict) (n : nat)
  (r : list Company) (n' : nat) :
  search_companies E now params config n = Ok (r, n') ->
  Forall (fun c =>
            (ratingValue c = VNone \/ exists x, ratingValue c = VFloat x)
            /\ (reviewCount c = VNone \/ exists z, reviewCount c = VInt z)
            /\ str_or_none (domain c)
            /\ str_or_none (sourceUrl c)
            /\ email c = VNone) r.
Proof.
  apply search_companies_Forall.
  - intros d base hint m c m' H.
    destruct (build_company_shape E now d base hint m c m' H) as (Hd & Hs).
    split; [|split; [|split; [exact Hd|split; [exact Hs|]]]]; clear Hd Hs.
    + inv_build H;
        match goal with
        | |- context [match ?o with Some _ => _ | None => _ end] =>
            destruct o; eauto
        end.
    + inv_build H;
        match goal with
        | |- (match ?o with Some z => VInt z | None => VNone end = _) \/ _ =>
            destruct o; eauto
        end.
    + inv_build H; reflexivity.
  - intros cs. apply attach_reviews_Forall. intros c rs H. exact H.
Qed.

Lemma search_companies_fields_typed_witness :
  exists r,
    search_companies Reference.env Reference.clock Reference.params_category [] 0
    = Ok (r, 4)
    /\ Forall (fun c =>
                 (ratingValue c = VNone \/ exists x, ratingValue c = VFloat x)
                 /\ (reviewCount c = VNone \/ exists z, reviewCount c = VInt z)
                 /\ str_or_none (domain c)
                 /\ str_or_none (sourceUrl c)
                 /\ email c = VNone) r.
Proof.
  eexists. split; [vm_compute; reflexivity|].
  apply (search_companies_fields_typed Reference.env Reference.clock
           Reference.params_category [] 0 _ 4).
  vm_compute. reflexivity.
Defined.

(** A built company is filed under its [ID]: the fall-back of the last
    loop of [search_companies] to [domain] and [sourceUrl] gives what the
    constructor already put in [ID]. *)
Lemma build_company_identity_key
      (E : Env) (now : nat -> string) (d : dict) (base : string)
      (hint : option string) (n : nat) (c : Company) (n' : nat) :
  build_company E now d base hint n = Ok (c, n') -> identity_key c = ID c.
Proof.
  assert (Hor : forall x y,
             (if negb (py_truthy (py_or x y)) then y else py_or x y)
             = py_or x y).
  { intros x y. unfold py_or.
    destruct (py_truthy x) eqn:Hx; simpl.
    - rewrite Hx. reflexivity.
    - destruct (py_truthy y); reflexivity. }
  intros H. unfold identity_key. inv_build_fields H; apply Hor.
Qed.

Lemma key_of_by_ID (c : Company) (k : hkey) :
  identity_key c = ID c -> key_of c = Ok (Some k) ->
  py_truthy (ID c) = true /\ py_hash_key (ID c) = Ok k.
Proof.
  unfold key_of. intros ->.
  destruct (py_truthy (ID c)); [|discriminate].
  destruct (py_hash_key (ID c)); simpl; intros H; inversion H; auto.
Qed.

(** X3: every company [search_companies] returns has a non-empty [ID],
    and no two of them have the same [ID]: for the companies the extractor
    builds, the key of the global deduplication is the [ID] itself. *)
Theorem search_companies_ids_distinct
  (E : Env) (now : nat -> string) (params config : dict) (n : nat)
  (r : list Company) (n' : nat) :
  search_companies E now params config n = Ok (r, n') ->
  Forall (fun c => identity_key c = ID c /\ py_truthy (ID c) = true) r
  /\ NoDup (id_keys r).
Proof.
  intros H.
  assert (Hid : Forall (fun c => identity_key c = ID c) r).
  { revert H. apply search_companies_Forall.
    - intros d base hint m c m'. apply build_company_identity_key.
    - intros cs. apply attach_reviews_Forall. intros c rs Hc. exact Hc. }
  apply search_companies_Ok in H. destruct H as (cs & _ & Hu).
  unfold unique_companies in Hu. inv_bind.
  destruct (unique_loop_inv _ _ _ Ha) as (added & -> & _ & Hall & Hnd & _).
  simpl in *. specialize (Hnd (NoDup_nil _)).
  rewrite Forall_forall in Hall, Hid.
  assert (Hk : forall kc, In kc added ->
                 py_truthy (ID (snd kc)) = true
                 /\ py_hash_key (ID (snd kc)) = Ok (fst kc)).
  { intros kc Hin. apply key_of_by_ID; auto.
    apply Hid. apply in_map. exact Hin. }
  split.
  - apply Forall_forall. intros c Hc. split; [apply Hid; exact Hc|].
    apply in_map_iff in Hc. destruct Hc as (kc & <- & Hin). apply Hk; auto.
  - clear - Hnd Hk. unfold id_keys. rewrite map_map.
    induction added as [|[k c] l IH]; simpl in *; [constructor|].
    inversion Hnd; subst. constructor.
    + intros Hin. apply in_map_iff in Hin. destruct Hin as ([k' c'] & Heq & Hin).
      simpl in Heq.
      destruct (Hk (k', c') (or_intror Hin)) as (_ & Hk1).
      destruct (Hk (k, c) (or_introl eq_refl)) as (_ & Hk2).
      simpl in Hk1, Hk2. rewrite Hk1, Hk2 in Heq. inversion Heq; subst.
      match goal with
      | Hn : ~ In _ (map fst l) |- _ =>
          apply Hn; apply in_map_iff; exists (k, c'); auto
      end.
    + apply IH; auto.
Qed.

Lemma search_companies_ids_distinct_witness :
  exists r,
    search_companies Reference.env Reference.clock Reference.params_category [] 0
    = Ok (r, 4)
    /\ Forall (fun c => identity_key c = ID c /\ py_truthy (ID c) = true) r
    /\ NoDup (id_keys r).
Proof.
  eexists. split; [vm_compute; reflexivity|].
  apply (search_companies_ids_distinct Reference.env Reference.clock
           Reference.params_category [] 0 _ 4).
  vm_compute. reflexivity.
Defined.

(** X4: the review-count histogram of every returned company has its five
    star buckets at zero and, as [total], the company's review count, or
    zero when that is unknown; no related business is ever listed. *)
Theorem search_companies_histogram
  (E : Env) (now : nat -> string) (params config : dict) (n : nat)
  (r : list Company) (n' : nat) :
  search_companies E now params config n = Ok (r, n') ->
  Forall (fun c =>
            data c = histogram (match reviewCount c with
                                | VInt z => z
                                | _ => 0%Z
                                end)
            /\ similarBusinessUnits c = []) r.
Proof.
  apply search_companies_Forall.
  - intros d base hint m c m' H.
    inv_build H; unfold histogram;
      match goal with
      | |- context [match ?o with Some _ => _ | None => _ end] =>
          destruct o; auto
      end.
  - intros cs. apply attach_reviews_Forall. intros c rs H. exact H.
Qed.

Lemma search_companies_histogram_witness :
  exists r,
    search_companies Reference.env Reference.clock Reference.params_category [] 0
    = Ok (r, 4)
    /\ Forall (fun c =>
                 data c = histogram (match reviewCount c with
                                     | VInt z => z
                                     | _ => 0%Z
                                     end)
                 /\ similarBusinessUnits c = []) r.
Proof.
  eexists. split; [vm_compute; reflexivity|].
  apply (search_companies_histogram Reference.env Reference.clock
           Reference.params_category [] 0 _ 4).
  vm_compute. reflexivity.
Defined.

(** X5: in every returned company [lastReviews] is the first three entries
    of [reviews] (all of them when there are fewer), so it never has more
    than three. *)
Theorem search_companies_last_reviews
  (E : Env) (now : nat -> string) (params config : dict) (n : nat)
  (r : list Company) (n' : nat) :
  search_companies E now params config n = Ok (r, n') ->
  Forall (fun c => lastReviews c = firstn 3 (reviews c)
                   /\ List.length (lastReviews c) <= 3) r.
Proof.
  apply search_companies_Forall.
  - intros d base hint m c m' H. inv_build H; auto.
  - intros cs. apply attach_reviews_Forall. intros c rs _.
    cbn [lastReviews reviews set_reviews].
    split; [reflexivity | apply firstn_le_length].
Qed.

Lemma search_companies_last_reviews_witness :
  exists r,
    search_companies Reference.env Reference.clock Reference.params_reviews [] 0
    = Ok (r, 4)
    /\ map (fun c => map id (reviews c)) r
       = [[Some "r1"; Some "64f0c1"; Some "r3"; Some "r4"]]
    /\ map (fun c => map id (lastReviews c)) r
       = [[Some "r1"; Some "64f0c1"; Some "r3"]]
    /\ Forall (fun c => lastReviews c = firstn 3 (reviews c)
                        /\ List.length (lastReviews c) <= 3) r.
Proof.
  eexists. split; [vm_compute; reflexivity|].
  split; [reflexivity|]. split; [reflexivity|].
  apply (search_companies_last_reviews Reference.env Reference.clock
           Reference.params_reviews [] 0 _ 4).
  vm_compute. reflexivity.
Defined.

Lemma substring_end (s : string) :
  String.substring (String.length s) 1 (s ++ ".") = ".".
Proof. induction s as [|c s IH]; simpl; auto. Qed.

Lemma length_append_dot (s : string) :
  String.length (s ++ ".") = S (String.length s).
Proof. induction s as [|c s IH]; simpl; auto. Qed.

Lemma endswith_append_dot (s : string) : endswith (s ++ ".") "." = true.
Proof.
  unfold endswith. rewrite length_append_dot. simpl.
  rewrite Nat.sub_0_r, substring_end. reflexivity.
Qed.

Lemma build_ai_summary_shape
      (E : Env) (now : nat -> string) (c : Company) (n : nat)
      (d : dict) (n' : nat) :
  _build_ai_summary E now c n = Ok (d, n') ->
  exists s,
    d = [("summary", VStr s); ("status", VStr "success"); ("lang", VStr "en");
         ("updatedAt", VStr (now n))]
    /\ (s = "" \/ endswith s "." = true).
Proof.
  unfold _build_ai_summary. intros H. inv_bindM H.
  unfold read_clock in Hm. inversion Hm; subst; clear Hm.
  unfold ret in H. inversion H; subst; clear H.
  eexists. split; [reflexivity|].
  set (summary := str_strip E (join ", " a)).
  destruct (String.eqb summary "") eqn:He; simpl.
  - left. apply String.eqb_eq. exact He.
  - right. destruct (endswith summary ".") eqn:Hd; simpl; auto.
    apply endswith_append_dot.
Qed.

(** X6: the summary record of every returned company has the four entries
    [summary], [status], [lang] and [updatedAt] in this order, with status
    ["success"], language ["en"] and a reading of the clock as time stamp;
    its text ends with a period (or is empty). *)
Theorem search_companies_summary_shape
  (E : Env) (now : nat -> string) (params config : dict) (n : nat)
  (r : list Company) (n' : nat) :
  search_companies E now params config n = Ok (r, n') ->
  Forall (fun c =>
            exists s k,
              aiSummary c = [("summary", VStr s); ("status", VStr "success");
                             ("lang", VStr "en"); ("updatedAt", VStr (now k))]
              /\ (s = "" \/ endswith s "." = true)) r.
Proof.
  apply search_companies_Forall.
  - intros d base hint m c m' H.
    unfold build_company in H. inv_bindM H.
    unfold ret in H. inversion H; subst; clear H.
    apply build_ai_summary_shape in Hm. destruct Hm as (s & -> & Hs).
    exists s. eexists. split; [reflexivity | exact Hs].
  - intros cs. apply attach_reviews_Forall. intros c rs H. exact H.
Qed.

Lemma search_companies_summary_shape_witness :
  exists r,
    search_companies Reference.env Reference.clock Reference.params_category [] 0
    = Ok (r, 4)
    /\ Forall (fun c =>
                 exists s k,
                   aiSummary c
                   = [("summary", VStr s); ("status", VStr "success");
                      ("lang", VStr "en");
                      ("updatedAt", VStr (Reference.clock k))]
                   /\ (s = "" \/ endswith s "." = true)) r.
Proof.
  eexists. split; [vm_compute; reflexivity|].
  apply (search_companies_summary_shape Reference.env Reference.clock
           Reference.params_category [] 0 _ 4).
  vm_compute. reflexivity.
Defined.

(** A company with a float or no rating and an int or no review count
    passes or fails the filters without an exception, when no country is
    asked for. *)
Lemma passes_total (E : Env) (f : Filters) (c : Company) :
  py_truthy (country_filter f) = false ->
  (ratingValue c = VNone \/ exists x, ratingValue c = VFloat x) ->
  (reviewCount c = VNone \/ exists z, reviewCount c = VInt z) ->
  exists b, passes E f c = Ok b.
Proof.
  intros Hcountry Hr Hn.
  unfold passes, _meets_min_trust, _matches_country, _has_min_reviews,
    _is_verified, py_ge_num.
  rewrite Hcountry.
  destruct Hr as [-> | (y & ->)], Hn as [-> | (m & ->)];
    destruct (min_trust f), (min_reviews f), (verified_only f); simpl;
    repeat match goal with
      | |- context [if ?b then _ else _] => destruct b; simpl
      end; eauto.
Qed.

(** X7: filtering what [search_companies] returned does not raise when no
    country is asked for and the thresholds could be read: on the scraper's
    own companies the comparisons of the trust, review-count and verified
    predicates are between numbers. *)
Theorem filters_total_on_search_results
  (E : Env) (now : nat -> string) (params config : dict) (n : nat)
  (r : list Company) (n' : nat) (filter_params : dict) (f : Filters) :
  search_companies E now params config n = Ok (r, n') ->
  read_filters E filter_params = Ok f ->
  py_truthy (dict_get filter_params "country") = false ->
  exists kept, apply_company_filters E r filter_params = Ok kept.
Proof.
  intros Hs Hf Hcountry.
  assert (Hc : country_filter f = dict_get filter_params "country").
  { unfold read_filters in Hf. inv_bind. reflexivity. }
  apply search_companies_fields_typed_aux in Hs.
  unfold apply_company_filters. rewrite Hf. simpl.
  induction Hs as [|c l (Hr & Hn) _ (kept & IH)]; simpl; eauto.
  destruct (passes_total E f c) as (b & ->); auto.
  - rewrite Hc. exact Hcountry.
  - rewrite IH. simpl. eauto.
Qed.

Lemma filters_total_on_search_results_witness :
  exists r,
    search_companies Reference.env Reference.clock Reference.params_category [] 0
    = Ok (r, 4)
    /\ exists kept,
         apply_company_filters Reference.env r
           [("verifiedOnly", VBool true); ("minTrustScore", VStr "4.5")]
         = Ok kept.
Proof.
  eexists. split; [vm_compute; reflexivity|].
  apply (filters_total_on_search_results Reference.env Reference.clock
           Reference.params_category [] 0 _ 4
           [("verifiedOnly", VBool true); ("minTrustScore", VStr "4.5")]
           {| min_trust := Some 4.5%float; verified_only := true;
              min_reviews := None; country_filter := VNone |});
    vm_compute; reflexivity.
Defined.

(* ------------------------------------------------------------------ *)
(** *** The loop over the listing pages *)

Section Pages.
Variable E : Env.
Variable now : nat -> string.
Variable url_of : Z -> string.
Variable base : string.
Variable hint : option string.

Lemma fetch_pages_app (l1 l2 : list Z) :
  forall companies n,
    fetch_pages E now url_of base hint (l1 ++ l2) companies n
    = bindM (fetch_pages E now url_of base hint l1 companies)
            (fun cs => fetch_pages E now url_of base hint l2 cs) n.
Proof.
  induction l1 as [|p l1 IH]; intros companies n; simpl.
  - reflexivity.
  - destruct (_fetch_page E (url_of p)) as [[html|]|e]; auto.
    destruct (String.eqb html ""); auto.
    unfold bindM.
    destruct (_parse_ld_json_blocks E now html base hint n) as [[batch n1]|e].
    + rewrite IH. reflexivity.
    + reflexivity.
Qed.

Lemma fetch_pages_extends (pages : list Z) :
  forall companies n cs n',
    fetch_pages E now url_of base hint pages companies n = Ok (cs, n') ->
    exists found, cs = companies ++ found.
Proof.
  induction pages as [|p pages IH]; intros companies n cs n' H; simpl in H.
  - inversion H; subst. exists []. rewrite app_nil_r. reflexivity.
  - destruct (_fetch_page E (url_of p)) as [[html|]|e];
      [|eauto|unfold raise in H; discriminate].
    destruct (String.eqb html ""); [eauto|].
    apply bindM_Ok in H. destruct H as (batch & n1 & _ & H).
    apply IH in H. destruct H as (found & ->).
    exists (batch ++ found). rewrite app_assoc. reflexivity.
Qed.

End Pages.

(** X8: in the loop over the listing pages a page that cannot be fetched
    (or comes back empty) is passed over and the run goes on as if the page
    had not been asked for; the companies already accumulated stay first,
    the later pages' companies follow; and two stretches of pages one after
    the other give what the whole stretch gives. *)
Theorem fetch_pages_skips_failed_page
  (E : Env) (now : nat -> string) (url_of : Z -> string) (base : string)
  (hint : option string) (p : Z) :
  _fetch_page E (url_of p) = Ok None \/ _fetch_page E (url_of p) = Ok (Some "") ->
  (forall pre post companies n,
      fetch_pages E now url_of base hint (pre ++ p :: post) companies n
      = fetch_pages E now url_of base hint (pre ++ post) companies n)
  /\ (forall pages companies n cs n',
        fetch_pages E now url_of base hint pages companies n = Ok (cs, n') ->
        exists found, cs = companies ++ found)
  /\ (forall l1 l2 companies n,
        fetch_pages E now url_of base hint (l1 ++ l2) companies n
        = bindM (fetch_pages E now url_of base hint l1 companies)
                (fun cs => fetch_pages E now url_of base hint l2 cs) n).
Proof.
  intros Hp. split; [|split].
  - intros pre post companies n.
    rewrite !fetch_pages_app. unfold bindM.
    destruct (fetch_pages E now url_of base hint pre companies n)
      as [[cs n1]|e]; auto.
    simpl. destruct Hp as [-> | ->]; reflexivity.
  - apply fetch_pages_extends.
  - apply fetch_pages_app.
Qed.

Lemma fetch_pages_skips_failed_page_witness :
  let url_of (page : Z) :=
    ("https://www.trustpilot.com/categories/123?page=" ++ str_of_int page)%string in
  fetch_pages Reference.env Reference.clock url_of "https://www.trustpilot.com"
              (Some "123") ([1] ++ 3 :: [2])%Z [] 0
  = fetch_pages Reference.env Reference.clock url_of "https://www.trustpilot.com"
                (Some "123") ([1] ++ [2])%Z [] 0.
Proof.
  intros url_of.
  apply (proj1 (fetch_pages_skips_failed_page Reference.env Reference.clock
                  url_of "https://www.trustpilot.com" (Some "123") 3%Z
                  (or_introl eq_refl))).
Defined.

(* ------------------------------------------------------------------ *)
(** *** The page-count policy *)

Lemma NoDup_map_injective {A B : Type} (f : A -> B) (l : list A) :
  (forall x y, f x = f y -> x = y) -> NoDup l -> NoDup (map f l).
Proof.
  intros Hf. induction 1 as [|x l Hx _ IH]; simpl; constructor; auto.
  intros Hin. apply in_map_iff in Hin. destruct Hin as (y & Hy & Hin).
  apply Hf in Hy. subst y. contradiction.
Qed.

Lemma in_page_range (n p : Z) : In p (page_range n) <-> (1 <= p <= n)%Z.
Proof.
  unfold page_range. rewrite in_map_iff. split.
  - intros (k & <- & Hk). apply in_seq in Hk. lia.
  - intros H. exists (Z.to_nat p). split; [lia|]. apply in_seq. lia.
Qed.

(** X9: without [allPages], a [pages] that is missing, [None] or [0] asks
    for one page and an int [p] other than zero for [p] pages; with
    [allPages] the configured [maxPages] is taken whatever [pages] says, five
    when there is none.  The pages asked for are the numbers from 1 to the
    count, each once, so none at all for a negative count. *)
Theorem limit_pages_policy (E : Env) (params config : dict) :
  (py_truthy (dict_get params "allPages") = false ->
   (dict_lookup params "pages" = None
    \/ dict_lookup params "pages" = Some VNone
    \/ dict_lookup params "pages" = Some (VInt 0)) ->
   _limit_pages E params config = Ok 1%Z)
  /\ (forall p,
        py_truthy (dict_get params "allPages") = false ->
        dict_lookup params "pages" = Some (VInt p) -> p <> 0%Z ->
        _limit_pages E params config = Ok p)
  /\ (py_truthy (dict_get params "allPages") = true ->
      _limit_pages E params config
      = py_int E (dict_get_default config "maxPages" (VInt 5)))
  /\ (py_truthy (dict_get params "allPages") = true ->
      dict_lookup config "maxPages" = None ->
      _limit_pages E params config = Ok 5%Z)
  /\ (forall n p, In p (page_range n) <-> (1 <= p <= n)%Z)
  /\ (forall n, NoDup (page_range n)
                /\ List.length (page_range n) = Z.to_nat n).
Proof.
  unfold _limit_pages, dict_get_default.
  split; [|split; [|split; [|split; [|split]]]].
  - intros -> [H | [H | H]]; rewrite H; reflexivity.
  - intros p -> H Hp. rewrite H. unfold py_or. simpl.
    destruct (Z.eqb_spec p 0); [contradiction | reflexivity].
  - intros ->. reflexivity.
  - intros -> H. rewrite H. reflexivity.
  - apply in_page_range.
  - intros n. unfold page_range. split.
    + apply NoDup_map_injective; [|apply seq_NoDup].
      intros x y H. apply Nat2Z.inj. exact H.
    + rewrite length_map, length_seq. reflexivity.
Qed.

Lemma limit_pages_policy_witness :
  _limit_pages Reference.env [("pages", VInt 0)] [] = Ok 1%Z.
Proof.
  apply (proj1 (limit_pages_policy Reference.env [("pages", VInt 0)] []));
    [reflexivity | right; right; reflexivity].
Defined.

(* ------------------------------------------------------------------ *)
(** *** The exceptions of the extractor and of the searches *)

Create HintDb builtin.

Lemma builtin_only_bind {A B : Type} (m : result A) (k : A -> result B) :
  builtin_only m -> (forall a, builtin_only (k a)) -> builtin_only (bind m k).
Proof.
  intros Hm Hk. destruct m as [a|e]; simpl.
  - apply Hk.
  - intros e0 H. apply Hm. inversion H. reflexivity.
Qed.

Lemma builtin_onlyM_bind {A B : Type} (m : M A) (k : A -> M B) :
  builtin_onlyM m -> (forall a, builtin_onlyM (k a)) -> builtin_onlyM (bindM m k).
Proof.
  intros Hm Hk n e. unfold bindM.
  specialize (Hm n). destruct (m n) as [[a n1]|e1].
  - apply Hk.
  - intros H. apply Hm. inversion H. reflexivity.
Qed.

Lemma builtin_onlyM_lift {A : Type} (r : result A) :
  builtin_only r -> builtin_onlyM (lift r).
Proof.
  intros Hr n e. unfold lift. destruct r as [a|e1]; [discriminate|].
  intros H. apply Hr. inversion H. reflexivity.
Qed.

Lemma builtin_onlyM_ret {A : Type} (a : A) : builtin_onlyM (ret a).
Proof. intros n e. discriminate. Qed.

Lemma builtin_onlyM_read_clock (now : nat -> string) :
  builtin_onlyM (read_clock now).
Proof. intros n e. discriminate. Qed.

#[local] Hint Resolve builtin_onlyM_ret builtin_onlyM_read_clock : builtin.

Ltac builtin_step :=
  cbv zeta;
  match goal with
  | |- builtin_only (Ok _) => intros ? ?; discriminate
  | |- builtin_only (Raise _) =>
      let H := fresh in intros ? H; inversion H; reflexivity
  | |- builtin_only (bind _ _) => apply builtin_only_bind; [|intros ?]
  | |- builtin_only (match ?x with _ => _ end) => destruct x
  | |- builtin_onlyM (bindM _ _) => apply builtin_onlyM_bind; [|intros ?]
  | |- builtin_onlyM (lift _) => apply builtin_onlyM_lift
  | |- builtin_onlyM (raise (exn_of_lib_error ?e)) =>
      let H := fresh in
      destruct e; intros ? ? H; unfold raise in H; inversion H; reflexivity
  | |- builtin_onlyM (match ?x with _ => _ end) => destruct x
  | |- _ => solve [eauto with builtin]
  end.

Ltac builtin_auto := repeat builtin_step.

Section Builtin.
Variable E : Env.
Variable now : nat -> string.

Lemma builtin_float_of_int (z : Z) : builtin_only (float_of_int z).
Proof. unfold float_of_int. builtin_auto. Qed.

Lemma builtin_int_of_float (f : float) : builtin_only (int_of_float f).
Proof. unfold int_of_float. builtin_auto. Qed.

Hint Resolve builtin_float_of_int builtin_int_of_float : builtin.

Lemma builtin_py_lower (v : pyval) : builtin_only (py_lower E v).
Proof. unfold py_lower. builtin_auto. Qed.

Lemma builtin_py_float (v : pyval) : builtin_only (py_float E v).
Proof. unfold py_float. builtin_auto. Qed.

Lemma builtin_py_int (v : pyval) : builtin_only (py_int E v).
Proof. unfold py_int. builtin_auto. Qed.

Lemma builtin_py_get (v : pyval) (k : string) : builtin_only (py_get v k).
Proof. unfold py_get. builtin_auto. Qed.

Lemma builtin_py_hash_key (v : pyval) : builtin_only (py_hash_key v).
Proof. unfold py_hash_key. builtin_auto. Qed.

Hint Resolve builtin_py_lower builtin_py_float builtin_py_int builtin_py_get
  builtin_py_hash_key : builtin.

Lemma builtin__safe_float (v : pyval) : builtin_only (_safe_float E v).
Proof.
  unfold _safe_float.
  destruct v; try (intros ? ?; discriminate);
    (destruct (py_float E _) as [x|e] eqn:He;
     [intros ? ?; discriminate|];
     pose proof (builtin_py_float _ _ He) as Hb;
     destruct e; simpl; try discriminate;
     intros e0 H0; inversion H0; reflexivity).
Qed.

Lemma builtin__safe_int (v : pyval) : builtin_only (_safe_int E v).
Proof.
  unfold _safe_int.
  destruct v; try (intros ? ?; discriminate);
    (destruct (py_int E _) as [x|e] eqn:He;
     [intros ? ?; discriminate|];
     pose proof (builtin_py_int _ _ He) as Hb;
     destruct e; simpl; try discriminate;
     intros e0 H0; inversion H0; reflexivity).
Qed.

Lemma builtin_strs_of (l : list pyval) : builtin_only (strs_of l).
Proof.
  induction l as [|v l IH]; simpl; [builtin_auto|].
  destruct v; builtin_auto.
Qed.

Lemma builtin_lower_all (l : list pyval) : builtin_only (lower_all E l).
Proof. induction l as [|v l IH]; simpl; builtin_auto. Qed.

Hint Resolve builtin__safe_float builtin__safe_int builtin_strs_of
  builtin_lower_all : builtin.

Lemma builtin_py_format_1f (v : pyval) : builtin_only (py_format_1f E v).
Proof. unfold py_format_1f. builtin_auto. Qed.

Lemma builtin__extract_domain (v : pyval) : builtin_only (_extract_domain E v).
Proof. unfold _extract_domain. builtin_auto. Qed.

Lemma builtin_declared_types (d : dict) : builtin_only (declared_types E d).
Proof. unfold declared_types. builtin_auto. Qed.

Lemma builtin_resolve_url (d : dict) (base : string) :
  builtin_only (resolve_url E d base).
Proof. unfold resolve_url. builtin_auto. Qed.

Hint Resolve builtin_py_format_1f builtin__extract_domain
  builtin_declared_types builtin_resolve_url : builtin.

Lemma builtin_summary_parts (c : Company) : builtin_only (summary_parts E c).
Proof. unfold summary_parts. builtin_auto. Qed.

Hint Resolve builtin_summary_parts : builtin.

Lemma builtin__limit_pages (params config : dict) :
  builtin_only (_limit_pages E params config).
Proof. unfold _limit_pages. builtin_auto. Qed.

Hint Resolve builtin__limit_pages : builtin.

Lemma builtin__build_ai_summary (c : Company) :
  builtin_onlyM (_build_ai_summary E now c).
Proof. unfold _build_ai_summary. builtin_auto. Qed.

Hint Resolve builtin__build_ai_summary : builtin.

Lemma builtin_build_company (d : dict) (base : string) (hint : option string) :
  builtin_onlyM (build_company E now d base hint).
Proof. unfold build_company. builtin_auto. Qed.

Hint Resolve builtin_build_company : builtin.

Lemma builtin__company_from_ld_json (v : pyval) (base : string)
      (hint : option string) :
  builtin_onlyM (_company_from_ld_json E now v base hint).
Proof. unfold _company_from_ld_json. builtin_auto. Qed.

Hint Resolve builtin__company_from_ld_json : builtin.

Lemma builtin_parse_items (items : list pyval) (base : string)
      (hint : option string) :
  forall acc, builtin_onlyM (parse_items E now items base hint acc).
Proof.
  induction items as [|item rest IH]; intros acc; simpl; [builtin_auto|].
  destruct item; auto. builtin_auto.
Qed.

Hint Resolve builtin_parse_items : builtin.

Lemma builtin_parse_scripts (scripts : list string) (base : string)
      (hint : option string) :
  forall acc, builtin_onlyM (parse_scripts E now scripts base hint acc).
Proof.
  induction scripts as [|raw rest IH]; intros acc; simpl; builtin_auto.
Qed.

Hint Resolve builtin_parse_scripts : builtin.

Lemma builtin__parse_ld_json_blocks (html base : string) (hint : option string) :
  builtin_onlyM (_parse_ld_json_blocks E now html base hint).
Proof. unfold _parse_ld_json_blocks. builtin_auto. Qed.

Hint Resolve builtin__parse_ld_json_blocks : builtin.

Lemma builtin__fetch_page (url : string) : builtin_only (_fetch_page E url).
Proof.
  unfold _fetch_page. destruct (session_get E url) as [ok page| |e].
  - destruct (negb ok); intros ? ?; discriminate.
  - intros ? ?; discriminate.
  - destruct e; intros ? H; inversion H; reflexivity.
Qed.

Lemma builtin_onlyM_raised_by_fetch (A : Type) (url : string) (e : exn) :
  _fetch_page E url = Raise e -> builtin_onlyM (@raise A e).
Proof.
  intros Hf n e0 H. unfold raise in H. inversion H; subst.
  exact (builtin__fetch_page url _ Hf).
Qed.

Lemma builtin_fetch_pages (url_of : Z -> string) (base : string)
      (hint : option string) (pages : list Z) :
  forall companies,
    builtin_onlyM (fetch_pages E now url_of base hint pages companies).
Proof.
  induction pages as [|page rest IH]; intros companies; simpl; [builtin_auto|].
  destruct (_fetch_page E (url_of page)) as [[html|]|e] eqn:Hf;
    [builtin_auto | builtin_auto | eapply builtin_onlyM_raised_by_fetch; eauto].
Qed.

Lemma builtin_unique_loop (cs : list Company) :
  forall unique, builtin_only (unique_loop cs unique).
Proof.
  induction cs as [|c rest IH]; intros unique; simpl; builtin_auto.
Qed.

End Builtin.

Section ModeParameter.
Variable E : Env.
Variable now : nat -> string.

Lemma search_by_category_raises (base : string) (params config : dict)
      (n : nat) (e : exn) :
  _search_by_category E now base params config n = Raise e ->
  is_builtin e = true
  \/ (e = MissingParameter "category" "categoryId"
      /\ py_truthy (dict_get params "categoryId") = false).
Proof.
  unfold _search_by_category.
  destruct (py_truthy (dict_get params "categoryId")); simpl.
  - intros H. left. revert H.
    apply builtin_onlyM_bind; [apply builtin_onlyM_lift, builtin__limit_pages|].
    intros pages. apply builtin_onlyM_bind; [apply builtin_fetch_pages|].
    intros cs. apply builtin_onlyM_ret.
  - intros H. inversion H. right. auto.
Qed.

Lemma search_by_keyword_raises (base : string) (params config : dict)
      (n : nat) (e : exn) :
  _search_by_keyword E now base params config n = Raise e ->
  is_builtin e = true
  \/ (e = MissingParameter "keyword" "keyword"
      /\ py_truthy (dict_get params "keyword") = false).
Proof.
  unfold _search_by_keyword.
  destruct (py_truthy (dict_get params "keyword")); simpl.
  - intros H. left. revert H.
    apply builtin_onlyM_bind; [apply builtin_onlyM_lift, builtin__limit_pages|].
    intros pages. apply builtin_onlyM_bind; [apply builtin_fetch_pages|].
    intros cs. apply builtin_onlyM_ret.
  - intros H. inversion H. right. auto.
Qed.

Lemma search_detail_raises (base : string) (params config : dict)
      (n : nat) (e : exn) :
  _search_detail E now base params config n = Raise e ->
  is_builtin e = true
  \/ (e = MissingParameter "detail" "domain"
      /\ py_truthy (dict_get params "domain") = false).
Proof.
  unfold _search_detail.
  destruct (py_truthy (dict_get params "domain")); simpl.
  - intros H. left. revert H.
    destruct (_fetch_page E _) as [[html|]|e0] eqn:Hf;
      [|discriminate|eapply builtin_onlyM_raised_by_fetch; exact Hf].
    destruct (String.eqb html ""); [discriminate|].
    apply builtin_onlyM_bind; [apply builtin__parse_ld_json_blocks|].
    intros cs. destruct cs; apply builtin_onlyM_ret.
  - intros H. inversion H. right. auto.
Qed.

End ModeParameter.

(** X10: a search whose mode lacks its parameter ([categoryId] for
    [category], [keyword] for [keyword], [domain] for [detail]: missing,
    [None] or empty) raises the missing-parameter [ValueError] naming the mode
    and the parameter; and that error is raised in no other case. *)
Theorem missing_parameter_error
  (E : Env) (now : nat -> string) (params config : dict) (n : nat) :
  (forall base st p,
      base_url_of config = Ok base ->
      create_session_error E config = None ->
      search_type_of E params = Ok st ->
      (st = "category" /\ p = "categoryId"
       \/ st = "keyword" /\ p = "keyword"
       \/ st = "detail" /\ p = "domain") ->
      py_truthy (dict_get params p) = false ->
      search_companies E now params config n = Raise (MissingParameter st p))
  /\ (forall st p,
        search_companies E now params config n = Raise (MissingParameter st p) ->
        (st = "category" /\ p = "categoryId"
         \/ st = "keyword" /\ p = "keyword"
         \/ st = "detail" /\ p = "domain")
        /\ search_type_of E params = Ok st
        /\ py_truthy (dict_get params p) = false).
Proof.
  split.
  - intros base st p Hbase Hsess Hst Hmode Hp.
    unfold search_companies, collect_companies, bindM, lift, _create_session.
    rewrite Hbase, Hsess, Hst.
    destruct Hmode as [(-> & ->) | [(-> & ->) | (-> & ->)]]; simpl.
    + unfold _search_by_category. rewrite Hp. reflexivity.
    + unfold _search_by_keyword. rewrite Hp. reflexivity.
    + unfold _search_detail. rewrite Hp. reflexivity.
  - intros st p H.
    unfold search_companies in H. unfold bindM at 1 in H.
    destruct (collect_companies E now params config n) as [[cs n1]|e] eqn:Hc.
    { exfalso.
      assert (Hb : builtin_onlyM (lift (unique_companies cs))).
      { apply builtin_onlyM_lift. unfold unique_companies.
        apply builtin_only_bind; [apply builtin_unique_loop|].
        intros a e0 H0. discriminate. }
      apply Hb in H. discriminate. }
    inversion H; subst e; clear H.
    unfold collect_companies in Hc. unfold bindM at 1 in Hc.
    destruct (lift (base_url_of config) n) as [[base n1]|e] eqn:Hb.
    2:{ exfalso. inversion Hc; subst e. unfold lift, base_url_of in Hb.
        destruct (dict_get_default config "baseUrl" _); discriminate. }
    unfold bindM at 1 in Hc.
    destruct (lift (_create_session E config) n1) as [[u n2]|e] eqn:Hs.
    2:{ exfalso. inversion Hc; subst e. unfold lift, _create_session in Hs.
        destruct (create_session_error E config) as [[]|]; simpl in Hs;
          discriminate. }
    unfold bindM at 1 in Hc.
    destruct (lift (search_type_of E params) n2) as [[st0 n3]|e] eqn:Ht.
    2:{ exfalso. unfold lift in Ht.
        destruct (search_type_of E params) as [x|e0] eqn:Ht0; [discriminate|].
        inversion Ht; subst. inversion Hc; subst.
        apply (builtin_py_lower E) in Ht0. discriminate. }
    unfold lift in Ht.
    destruct (search_type_of E params) as [x|e0]; [|discriminate].
    inversion Ht; subst x n3; clear Ht.
    destruct (String.eqb st0 "category") eqn:H1.
    { apply String.eqb_eq in H1. subst st0.
      apply search_by_category_raises in Hc.
      destruct Hc as [Hc | (Hc & Hp)]; [discriminate|].
      inversion Hc; subst. auto 6. }
    destruct (String.eqb st0 "keyword") eqn:H2.
    { apply String.eqb_eq in H2. subst st0.
      apply search_by_keyword_raises in Hc.
      destruct Hc as [Hc | (Hc & Hp)]; [discriminate|].
      inversion Hc; subst. auto 6. }
    destruct (String.eqb st0 "detail") eqn:H3.
    { apply String.eqb_eq in H3. subst st0.
      apply search_detail_raises in Hc.
      destruct Hc as [Hc | (Hc & Hp)]; [discriminate|].
      inversion Hc; subst. auto 7. }
    unfold raise in Hc. discriminate.
Qed.

Lemma missing_parameter_error_witness :
  search_companies Reference.env Reference.clock
                   [("searchType", VStr "Keyword"); ("keyword", VStr "")] [] 0
  = Raise (MissingParameter "keyword" "keyword").
Proof.
  apply (proj1 (missing_parameter_error Reference.env Reference.clock
                  [("searchType", VStr "Keyword"); ("keyword", VStr "")] [] 0)
           "https://www.trustpilot.com" "keyword" "keyword");
    try reflexivity.
  right. left. split; reflexivity.
Defined.

(* ------------------------------------------------------------------ *)
(** *** Attaching the reviews *)

(** X11: attaching reviews changes nothing of a company but [reviews] and
    [lastReviews], and drops or reorders no company.  Company by company: one
    without [sourceUrl] is left as it is; with [includeReviews], one with a
    [sourceUrl] whose reviews are fetched gets them as [reviews] and the
    first three of them as [lastReviews], and one whose fetch raises is left
    as it is.  Without [includeReviews] the list is returned as it is. *)
Theorem attach_reviews_only_reviews
  (E : Env) (companies : list Company) (config params : dict) :
  let language :=
    py_or (dict_get params "language")
          (dict_get_default config "defaultLanguage" (VStr "en")) in
  let max_reviews := dict_get params "maxReviewsPerCompany" in
  Forall2 (fun c c' =>
             (c' = c \/ exists rs, c' = set_reviews c rs (firstn 3 rs))
             /\ (py_truthy (sourceUrl c) = false -> c' = c)
             /\ (py_truthy (dict_get params "includeReviews") = true ->
                 py_truthy (sourceUrl c) = true ->
                 forall rs,
                   fetch_reviews E (sourceUrl c) language max_reviews = Ok rs ->
                   c' = set_reviews c rs (firstn 3 rs))
             /\ (forall e,
                   fetch_reviews E (sourceUrl c) language max_reviews = Raise e ->
                   c' = c))
          companies (_attach_reviews_to_companies E companies config params)
  /\ (py_truthy (dict_get params "includeReviews") = false ->
      _attach_reviews_to_companies E companies config params = companies)
  /\ (Forall (fun c => py_truthy (sourceUrl c) = false) companies ->
      _attach_reviews_to_companies E companies config params = companies).
Proof.
  cbv zeta. unfold _attach_reviews_to_companies.
  destruct (py_truthy (dict_get params "includeReviews")); cbn [negb]; cbv zeta.
  - split; [|split].
    + induction companies as [|c l IH]; cbn [map]; constructor; auto.
      unfold attach_reviews.
      destruct (py_truthy (sourceUrl c)); cbn [negb].
      * destruct (fetch_reviews E (sourceUrl c) _ _) as [rs|e].
        -- split; [right; exists rs; reflexivity|].
           split; [discriminate|].
           split; [|discriminate].
           intros _ _ rs' H. inversion H; subst rs'. reflexivity.
        -- split; [left; reflexivity|].
           split; [discriminate|].
           split; [intros _ _ rs H; discriminate | reflexivity].
      * split; [left; reflexivity|].
        split; [reflexivity|].
        split; [discriminate | reflexivity].
    + discriminate.
    + induction 1 as [|c l Hc _ IH]; cbn [map]; auto.
      rewrite IH. unfold attach_reviews. rewrite Hc. reflexivity.
  - split; [|split]; auto.
    induction companies; constructor; auto.
    split; [left; reflexivity|].
    split; [reflexivity|].
    split; [discriminate | reflexivity].
Qed.

Lemma attach_reviews_only_reviews_witness :
  let acme :=
    Reference.company_of (VStr "a") VNone (VStr "https://acme.example/") in
  let nowhere := Reference.company_of (VStr "b") VNone VNone in
  let broken :=
    Reference.company_of (VStr "c") VNone (VStr "https://broken.example/") in
  exists rs,
    fetch_reviews Reference.env (VStr "https://acme.example/") (VStr "en") (VInt 4)
    = Ok rs
    /\ map id rs = [Some "r1"; Some "64f0c1"; Some "r3"; Some "r4"]
    /\ fetch_reviews Reference.env (VStr "https://broken.example/") (VStr "en")
                     (VInt 4)
       = Raise ValueError
    /\ _attach_reviews_to_companies Reference.env [acme; nowhere; broken] []
                                    Reference.params_reviews
       = [set_reviews acme rs (firstn 3 rs); nowhere; broken]
    /\ Forall2 (fun c c' =>
                  (c' = c \/ exists rs, c' = set_reviews c rs (firstn 3 rs))
                  /\ (py_truthy (sourceUrl c) = false -> c' = c)
                  /\ (py_truthy (dict_get Reference.params_reviews "includeReviews")
                      = true ->
                      py_truthy (sourceUrl c) = true ->
                      forall rs,
                        fetch_reviews Reference.env (sourceUrl c) (VStr "en") (VInt 4)
                        = Ok rs ->
                        c' = set_reviews c rs (firstn 3 rs))
                  /\ (forall e,
                        fetch_reviews Reference.env (sourceUrl c) (VStr "en") (VInt 4)
                        = Raise e ->
                        c' = c))
               [acme; nowhere; broken]
               (_attach_reviews_to_companies Reference.env [acme; nowhere; broken] []
                                             Reference.params_reviews).
Proof.
  intros acme nowhere broken. eexists.
  split; [vm_compute; reflexivity|].
  split; [reflexivity|].
  split; [reflexivity|].
  split; [reflexivity|].
  exact (proj1 (attach_reviews_only_reviews Reference.env [acme; nowhere; broken]
                  [] Reference.params_reviews)).
Defined.

(* ------------------------------------------------------------------ *)
(** *** The reviews of one company *)






(* ------------------------------------------------------------------ *)
(** *** The global deduplication, again *)

Lemma unique_loop_fixed (added : list (hkey * Company)) :
  forall unique,
    Forall (fun kc => key_of (snd kc) = Ok (Some (fst kc))) added ->
    NoDup (map fst unique ++ map fst added) ->
    unique_loop (map snd added) unique = Ok (unique ++ added).
Proof.
  induction added as [|[k c] l IH]; intros unique Hall Hnd; simpl map.
  - simpl. rewrite app_nil_r. reflexivity.
  - inversion Hall as [|? ? Hk Hl]; subst. simpl in Hk.
    rewrite unique_loop_cons, Hk.
    assert (Hin : key_in k (map fst unique) = false).
    { apply key_in_false. intros Hin.
      apply NoDup_remove_2 in Hnd. apply Hnd.
      apply in_or_app. left. exact Hin. }
    rewrite Hin.
    rewrite IH; auto.
    + rewrite <- app_assoc. reflexivity.
    + rewrite map_app. simpl. rewrite <- app_assoc. simpl. exact Hnd.
Qed.

(** X13: removing the duplicates is idempotent: the list the last loop of
    [search_companies] returns goes through that loop unchanged. *)
Theorem unique_companies_idempotent (companies r : list Company) :
  unique_companies companies = Ok r -> unique_companies r = Ok r.
Proof.
  unfold unique_companies. intros H. inv_bind.
  destruct (unique_loop_inv _ _ _ Ha) as (added & -> & _ & Hall & Hnd & _).
  simpl in *. specialize (Hnd (NoDup_nil _)).
  rewrite (unique_loop_fixed added []); auto.
Qed.

Lemma unique_companies_idempotent_witness :
  exists r,
    unique_companies Reference.collected_category = Ok r
    /\ List.length r = 1
    /\ unique_companies r = Ok r.
Proof.
  eexists. split; [vm_compute; reflexivity|]. split; [reflexivity|].
  apply (unique_companies_idempotent Reference.collected_category).
  vm_compute. reflexivity.
Defined.

(* ------------------------------------------------------------------ *)
(** *** The filter engine, again *)

(** X14: filtering a concatenation is filtering its parts, in order: the
    companies kept of [c1 ++ c2] are those kept of [c1] followed by those
    kept of [c2], and the exception of the first part, if any, is the one
    raised. *)
Theorem apply_company_filters_app
  (E : Env) (c1 c2 : list Company) (p : dict) :
  apply_company_filters E (c1 ++ c2) p
  = (r1 <- apply_company_filters E c1 p ;;
     r2 <- apply_company_filters E c2 p ;;
     Ok (r1 ++ r2)).
Proof.
  unfold apply_company_filters.
  destruct (read_filters E p) as [f|e]; simpl; auto.
  induction c1 as [|c l IH]; simpl.
  - destruct (filter_loop E f c2); reflexivity.
  - destruct (passes E f c) as [keep|e]; simpl; auto.
    rewrite IH.
    destruct (filter_loop E f l) as [r1|e]; simpl; auto.
    destruct (filter_loop E f c2) as [r2|e]; simpl; auto.
    destruct keep; reflexivity.
Qed.

(** X15: with no filter asked for ([minTrustScore] and [minReviews]
    missing or [None], [verifiedOnly] and [country] missing or falsy) every
    company is kept, whatever its fields hold. *)
Theorem apply_company_filters_no_filter
  (E : Env) (companies : list Company) (p : dict) :
  dict_get p "minTrustScore" = VNone ->
  dict_get p "minReviews" = VNone ->
  py_truthy (dict_get p "verifiedOnly") = false ->
  py_truthy (dict_get p "country") = false ->
  apply_company_filters E companies p = Ok companies.
Proof.
  intros Ht Hr Hv Hc. unfold apply_company_filters, read_filters.
  rewrite Ht, Hr, Hv. simpl.
  induction companies as [|c l IH]; simpl; auto.
  unfold passes, _matches_country. simpl. rewrite Hc. simpl.
  rewrite IH. reflexivity.
Qed.

Lemma apply_company_filters_no_filter_witness :
  apply_company_filters Reference.env
    [Reference.company_with (VStr "a") (VStr "n/a") (VList [])]
    [("searchType", VStr "category"); ("country", VStr "")]
  = Ok [Reference.company_with (VStr "a") (VStr "n/a") (VList [])].
Proof.
  apply (apply_company_filters_no_filter Reference.env); reflexivity.
Defined.

(* ------------------------------------------------------------------ *)
(** *** Reading the thresholds *)

Lemma safe_float_outcome (E : Env) (v : pyval) :
  match py_float E v with
  | Ok x => _safe_float E v = Ok (Some x)
  | Raise e =>
      _safe_float E v
      = if is_type_or_value_error e then Ok None else Raise e
  end.
Proof.
  unfold _safe_float. destruct v; simpl; auto;
    match goal with
    | |- context [match ?x with _ => _ end] => destruct x; reflexivity
    end.
Qed.

Lemma safe_int_outcome (E : Env) (v : pyval) :
  match py_int E v with
  | Ok z => _safe_int E v = Ok (Some z)
  | Raise e =>
      _safe_int E v
      = if is_type_or_value_error e then Ok None else Raise e
  end.
Proof.
  unfold _safe_int. destruct v; simpl; auto;
    match goal with
    | |- context [match ?x with _ => _ end] => destruct x; reflexivity
    end.
Qed.

Lemma py_float_raises (E : Env) (v : pyval) (e : exn) :
  py_float E v = Raise e ->
  e = TypeError \/ e = ValueError \/ e = OverflowError.
Proof.
  destruct v; simpl; try (intros H; inversion H; auto; fail).
  - unfold float_of_int.
    destruct (binary_normalize prec emax z 0 false); intros H; inversion H; auto.
  - destruct (float_of_str E s); intros H; inversion H; auto.
Qed.

Lemma py_int_raises (E : Env) (v : pyval) (e : exn) :
  py_int E v = Raise e ->
  e = TypeError \/ e = ValueError \/ e = OverflowError.
Proof.
  destruct v; simpl; try (intros H; inversion H; auto; fail).
  - unfold int_of_float.
    destruct (Prim2SF f) as [| | |[] ? ?]; intros H; inversion H; auto.
  - destruct (int_of_str E s); intros H; inversion H; auto.
Qed.

(** X16: a threshold that cannot be read as a number ([float()] or
    [int()] raising [TypeError] or [ValueError]: an unparseable string, a
    list, a dict, a NaN for [minReviews]) is no threshold: the filters do
    what they do with [None] for it.  The only exception reading the
    parameters can raise is [OverflowError] (an int too large for
    [minTrustScore], an infinite float for [minReviews]). *)
Theorem unreadable_threshold_is_no_threshold
  (E : Env) (companies : list Company) (p : dict) (v : pyval) (e : exn) :
  is_type_or_value_error e = true ->
  (py_float E v = Raise e ->
   apply_company_filters E companies (dict_set p "minTrustScore" v)
   = apply_company_filters E companies (dict_set p "minTrustScore" VNone))
  /\ (py_int E v = Raise e ->
      apply_company_filters E companies (dict_set p "minReviews" v)
      = apply_company_filters E companies (dict_set p "minReviews" VNone))
  /\ (forall e', read_filters E p = Raise e' -> e' = OverflowError).
Proof.
  intros He. split; [|split].
  - intros Hv. unfold apply_company_filters, read_filters.
    rewrite !dict_get_set_same.
    rewrite !(dict_get_set_other _ "minTrustScore") by reflexivity.
    pose proof (safe_float_outcome E v) as Ho. rewrite Hv, He in Ho.
    rewrite Ho. reflexivity.
  - intros Hv. unfold apply_company_filters, read_filters.
    rewrite !dict_get_set_same.
    rewrite !(dict_get_set_other _ "minReviews") by reflexivity.
    pose proof (safe_int_outcome E v) as Ho. rewrite Hv, He in Ho.
    rewrite Ho. reflexivity.
  - intros e' H. unfold read_filters in H.
    pose proof (safe_float_outcome E (dict_get p "minTrustScore")) as Hf.
    pose proof (safe_int_outcome E (dict_get p "minReviews")) as Hi.
    destruct (py_float E (dict_get p "minTrustScore")) as [x|e1] eqn:H1.
    + rewrite Hf in H. simpl in H.
      destruct (py_int E (dict_get p "minReviews")) as [z|e2] eqn:H2.
      * rewrite Hi in H. discriminate.
      * rewrite Hi in H.
        destruct (py_int_raises E _ _ H2) as [-> | [-> | ->]]; simpl in H;
          inversion H; reflexivity.
    + rewrite Hf in H.
      destruct (py_float_raises E _ _ H1) as [-> | [-> | ->]]; simpl in H;
        try (inversion H; reflexivity);
        (destruct (py_int E (dict_get p "minReviews")) as [z|e2] eqn:H2;
         [rewrite Hi in H; discriminate|];
         rewrite Hi in H;
         destruct (py_int_raises E _ _ H2) as [-> | [-> | ->]]; simpl in H;
         inversion H; reflexivity).
Qed.

Lemma unreadable_threshold_is_no_threshold_witness :
  let cs := [Reference.company_with (VStr "a") (VFloat 3.0) (VInt 1)] in
  apply_company_filters Reference.env cs
    (dict_set [("country", VNone)] "minTrustScore" (VStr "high"))
  = apply_company_filters Reference.env cs
      (dict_set [("country", VNone)] "minTrustScore" VNone).
Proof.
  intros cs.
  apply (proj1 (unreadable_threshold_is_no_threshold Reference.env cs
                  [("country", VNone)] (VStr "high") ValueError eq_refl)).
  reflexivity.
Defined.

(* ------------------------------------------------------------------ *)
(** *** A stricter filter keeps fewer companies *)

Lemma filter_loop_weaker (E : Env) (f1 f2 : Filters) (cs : list Company) :
  (forall c b, passes E f2 c = Ok true -> passes E f1 c = Ok b -> b = true) ->
  forall r1 r2,
    filter_loop E f1 cs = Ok r1 -> filter_loop E f2 cs = Ok r2 ->
    Subseq r2 r1.
Proof.
  intros Hw. induction cs as [|c l IH]; simpl; intros r1 r2 H1 H2.
  - inv_bind. constructor.
  - apply bind_Ok in H1. destruct H1 as (b1 & Hb1 & H1).
    apply bind_Ok in H1. destruct H1 as (t1 & Ht1 & H1).
    apply bind_Ok in H2. destruct H2 as (b2 & Hb2 & H2).
    apply bind_Ok in H2. destruct H2 as (t2 & Ht2 & H2).
    inversion H1; inversion H2; subst. specialize (IH _ _ Ht1 Ht2).
    destruct b2.
    + rewrite (Hw c b1 Hb2 Hb1). apply Subseq_keep. exact IH.
    + destruct b1; [apply Subseq_skip|]; exact IH.
Qed.

Lemma compare_int_float_mono (m1 m2 : Z) (f : float) :
  (m1 <= m2)%Z ->
  match compare_int_float m2 f with
  | Some Lt | Some Eq => true
  | _ => false
  end = true ->
  match compare_int_float m1 f with
  | Some Lt | Some Eq => true
  | _ => false
  end = true.
Proof.
  intros Hle. unfold compare_int_float.
  destruct (Prim2SF f) as [s|s| |s m e]; auto.
  - destruct (Z.compare_spec m2 0), (Z.compare_spec m1 0); auto; lia.
  - set (mz := if s then Z.neg m else Z.pos m).
    destruct (Z.leb 0 e).
    + destruct (Z.compare_spec m2 (mz * 2 ^ e)),
               (Z.compare_spec m1 (mz * 2 ^ e)); auto; lia.
    + assert (Hp : (0 <= 2 ^ (- e))%Z) by (apply Z.pow_nonneg; lia).
      assert (Hm : (m1 * 2 ^ (- e) <= m2 * 2 ^ (- e))%Z)
        by (apply Z.mul_le_mono_nonneg_r; assumption).
      destruct (Z.compare_spec (m2 * 2 ^ (- e)) mz),
               (Z.compare_spec (m1 * 2 ^ (- e)) mz); auto; lia.
Qed.

Lemma has_min_reviews_mono (c : Company) (m1 m2 : Z) :
  (m1 <= m2)%Z ->
  _has_min_reviews c (Some m2) = Ok true ->
  _has_min_reviews c (Some m1) = Ok true.
Proof.
  intros Hle. unfold _has_min_reviews, py_ge_num.
  destruct (reviewCount c); simpl; try discriminate.
  - intros H. injection H as Hb. f_equal.
    apply Z.leb_le. apply Z.leb_le in Hb. lia.
  - intros H. injection H as Hb. f_equal.
    apply Z.leb_le. apply Z.leb_le in Hb. lia.
  - intros H. injection H as Hb. f_equal.
    apply (compare_int_float_mono m1 m2 _ Hle Hb).
Qed.

(** X17: raising [minReviews] only removes companies: when both runs
    return, the companies kept with the higher threshold are among those
    kept with the lower one, in the same order. *)
Theorem min_reviews_monotone
  (E : Env) (companies : list Company) (p : dict) (m1 m2 : Z)
  (r1 r2 : list Company) :
  (m1 <= m2)%Z ->
  apply_company_filters E companies (dict_set p "minReviews" (VInt m1)) = Ok r1 ->
  apply_company_filters E companies (dict_set p "minReviews" (VInt m2)) = Ok r2 ->
  Subseq r2 r1.
Proof.
  intros Hle. unfold apply_company_filters, read_filters.
  rewrite !dict_get_set_same.
  rewrite !(dict_get_set_other _ "minReviews") by reflexivity.
  destruct (_safe_float E (dict_get p "minTrustScore")) as [mt|e]; simpl;
    [|discriminate].
  apply filter_loop_weaker. intros c b.
  rewrite !passes_true_iff. simpl.
  intros (Ht & Hc & Hr & Hv) Hb.
  destruct b; auto.
  assert (Hp : passes E {| min_trust := mt;
                           verified_only := py_truthy (dict_get p "verifiedOnly");
                           min_reviews := Some m1;
                           country_filter := dict_get p "country" |} c = Ok true).
  { apply passes_true_iff. simpl. repeat split; auto.
    eapply has_min_reviews_mono; eauto. }
  rewrite Hp in Hb. inversion Hb.
Qed.

Lemma min_reviews_monotone_witness :
  let cs := [Reference.company_with (VStr "a") VNone (VInt 120);
             Reference.company_with (VStr "b") VNone (VInt 60);
             Reference.company_with (VStr "c") VNone (VFloat 10.5)] in
  Subseq [Reference.company_with (VStr "a") VNone (VInt 120)]
         [Reference.company_with (VStr "a") VNone (VInt 120);
          Reference.company_with (VStr "b") VNone (VInt 60)].
Proof.
  intros cs.
  apply (min_reviews_monotone Reference.env cs [] 50 100); [lia | |];
    reflexivity.
Defined.

(** X18: asking for [verifiedOnly] only removes companies: when the run
    with [verifiedOnly] returns, so does the run without it, and the
    companies of the first are among those of the second, in the same order,
    and are those of the second that the verified predicate accepts. *)
Theorem verified_only_removes
  (E : Env) (companies : list Company) (p : dict) (r2 : list Company) :
  apply_company_filters E companies (dict_set p "verifiedOnly" (VBool true))
  = Ok r2 ->
  exists r1,
    apply_company_filters E companies (dict_set p "verifiedOnly" (VBool false))
    = Ok r1
    /\ Subseq r2 r1
    /\ Forall (fun c => _is_verified c = Ok true) r2
    /\ (forall c, In c r1 -> _is_verified c = Ok true -> In c r2).
Proof.
  unfold apply_company_filters, read_filters.
  rewrite !dict_get_set_same.
  rewrite !(dict_get_set_other _ "verifiedOnly") by reflexivity.
  destruct (_safe_float E (dict_get p "minTrustScore")) as [mt|e]; simpl;
    [|discriminate].
  destruct (_safe_int E (dict_get p "minReviews")) as [mr|e]; simpl;
    [|discriminate].
  set (f1 := {| min_trust := mt; verified_only := false; min_reviews := mr;
                country_filter := dict_get p "country" |}).
  set (f2 := {| min_trust := mt; verified_only := true; min_reviews := mr;
                country_filter := dict_get p "country" |}).
  revert r2. induction companies as [|c l IH]; simpl; intros r2 H.
  - inversion H; subst. exists []. repeat split; auto; constructor.
  - apply bind_Ok in H. destruct H as (b2 & Hb2 & H).
    apply bind_Ok in H. destruct H as (t2 & Ht2 & H).
    inversion H; subst; clear H.
    destruct (IH _ Ht2) as (t1 & Ht1 & Hsub & Hall & Hin). rewrite Ht1.
    assert (Hb1 : exists b1, passes E f1 c = Ok b1
                  /\ (b2 = true -> b1 = true /\ _is_verified c = Ok true)
                  /\ (b1 = true -> _is_verified c = Ok true -> b2 = true)).
    { revert Hb2. unfold passes, f1, f2. simpl.
      destruct (_meets_min_trust E c mt) as [[|]|]; simpl;
        try discriminate; try (intros H; inversion H; eexists; split;
                               [reflexivity | split; [discriminate | discriminate]]).
      destruct (_matches_country E c (dict_get p "country")) as [[|]|]; simpl;
        try discriminate; try (intros H; inversion H; eexists; split;
                               [reflexivity | split; [discriminate | discriminate]]).
      destruct (_has_min_reviews c mr) as [[|]|]; simpl;
        try discriminate; try (intros H; inversion H; eexists; split;
                               [reflexivity | split; [discriminate | discriminate]]).
      destruct (_is_verified c) as [[|]|]; simpl; try discriminate;
        intros H; inversion H; eexists; split; try reflexivity;
        split; auto; discriminate. }
    destruct Hb1 as (b1 & -> & H21 & H12). simpl.
    eexists. split; [reflexivity|].
    destruct b2.
    + destruct (H21 eq_refl) as (-> & Hv).
      split; [apply Subseq_keep; exact Hsub|].
      split; [constructor; auto|].
      intros c' [<- | Hc'] Hv'; [left; reflexivity | right; auto].
    + destruct b1.
      * split; [apply Subseq_skip; exact Hsub|]. split; [exact Hall|].
        intros c' [<- | Hc'] Hv'; [|auto].
        specialize (H12 eq_refl Hv'). discriminate.
      * split; [exact Hsub|]. split; [exact Hall|]. exact Hin.
Qed.

Lemma verified_only_removes_witness :
  let cs := [Reference.company_with (VStr "a") (VFloat 4.5) (VInt 120);
             Reference.company_with (VStr "b") (VFloat 4.5) (VInt 10)] in
  exists r1,
    apply_company_filters Reference.env cs
                          (dict_set [] "verifiedOnly" (VBool false)) = Ok r1
    /\ Subseq [Reference.company_with (VStr "a") (VFloat 4.5) (VInt 120)] r1
    /\ Forall (fun c => _is_verified c = Ok true)
              [Reference.company_with (VStr "a") (VFloat 4.5) (VInt 120)]
    /\ (forall c, In c r1 -> _is_verified c = Ok true ->
                  In c [Reference.company_with (VStr "a") (VFloat 4.5) (VInt 120)]).
Proof.
  intros cs.
  apply (verified_only_removes Reference.env cs []). reflexivity.
Defined.

(* ------------------------------------------------------------------ *)
(** *** The country filter *)

Lemma lower_ascii_empty (s : string) :
  String.eqb (lower_ascii s) "" = String.eqb s "".
Proof. destruct s; reflexivity. Qed.

Lemma filter_loop_ext (E : Env) (f1 f2 : Filters) (cs : list Company) :
  (forall c, passes E f1 c = passes E f2 c) ->
  filter_loop E f1 cs = filter_loop E f2 cs.
Proof.
  intros Hp. induction cs as [|c l IH]; simpl; auto.
  rewrite Hp, IH. reflexivity.
Qed.

Lemma matches_country_lower (E : Env) (c : Company) (s1 s2 : string) :
  is_ascii s1 = true -> is_ascii s2 = true ->
  lower_ascii s1 = lower_ascii s2 ->
  _matches_country E c (VStr s1) = _matches_country E c (VStr s2).
Proof.
  intros H1 H2 Hl. unfold _matches_country. cbn [py_truthy py_lower].
  rewrite <- (lower_ascii_empty s1), <- (lower_ascii_empty s2), Hl.
  unfold str_lower. rewrite H1, H2, Hl. reflexivity.
Qed.

(** X19: the country asked for is compared without regard to case: two
    ASCII spellings of one country ([us], [US]) select the same companies
    (and raise alike); and when a country is asked for, every company kept
    has a country, a non-empty string that lower-cases to the lower-cased
    one asked for, so a company without a country is dropped. *)
Theorem country_filter_ignores_case
  (E : Env) (companies : list Company) (p : dict) (s1 s2 : string) :
  is_ascii s1 = true -> is_ascii s2 = true ->
  lower_ascii s1 = lower_ascii s2 ->
  apply_company_filters E companies (dict_set p "country" (VStr s1))
  = apply_company_filters E companies (dict_set p "country" (VStr s2))
  /\ (s1 <> "" ->
      forall r,
        apply_company_filters E companies (dict_set p "country" (VStr s1)) = Ok r ->
        Forall (fun c => exists t, country c = VStr t /\ t <> ""
                                   /\ str_lower E t = lower_ascii s1) r).
Proof.
  intros H1 H2 Hl. split.
  - unfold apply_company_filters, read_filters.
    rewrite !dict_get_set_same.
    rewrite !(dict_get_set_other _ "country") by reflexivity.
    destruct (_safe_float E (dict_get p "minTrustScore")) as [mt|e]; simpl; auto.
    destruct (_safe_int E (dict_get p "minReviews")) as [mr|e]; simpl; auto.
    apply filter_loop_ext. intros c. unfold passes. simpl.
    rewrite (matches_country_lower E c s1 s2 H1 H2 Hl). reflexivity.
  - intros Hne r H. unfold apply_company_filters in H.
    apply bind_Ok in H. destruct H as (f & Hf & H).
    assert (Hc : country_filter f = VStr s1).
    { unfold read_filters in Hf. inv_bind. simpl.
      apply dict_get_set_same. }
    apply filter_loop_passes in H.
    eapply Forall_impl; [|exact H]. intros c Hp.
    apply passes_true_iff in Hp. destruct Hp as (_ & Hm & _).
    rewrite Hc in Hm. unfold _matches_country in Hm.
    cbn [py_truthy py_lower] in Hm.
    destruct (String.eqb s1 "") eqn:He; [apply String.eqb_eq in He; contradiction|].
    cbn [negb] in Hm.
    destruct (country c) as [| | | |t| |]; simpl in Hm; try discriminate;
      try (destruct (negb _); discriminate).
    exists t. split; [reflexivity|].
    destruct (String.eqb t "") eqn:Ht; simpl in Hm; [discriminate|].
    split.
    + intros ->. discriminate.
    + inversion Hm as [Heq]. apply String.eqb_eq in Heq. rewrite Heq.
      unfold str_lower. rewrite H1. reflexivity.
Qed.

Lemma country_filter_ignores_case_witness :
  let cs := [with_country (Reference.company_with (VStr "a") VNone VNone) (VStr "Us");
             with_country (Reference.company_with (VStr "b") VNone VNone) (VStr "DE");
             Reference.company_with (VStr "c") VNone VNone] in
  apply_company_filters Reference.env cs (dict_set [] "country" (VStr "us"))
  = apply_company_filters Reference.env cs (dict_set [] "country" (VStr "US"))
  /\ apply_company_filters Reference.env cs (dict_set [] "country" (VStr "us"))
     = Ok [with_country (Reference.company_with (VStr "a") VNone VNone) (VStr "Us")].
Proof.
  intros cs. split; [|reflexivity].
  apply (proj1 (country_filter_ignores_case Reference.env cs [] "us" "US"
                  eq_refl eq_refl eq_refl)).
Defined.

(* ------------------------------------------------------------------ *)
(** *** The category id of a returned company *)

Section HintInvariant.
Variable E : Env.
Variable now : nat -> string.

Lemma build_company_categoriesID (d : dict) (base : string)
      (hint : option string) (n : nat) (c : Company) (n' : nat) :
  build_company E now d base hint n = Ok (c, n') ->
  categoriesID c = ids_of_hint hint.
Proof. intros H. inv_build_fields H; reflexivity. Qed.

Lemma parse_items_hint (items : list pyval) (base : string) (hint : option string) :
  forall acc n acc' n',
    Forall (fun c => categoriesID c = ids_of_hint hint) (fst acc) ->
    parse_items E now items base hint acc n = Ok (acc', n') ->
    Forall (fun c => categoriesID c = ids_of_hint hint) (fst acc').
Proof.
  induction items as [|item rest IH]; intros acc n acc' n' Hacc H; simpl in H.
  - inversion H; subst. exact Hacc.
  - destruct item; try (eapply IH; eauto; fail).
    apply bindM_Ok in H. destruct H as (o & n1 & Hc & H).
    destruct o as [c|]; [|eapply IH; eauto].
    apply bindM_Ok in H. destruct H as (k & n2 & Hk & H).
    destruct (negb (key_in k (snd acc))); [|eapply IH; eauto].
    eapply IH; [|exact H]. simpl.
    apply Forall_app. split; auto. constructor; [|constructor].
    unfold _company_from_ld_json in Hc.
    apply bindM_Ok in Hc. destruct Hc as (ts & n3 & _ & Hc).
    destruct (negb (is_business ts)); [discriminate|].
    apply bindM_Ok in Hc. destruct Hc as (c' & n4 & Hb & Hc).
    inversion Hc; subst c'. eapply build_company_categoriesID; eauto.
Qed.

Lemma parse_scripts_hint (scripts : list string) (base : string)
      (hint : option string) :
  forall acc n acc' n',
    Forall (fun c => categoriesID c = ids_of_hint hint) (fst acc) ->
    parse_scripts E now scripts base hint acc n = Ok (acc', n') ->
    Forall (fun c => categoriesID c = ids_of_hint hint) (fst acc').
Proof.
  induction scripts as [|raw rest IH]; intros acc n acc' n' Hacc H; simpl in H.
  - inversion H; subst. exact Hacc.
  - destruct (String.eqb raw ""); [eapply IH; eauto|].
    destruct (json_loads E raw) as [data| |e];
      [|eapply IH; eauto|unfold raise in H; discriminate].
    apply bindM_Ok in H. destruct H as (acc1 & n1 & Hi & H).
    eapply IH; [|exact H]. eapply parse_items_hint; eauto.
Qed.

Lemma parse_ld_json_blocks_hint (html base : string) (hint : option string)
      (n : nat) (cs : list Company) (n' : nat) :
  _parse_ld_json_blocks E now html base hint n = Ok (cs, n') ->
  Forall (fun c => categoriesID c = ids_of_hint hint) cs.
Proof.
  unfold _parse_ld_json_blocks. intros H.
  apply bindM_Ok in H. destruct H as (acc & n1 & Hs & H).
  inversion H; subst.
  eapply parse_scripts_hint; [|exact Hs]. constructor.
Qed.

Lemma fetch_pages_hint (url_of : Z -> string) (base : string)
      (hint : option string) (pages : list Z) :
  forall companies n cs n',
    Forall (fun c => categoriesID c = ids_of_hint hint) companies ->
    fetch_pages E now url_of base hint pages companies n = Ok (cs, n') ->
    Forall (fun c => categoriesID c = ids_of_hint hint) cs.
Proof.
  induction pages as [|page rest IH]; intros companies n cs n' Hc H; simpl in H.
  - inversion H; subst. exact Hc.
  - destruct (_fetch_page E (url_of page)) as [[html|]|e];
      [|eapply IH; eauto|unfold raise in H; discriminate].
    destruct (String.eqb html ""); [eapply IH; eauto|].
    apply bindM_Ok in H. destruct H as (batch & n1 & Hb & H).
    eapply IH; [|exact H].
    apply Forall_app. split; auto.
    eapply parse_ld_json_blocks_hint; eauto.
Qed.

Lemma collect_companies_hint (params config : dict) (st : string)
      (n : nat) (cs : list Company) (n' : nat) :
  search_type_of E params = Ok st ->
  collect_companies E now params config n = Ok (cs, n') ->
  Forall (fun c => categoriesID c = ids_of_hint (hint_of E params st)) cs
  /\ (st = "category" -> py_truthy (dict_get params "categoryId") = true).
Proof.
  intros Hst H. unfold collect_companies in H. inv_bindM H.
  assert (a1 = st) by congruence. subst a1.
  assert (Hat : forall l,
             Forall (fun c => categoriesID c = ids_of_hint (hint_of E params st)) l ->
             Forall (fun c => categoriesID c = ids_of_hint (hint_of E params st))
                    (_attach_reviews_to_companies E l config params)).
  { intros l. apply attach_reviews_Forall. intros c rs Hc. exact Hc. }
  unfold hint_of.
  destruct (String.eqb st "category") eqn:Hcat.
  { unfold _search_by_category in H.
    destruct (py_truthy (dict_get params "categoryId")) eqn:Hid;
      [|discriminate].
    cbn [negb] in H. inv_bindM H. inversion H; subst.
    split; [|reflexivity].
    unfold hint_of in Hat. rewrite Hcat in Hat.
    apply Hat. eapply fetch_pages_hint; [|eauto]. constructor. }
  assert (Hne : st = "category" -> py_truthy (dict_get params "categoryId") = true).
  { intros ->. discriminate. }
  split; [|exact Hne].
  unfold hint_of in Hat. rewrite Hcat in Hat.
  destruct (String.eqb st "keyword").
  { unfold _search_by_keyword in H.
    destruct (negb (py_truthy (dict_get params "keyword"))); [discriminate|].
    inv_bindM H. inversion H; subst.
    apply Hat. eapply (fetch_pages_hint _ _ None); [|eauto]. constructor. }
  destruct (String.eqb st "detail"); [|discriminate].
  unfold _search_detail in H.
  destruct (negb (py_truthy (dict_get params "domain"))); [discriminate|].
  cbv zeta in H.
  destruct (_fetch_page E _) as [[html|]|e];
    [|inversion H; constructor|unfold raise in H; discriminate].
  destruct (String.eqb html ""); [inversion H; constructor|].
  apply bindM_Ok in H. destruct H as (batch & n1 & Hb & H).
  apply parse_ld_json_blocks_hint in Hb.
  destruct batch; inversion H; subst; [constructor|].
  apply Hat. exact Hb.
Qed.

End HintInvariant.

(** X20: every company a category search returns carries the category
    asked for, and nothing else, as its [categoriesID] ([str(categoryId)]; for
    a [categoryId] that is a string, that string); the companies of a keyword
    or a detail search carry none. *)
Theorem search_companies_category_ids
  (E : Env) (now : nat -> string) (params config : dict) (n : nat)
  (r : list Company) (n' : nat) (st : string) :
  search_companies E now params config n = Ok (r, n') ->
  search_type_of E params = Ok st ->
  Forall (fun c => categoriesID c = ids_of_hint (hint_of E params st)) r
  /\ (st = "category" ->
      forall s, dict_get params "categoryId" = VStr s ->
                Forall (fun c => categoriesID c = [s]) r)
  /\ (st <> "category" -> Forall (fun c => categoriesID c = []) r).
Proof.
  intros H Hst.
  apply search_companies_Ok in H. destruct H as (cs & Hc & Hu).
  apply unique_companies_first_of_each_key in Hu. destruct Hu as (_ & Hsub & _).
  destruct (collect_companies_hint E now params config st n cs n' Hst Hc)
    as (Hall & Hid).
  pose proof (Subseq_Forall _ _ _ Hsub Hall) as Hr.
  split; [exact Hr|]. split.
  - intros -> s Hs. specialize (Hid eq_refl).
    unfold hint_of in Hr. simpl in Hr. rewrite Hs in Hid, Hr.
    simpl in Hid, Hr.
    destruct (String.eqb s ""); [discriminate|]. exact Hr.
  - intros Hne. unfold hint_of in Hr.
    destruct (String.eqb st "category") eqn:Hcat;
      [apply String.eqb_eq in Hcat; contradiction|].
    exact Hr.
Qed.

Lemma search_companies_category_ids_witness :
  exists r,
    search_companies Reference.env Reference.clock Reference.params_category [] 0
    = Ok (r, 4)
    /\ List.length r = 1
    /\ Forall (fun c => categoriesID c = ["123"]) r.
Proof.
  eexists. split; [vm_compute; reflexivity|]. split; [reflexivity|].
  apply (proj1 (proj2 (search_companies_category_ids
                         Reference.env Reference.clock Reference.params_category
                         [] 0 _ 4 "category" eq_refl eq_refl)) eq_refl "123").
  reflexivity.
Defined.

(* ------------------------------------------------------------------ *)
(** *** Two filters, one after the other *)

Lemma filter_loop_filter (E : Env) (f : Filters) (cs r : list Company) :
  filter_loop E f cs = Ok r ->
  r = filter (keeps E f) cs
  /\ Forall (fun c => exists b, passes E f c = Ok b) cs.
Proof.
  revert r. induction cs as [|c l IH]; simpl; intros r H.
  - inversion H. split; [reflexivity | constructor].
  - apply bind_Ok in H. destruct H as (b & Hb & H).
    apply bind_Ok in H. destruct H as (t & Ht & H).
    inversion H; subst; clear H.
    destruct (IH _ Ht) as (-> & Hall).
    split; [|constructor; eauto].
    assert (Hk : keeps E f c = b)
      by (unfold keeps; rewrite Hb; destruct b; reflexivity).
    rewrite Hk. reflexivity.
Qed.

Lemma filter_loop_defined (E : Env) (f : Filters) (cs : list Company) :
  Forall (fun c => exists b, passes E f c = Ok b) cs ->
  filter_loop E f cs = Ok (filter (keeps E f) cs).
Proof.
  induction 1 as [|c l (b & Hb) _ IH]; simpl; auto.
  assert (Hk : keeps E f c = b)
    by (unfold keeps; rewrite Hb; destruct b; reflexivity).
  rewrite Hb, IH, Hk. reflexivity.
Qed.

Lemma filter_filter_comm {A : Type} (f g : A -> bool) (l : list A) :
  filter f (filter g l) = filter g (filter f l).
Proof.
  induction l as [|x l IH]; simpl; auto.
  destruct (g x) eqn:Hg, (f x) eqn:Hf; simpl;
    rewrite ?Hg, ?Hf, IH; reflexivity.
Qed.

Lemma Forall_filter_keep {A : Type} (P : A -> Prop) (f : A -> bool) (l : list A) :
  Forall P l -> Forall P (filter f l).
Proof.
  induction 1 as [|x l Hx _ IH]; simpl; auto.
  destruct (f x); auto.
Qed.

(** X21: two sets of filters that each go through on a list can be applied
    one after the other in either order: neither order raises, both give the
    same list, and that list holds the companies both filters keep. *)
Theorem apply_company_filters_commute
  (E : Env) (companies : list Company) (p1 p2 : dict) (r1 r2 : list Company) :
  apply_company_filters E companies p1 = Ok r1 ->
  apply_company_filters E companies p2 = Ok r2 ->
  exists r,
    apply_company_filters E r1 p2 = Ok r
    /\ apply_company_filters E r2 p1 = Ok r
    /\ (forall c, In c r <-> In c r1 /\ In c r2).
Proof.
  unfold apply_company_filters. intros H1 H2.
  apply bind_Ok in H1. destruct H1 as (f1 & Hf1 & H1).
  apply bind_Ok in H2. destruct H2 as (f2 & Hf2 & H2).
  rewrite Hf1, Hf2. simpl.
  destruct (filter_loop_filter E f1 _ _ H1) as (-> & Hd1).
  destruct (filter_loop_filter E f2 _ _ H2) as (-> & Hd2).
  exists (filter (keeps E f2) (filter (keeps E f1) companies)).
  split; [|split].
  - apply filter_loop_defined. apply Forall_filter_keep. exact Hd2.
  - rewrite filter_filter_comm.
    apply filter_loop_defined. apply Forall_filter_keep. exact Hd1.
  - intros c. rewrite !filter_In. tauto.
Qed.

Lemma apply_company_filters_commute_witness :
  let cs := [Reference.company_with (VStr "a") (VFloat 4.5) (VInt 120);
             Reference.company_with (VStr "b") (VFloat 4.5) (VInt 60);
             Reference.company_with (VStr "c") (VFloat 3.0) (VInt 200)] in
  exists r,
    apply_company_filters Reference.env
      [Reference.company_with (VStr "a") (VFloat 4.5) (VInt 120);
       Reference.company_with (VStr "c") (VFloat 3.0) (VInt 200)]
      [("verifiedOnly", VBool true)] = Ok r
    /\ apply_company_filters Reference.env
         [Reference.company_with (VStr "a") (VFloat 4.5) (VInt 120);
          Reference.company_with (VStr "b") (VFloat 4.5) (VInt 60)]
         [("minReviews", VInt 100)] = Ok r
    /\ (forall c, In c r <->
          In c [Reference.company_with (VStr "a") (VFloat 4.5) (VInt 120);
                Reference.company_with (VStr "c") (VFloat 3.0) (VInt 200)]
          /\ In c [Reference.company_with (VStr "a") (VFloat 4.5) (VInt 120);
                   Reference.company_with (VStr "b") (VFloat 4.5) (VInt 60)]).
Proof.
  intros cs.
  apply (apply_company_filters_commute Reference.env cs
           [("minReviews", VInt 100)] [("verifiedOnly", VBool true)]);
    reflexivity.
Defined.

(* ------------------------------------------------------------------ *)
(** *** The whole run *)

Import main_py.

Lemma Subseq_NoDup_map {A B : Type} (f : A -> B) (l1 l2 : list A) :
  Subseq l1 l2 -> NoDup (map f l2) -> NoDup (map f l1).
Proof.
  induction 1 as [|x l1 l2 Hs IH|x l1 l2 Hs IH]; simpl; intros Hnd; auto.
  - inversion Hnd; auto.
  - inversion Hnd as [|y l Hnin Hnd']; subst. constructor; auto.
    intros Hin. apply Hnin.
    apply in_map_iff in Hin. destruct Hin as (z & Hz & Hin).
    apply in_map_iff. exists z. split; auto.
    eapply Subseq_In; eauto.
Qed.

Lemma unique_companies_keys_truthy (companies r : list Company) :
  unique_companies companies = Ok r ->
  Forall (fun c => py_truthy (identity_key c) = true) r.
Proof.
  unfold unique_companies. intros H. inv_bind.
  destruct (unique_loop_inv _ _ _ Ha) as (added & -> & _ & Hall & _).
  simpl. apply Forall_forall. intros c Hin.
  apply in_map_iff in Hin. destruct Hin as (kc & <- & Hin).
  rewrite Forall_forall in Hall. specialize (Hall kc Hin).
  unfold key_of in Hall.
  destruct (py_truthy (identity_key (snd kc))); [reflexivity | discriminate].
Qed.

(** X22: when [main] runs to its end, both files held a JSON object, the
    search and the filters went through, and what was written is the
    filtered result of the search (also when it is empty): companies the
    search found, in the order found, no two of one identity key, each of a
    non-empty key, and each one passing the filters of the input again. *)
Theorem main_writes_filtered_distinct
  (E : Env) (now : nat -> string) (input_json config_json : option pyval)
  (export_ok : list Company -> bool) (written : list Company) :
  main E now input_json config_json export_ok = Completed written ->
  exists params config found n',
    input_json = Some (VDict params)
    /\ config_json = Some (VDict config)
    /\ search_companies E now params config 0 = Ok (found, n')
    /\ apply_company_filters E found params = Ok written
    /\ export_ok written = true
    /\ Subseq written found
    /\ NoDup (map key_of written)
    /\ Forall (fun c => py_truthy (identity_key c) = true) written
    /\ apply_company_filters E written params = Ok written.
Proof.
  unfold main, load_config. intros H.
  destruct input_json as [[| | | | | |params]|]; try discriminate.
  destruct config_json as [[| | | | | |config]|]; try discriminate.
  destruct (search_companies E now params config 0) as [[found n']|e] eqn:Hs;
    [|discriminate].
  destruct (apply_company_filters E found params) as [kept|e] eqn:Hf;
    [|discriminate].
  destruct (export_ok kept) eqn:Hx; [|discriminate].
  inversion H; subst kept; clear H.
  exists params, config, found, n'.
  assert (Hsub : Subseq written found).
  { unfold apply_company_filters in Hf.
    apply bind_Ok in Hf. destruct Hf as (f & _ & Hf).
    eapply filter_loop_Subseq; eauto. }
  apply search_companies_Ok in Hs. destruct Hs as (cs & Hc & Hu).
  pose proof (unique_companies_keys_truthy _ _ Hu) as Hk.
  pose proof (unique_companies_first_of_each_key _ _ Hu) as (Hnd & _).
  repeat (split; [first [reflexivity | assumption]|]).
  split.
  { unfold search_companies, bindM, lift. rewrite Hc, Hu. reflexivity. }
  repeat (split; [first [reflexivity | assumption]|]).
  split; [eapply Subseq_NoDup_map; eauto|].
  split; [eapply Subseq_Forall; eauto|].
  pose proof (apply_company_filters_twice E found params) as Ht.
  rewrite Hf in Ht. exact Ht.
Qed.

Lemma main_writes_filtered_distinct_witness :
  exists written,
    main Reference.env Reference.clock
         (Some (VDict Reference.params_category)) (Some (VDict []))
         (fun _ => true)
    = Completed written
    /\ List.length written = 1
    /\ NoDup (map key_of written).
Proof.
  eexists. split; [vm_compute; reflexivity|]. split; [reflexivity|].
  match goal with
  | |- NoDup (map key_of ?w) =>
      assert (Hm : main Reference.env Reference.clock
                        (Some (VDict Reference.params_category))
                        (Some (VDict [])) (fun _ => true)
                   = Completed w) by (vm_compute; reflexivity);
      destruct (main_writes_filtered_distinct _ _ _ _ _ _ Hm)
        as (params & config & found & n' & _ & _ & _ & _ & _ & _ & Hnd & _)
  end.
  exact Hnd.
Defined.

(* ------------------------------------------------------------------ *)
(** *** The reviews of a returned company *)

Lemma fetch_reviews_bound (E : Env) (company_url language : pyval) (m : Z)
      (rs : list Review) :
  (0 <= m)%Z ->
  fetch_reviews E company_url language (VInt m) = Ok rs ->
  List.length rs <= Z.to_nat m.
Proof.
  intros Hm. unfold fetch_reviews.
  destruct (session_get_languages E company_url language) as [[|] page| |le];
    cbn [negb].
  - destruct (_parse_reviews_from_html E page) as [all|e]; [|discriminate].
    unfold py_ge_num. cbn [num_of bind num_ge].
    assert (Hle : (0 <=? m)%Z = true) by (apply Z.leb_le; exact Hm).
    rewrite Hle. cbn [slice_to]. intros H. inversion H; subst.
    rewrite length_firstn. apply Nat.le_min_l.
  - intros H. inversion H; subst. apply Nat.le_0_l.
  - intros H. inversion H; subst. apply Nat.le_0_l.
  - discriminate.
Qed.

(** X23: the reviews of a returned company are those asked for: without
    [includeReviews] no company has any review, and with an int
    [maxReviewsPerCompany] of [m >= 0] no company has more than [m]. *)
Theorem search_companies_review_cap
  (E : Env) (now : nat -> string) (params config : dict) (n : nat)
  (r : list Company) (n' : nat) :
  search_companies E now params config n = Ok (r, n') ->
  (py_truthy (dict_get params "includeReviews") = false ->
   Forall (fun c => reviews c = [] /\ lastReviews c = []) r)
  /\ (forall m, dict_get params "maxReviewsPerCompany" = VInt m ->
                (0 <= m)%Z ->
                Forall (fun c => List.length (reviews c) <= Z.to_nat m) r).
Proof.
  intros H. split.
  - intros Hinc. revert H. apply search_companies_Forall.
    + intros d base hint k c k' Hb. inv_build_fields Hb; split; reflexivity.
    + intros cs Hcs. unfold _attach_reviews_to_companies.
      rewrite Hinc. exact Hcs.
  - intros m Hmax Hm. revert H. apply search_companies_Forall.
    + intros d base hint k c k' Hb. inv_build_fields Hb; apply Nat.le_0_l.
    + intros cs Hcs. unfold _attach_reviews_to_companies.
      destruct (negb (py_truthy (dict_get params "includeReviews"))); auto.
      rewrite Hmax. apply Forall_map. eapply Forall_impl; [|exact Hcs].
      intros c Hc. unfold attach_reviews.
      destruct (negb (py_truthy (sourceUrl c))); auto.
      destruct (fetch_reviews E (sourceUrl c) _ (VInt m)) as [rs|e] eqn:Hf; auto.
      cbn [reviews set_reviews].
      eapply fetch_reviews_bound; eauto.
Qed.

Lemma search_companies_review_cap_witness :
  exists r r',
    search_companies Reference.env Reference.clock Reference.params_reviews [] 0
    = Ok (r, 4)
    /\ map (fun c => map id (reviews c)) r
       = [[Some "r1"; Some "64f0c1"; Some "r3"; Some "r4"]]
    /\ Forall (fun c => List.length (reviews c) <= 4) r
    /\ search_companies Reference.env Reference.clock Reference.params_category [] 0
       = Ok (r', 4)
    /\ List.length r' = 1
    /\ Forall (fun c => reviews c = [] /\ lastReviews c = []) r'.
Proof.
  eexists. eexists.
  split; [vm_compute; reflexivity|]. split; [reflexivity|].
  split.
  { match goal with
    | |- Forall _ ?w =>
        assert (Hs : search_companies Reference.env Reference.clock
                                      Reference.params_reviews [] 0
                     = Ok (w, 4)) by (vm_compute; reflexivity);
        apply (proj2 (search_companies_review_cap _ _ _ _ _ _ _ Hs) 4%Z);
          [reflexivity | lia]
    end. }
  split; [vm_compute; reflexivity|]. split; [reflexivity|].
  match goal with
  | |- Forall _ ?w =>
      assert (Hs : search_companies Reference.env Reference.clock
                                    Reference.params_category [] 0
                   = Ok (w, 4)) by (vm_compute; reflexivity);
      apply (proj1 (search_companies_review_cap _ _ _ _ _ _ _ Hs))
  end.
  reflexivity.
Defined.

(* ------------------------------------------------------------------ *)
(** *** The review id read off a link *)

Import review_link.

Lemma string_app_assoc (a b c : string) : ((a ++ b) ++ c = a ++ b ++ c)%string.
Proof. induction a as [|x a IH]; simpl; [reflexivity | rewrite IH; reflexivity]. Qed.

Lemma string_app_nil_r (a : string) : (a ++ "" = a)%string.
Proof. induction a as [|x a IH]; simpl; [reflexivity | rewrite IH; reflexivity]. Qed.

Section Split.
Variable c : ascii.

Lemma split_char_cons (s : string) :
  exists seg rest, split_char c s = seg :: rest.
Proof.
  destruct s as [|a s]; simpl; eauto.
  destruct (Ascii.eqb a c); eauto.
  destruct (split_char c s); eauto.
Qed.

Lemma split_char_no_sep (s : string) :
  Forall (fun seg => has_char c seg = false) (split_char c s).
Proof.
  induction s as [|a s IH]; simpl.
  - constructor; [reflexivity | constructor].
  - destruct (Ascii.eqb a c) eqn:Ha.
    + constructor; [reflexivity | exact IH].
    + destruct (split_char c s) as [|seg rest].
      * constructor; [simpl; rewrite Ha; reflexivity | constructor].
      * inversion IH; subst. constructor; auto.
        simpl. rewrite Ha. simpl. assumption.
Qed.

Lemma join_cons (x : string) (l : list string) :
  join (String c "") (x :: l)
  = (x ++ match l with [] => "" | _ :: _ => (String c "") ++ join (String c "") l end)%string.
Proof.
  destruct l; simpl; [rewrite string_app_nil_r; reflexivity | reflexivity].
Qed.

Lemma join_split_char (s : string) : join (String c "") (split_char c s) = s.
Proof.
  induction s as [|a s IH]; [reflexivity|].
  cbn [split_char].
  destruct (split_char_cons s) as (seg & rest & Hs).
  rewrite Hs in IH |- *.
  destruct (Ascii.eqb a c) eqn:Ha.
  - apply Ascii.eqb_eq in Ha. subst a.
    rewrite join_cons. cbn [append]. rewrite IH. reflexivity.
  - rewrite join_cons. rewrite join_cons in IH.
    rewrite <- IH. reflexivity.
Qed.

Lemma join_app_cons (l1 l2 : list string) (x : string) :
  join (String c "") (l1 ++ x :: l2)
  = (match l1 with [] => "" | _ :: _ => join (String c "") l1 ++ (String c "") end
     ++ x
     ++ match l2 with [] => "" | _ :: _ => (String c "") ++ join (String c "") l2 end)%string.
Proof.
  induction l1 as [|y l1 IH].
  - simpl app. rewrite join_cons. reflexivity.
  - change ((y :: l1) ++ x :: l2) with (y :: (l1 ++ x :: l2)).
    rewrite join_cons, IH.
    destruct l1 as [|z l1].
    + simpl. rewrite string_app_assoc. reflexivity.
    + cbn [app]. rewrite (join_cons y (z :: l1)).
      rewrite !string_app_assoc. reflexivity.
Qed.

Lemma only_char_app (a b : string) :
  only_char c (a ++ b) = only_char c a && only_char c b.
Proof.
  induction a as [|x a IH]; simpl; [reflexivity|].
  rewrite IH, andb_assoc. reflexivity.
Qed.

Lemma join_empties (l : list string) :
  Forall (fun p => p = "") l -> only_char c (join (String c "") l) = true.
Proof.
  induction 1 as [|x l Hx _ IH]; [reflexivity|].
  rewrite join_cons. subst x. simpl.
  destruct l; [reflexivity|].
  simpl. rewrite Ascii.eqb_refl. exact IH.
Qed.

Lemma filter_nonempty_nil (l : list string) :
  filter nonempty l = [] -> Forall (fun p => p = "") l.
Proof.
  induction l as [|x l IH]; simpl; intros H; [constructor|].
  destruct (nonempty x) eqn:Hx; [discriminate|].
  unfold nonempty in Hx. apply negb_false_iff in Hx.
  apply String.eqb_eq in Hx. constructor; auto.
Qed.

Lemma last_nonempty (l : list string) :
  filter nonempty l <> [] ->
  exists l1 l2,
    l = l1 ++ last (filter nonempty l) "" :: l2
    /\ last (filter nonempty l) "" <> ""
    /\ Forall (fun p => p = "") l2.
Proof.
  induction l as [|x l IH]; simpl; intros Hne; [contradiction|].
  destruct (filter nonempty l) as [|y t] eqn:Hf.
  - destruct (nonempty x) eqn:Hx; simpl in Hne |- *; [|contradiction].
    exists [], l. split; [reflexivity|]. split.
    + unfold nonempty in Hx. apply negb_true_iff in Hx.
      apply String.eqb_neq. exact Hx.
    + apply filter_nonempty_nil. exact Hf.
  - destruct IH as (l1 & l2 & Hl & Hid & Hl2); [discriminate|].
    exists (x :: l1), l2.
    assert (Hlast : last (if nonempty x then x :: y :: t else y :: t) ""
                    = last (y :: t) "")
      by (destruct (nonempty x); reflexivity).
    rewrite Hlast. split; [cbn [app]; rewrite <- Hl; reflexivity|]. auto.
Qed.

Lemma split_char_only (s : string) :
  only_char c s = true -> filter nonempty (split_char c s) = [].
Proof.
  induction s as [|a s IH]; simpl; intros H; [reflexivity|].
  apply andb_true_iff in H. destruct H as (Ha & Hs).
  rewrite Ha. simpl. apply IH. exact Hs.
Qed.

Lemma split_char_some (s : string) :
  only_char c s = false -> filter nonempty (split_char c s) <> [].
Proof.
  induction s as [|a s IH]; simpl; intros H; [discriminate|].
  destruct (Ascii.eqb a c) eqn:Ha; simpl in H |- *.
  - apply IH. exact H.
  - destruct (split_char c s); simpl; discriminate.
Qed.

End Split.

(** X24: the review id read off the first link of a card is the last
    non-empty segment of the link's path: it is not empty, holds no slash,
    is followed in the path by slashes only and preceded by nothing or by a
    slash.  When the path has no segment (it is empty or made of slashes)
    the id is the whole [href] as it stands; without a link there is no
    id. *)
Theorem extract_review_id_last_segment
  (urlparse_path : string -> option string) (href path : string) :
  urlparse_path href = Some path ->
  _extract_review_id urlparse_path None = Ok None
  /\ (only_char "/" path = true ->
      _extract_review_id urlparse_path (Some href) = Ok (Some href))
  /\ (only_char "/" path = false ->
      exists pre id_ post,
        _extract_review_id urlparse_path (Some href) = Ok (Some id_)
        /\ path = (pre ++ id_ ++ post)%string
        /\ id_ <> ""
        /\ has_char "/" id_ = false
        /\ only_char "/" post = true
        /\ (pre = "" \/ exists pre', pre = (pre' ++ "/")%string)).
Proof.
  intros Hp. split; [reflexivity|]. unfold _extract_review_id. rewrite Hp.
  split.
  - intros Ho. cbv zeta. rewrite (split_char_only "/" path Ho). reflexivity.
  - intros Ho. cbv zeta.
    pose proof (split_char_some "/" path Ho) as Hne.
    destruct (last_nonempty _ Hne) as (l1 & l2 & Hl & Hid & Hl2).
    set (parts := filter nonempty (split_char "/" path)) in *.
    exists (match l1 with [] => "" | _ :: _ => join "/" l1 ++ "/" end)%string,
           (last parts ""),
           (match l2 with [] => "" | _ :: _ => "/" ++ join "/" l2 end)%string.
    split; [destruct parts; [contradiction | reflexivity]|].
    split.
    { rewrite <- (join_split_char "/" path) at 1. rewrite Hl.
      apply join_app_cons. }
    split; [exact Hid|].
    split.
    { pose proof (split_char_no_sep "/" path) as Hall.
      rewrite Hl in Hall. apply Forall_app in Hall. destruct Hall as (_ & Hall).
      inversion Hall; subst. assumption. }
    split.
    { destruct l2 as [|x l2]; [reflexivity|].
      rewrite (only_char_app "/" "/" (join "/" (x :: l2))).
      rewrite (join_empties "/" _ Hl2). reflexivity. }
    destruct l1; [left; reflexivity | right; eauto].
Qed.

Lemma extract_review_id_last_segment_witness :
  _extract_review_id (fun _ => Some "/reviews/64f0c1/") (Some "/reviews/64f0c1/")
  = Ok (Some "64f0c1")
  /\ exists pre id_ post,
      _extract_review_id (fun _ => Some "/reviews/64f0c1/")
                         (Some "/reviews/64f0c1/")
      = Ok (Some id_)
      /\ "/reviews/64f0c1/" = (pre ++ id_ ++ post)%string
      /\ id_ <> ""
      /\ has_char "/" id_ = false
      /\ only_char "/" post = true
      /\ (pre = "" \/ exists pre', pre = (pre' ++ "/")%string).
Proof.
  split; [reflexivity|].
  apply (proj2 (proj2 (extract_review_id_last_segment
                         (fun _ => Some "/reviews/64f0c1/")
                         "/reviews/64f0c1/" "/reviews/64f0c1/" eq_refl))).
  reflexivity.
Defined.

(* ------------------------------------------------------------------ *)
(** *** A rating given as a numeric string *)








